(** * Proxmox REST client: a shallow embedding of [ProxmoxClient]

    The TypeScript class [ProxmoxClient] (proxmoxClient.ts) is embedded as
    Rocq functions.  Strings are sequences of code units below 256, numbers
    that carry identifiers, times and sizes are integers ([Z]), the CPU load is
    a rational.  Asynchronous methods become computations in a small monad that
    threads the log of transport invocations and may reject.

    What the class takes from its host platform (the [URL] constructor,
    [JSON.parse] followed by the unchecked [as T] assertion, the [request]
    function of [node:http] / [node:https], the order in which two pending
    requests settle) is gathered in a [Runtime] record; the general theorems
    hold for every runtime, and the module [Double] gives a concrete one, a
    transport double with canned answers, on which the client is run. *)

From Stdlib Require Import ZArith QArith Qround Qabs List String Ascii Bool Lia.
From Stdlib Require Import DecimalString Sorted Permutation.
Import ListNotations.

#[local] Open Scope string_scope.
#[local] Open Scope Z_scope.

(** ** Strings as the platform handles them *)

Module Js.

(** [WhiteSpace] and [LineTerminator] code units below 256: TAB, LF, VT, FF,
    CR, SP and NBSP. *)
Definition isWhiteSpace (c : ascii) : bool :=
  let n := nat_of_ascii c in
  (((9 <=? n) && (n <=? 13)) || (n =? 32) || (n =? 160))%nat.

Fixpoint trimStart (s : string) : string :=
  match s with
  | EmptyString => EmptyString
  | String c s' => if isWhiteSpace c then trimStart s' else s
  end.

Fixpoint trimEnd (s : string) : string :=
  match s with
  | EmptyString => EmptyString
  | String c s' =>
      match trimEnd s' with
      | EmptyString => if isWhiteSpace c then EmptyString else String c EmptyString
      | r => String c r
      end
  end.

(** [String.prototype.trim] *)
Definition trim (s : string) : string := trimEnd (trimStart s).

(** [String.prototype.endsWith] *)
Definition endsWith (s suffix : string) : bool :=
  let n := String.length s in
  let k := String.length suffix in
  ((k <=? n)%nat && String.eqb (substring (n - k) k s) suffix).

(** Truthiness of a string: only the empty string is falsy. *)
Definition truthy (s : string) : bool := negb (String.eqb s "").

(** [Number.prototype.toString] on an integer. *)
Definition Number_toString (n : Z) : string :=
  NilZero.string_of_int (Z.to_int n).

(** [String(b)] on a boolean. *)
Definition Boolean_toString (b : bool) : string :=
  if b then "true" else "false".

Definition hexDigit (n : nat) : ascii :=
  match n with
  | 0 => "0" | 1 => "1" | 2 => "2" | 3 => "3" | 4 => "4" | 5 => "5"
  | 6 => "6" | 7 => "7" | 8 => "8" | 9 => "9" | 10 => "A" | 11 => "B"
  | 12 => "C" | 13 => "D" | 14 => "E" | _ => "F"
  end%nat%char.

(** The UTF-8 bytes of one code unit below 256. *)
Definition utf8 (c : ascii) : list nat :=
  let n := nat_of_ascii c in
  if (n <? 128)%nat then [n]
  else [192 + n / 64; 128 + n mod 64]%nat.

Definition percentByte (b : nat) : string :=
  String "%" (String (hexDigit (b / 16)) (String (hexDigit (b mod 16)) EmptyString)).

Definition percentEncode (c : ascii) : string :=
  fold_right (fun b acc => percentByte b ++ acc) "" (utf8 c).

Definition isAlphaNum (c : ascii) : bool :=
  let n := nat_of_ascii c in
  (((48 <=? n) && (n <=? 57)) || ((65 <=? n) && (n <=? 90))
   || ((97 <=? n) && (n <=? 122)))%nat.

Definition oneOf (set : string) (c : ascii) : bool :=
  existsb (Ascii.eqb c) (list_ascii_of_string set).

Fixpoint encodeWith (keep : ascii -> bool) (s : string) : string :=
  match s with
  | EmptyString => EmptyString
  | String c s' =>
      (if keep c then String c EmptyString else percentEncode c)
      ++ encodeWith keep s'
  end.

(** [encodeURIComponent]: letters, digits and [-_.!~*'()] are kept. *)
Definition encodeURIComponent (s : string) : string :=
  encodeWith (fun c => isAlphaNum c || oneOf "-_.!~*'()" c) s.

(** The [application/x-www-form-urlencoded] serializer behind
    [URLSearchParams.prototype.toString]: letters, digits and [*-._] are kept,
    a space becomes [+]. *)
Fixpoint formEncode (s : string) : string :=
  match s with
  | EmptyString => EmptyString
  | String c s' =>
      (if (isAlphaNum c || oneOf "*-._" c)%bool then String c EmptyString
       else if Ascii.eqb c " " then "+"
       else percentEncode c) ++ formEncode s'
  end.

Fixpoint URLSearchParams_toString (entries : list (string * string)) : string :=
  match entries with
  | [] => ""
  | [(k, v)] => formEncode k ++ "=" ++ formEncode v
  | (k, v) :: rest =>
      formEncode k ++ "=" ++ formEncode v ++ "&" ++ URLSearchParams_toString rest
  end.

(** [Buffer.byteLength] with the default UTF-8 encoding. *)
Definition Buffer_byteLength (s : string) : Z :=
  Z.of_nat (List.length (flat_map utf8 (list_ascii_of_string s))).

(** [haystack] contains [needle] as a contiguous piece. *)
Definition contains (haystack needle : string) : Prop :=
  exists before after, haystack = before ++ needle ++ after.

(** [Array.prototype.sort] with a comparison function: the sort is stable, an
    element moves in front of another only when the comparison is positive the
    other way round.  The elements are inserted from the right, each in front
    of the first element it does not compare greater than. *)
Section Sort.
Context {A : Type} (comparefn : A -> A -> Z).

Fixpoint insert (x : A) (l : list A) : list A :=
  match l with
  | [] => [x]
  | y :: l' => if comparefn x y <=? 0 then x :: l else y :: insert x l'
  end.

Definition Array_sort (l : list A) : list A := fold_right insert [] l.
End Sort.

End Js.

(** ** Data model *)

(** ['online' | 'offline' | 'unknown'] *)
Module NodeStatus.
Inductive t := online | offline | unknown.
End NodeStatus.

(** ['running' | 'stopped' | 'unknown'] *)
Module VmStatus.
Inductive t := running | stopped | unknown.

End VmStatus.

(** ['qemu' | 'lxc'] *)
Module VmType.
Inductive t := qemu | lxc.

Definition toString (ty : t) : string :=
  match ty with
  | qemu => "qemu"
  | lxc => "lxc"
  end.
End VmType.

Module ProxmoxNode.
Record t := { name : string; status : NodeStatus.t }.
End ProxmoxNode.

Module ProxmoxVm.
Record t := {
  id : Z;
  name : string;
  status : VmStatus.t;
  type : VmType.t;
  node : string
}.
End ProxmoxVm.

Module ProxmoxVmDetails.
Record t := {
  id : Z;
  name : string;
  status : string;
  uptime : Z;
  cpu : Q;
  mem : Z;
  maxMem : Z;
  node : string;
  type : VmType.t
}.
End ProxmoxVmDetails.

Module ProxmoxSnapshot.
Record t := { name : string; createdAt : option Z }.
End ProxmoxSnapshot.

Module ProxmoxClientConfig.
Record t := { host : string; apiToken : string; allowInsecure : option bool }.
End ProxmoxClientConfig.

(** The shapes the responses are asserted to have; every field is optional. *)
Module Wire.
(** [{ data: T }], read with [response.data ?? ...] *)
Record Envelope (T : Type) := { data : option T }.
Arguments data {T} _.

(** [{ node?: string; status?: string }] *)
Record NodeEntry := { node : option string; node_status : option string }.

(** [{ vmid?: number; name?: string; status?: string }] *)
Record VmEntry := { vmid : option Z; name : option string; status : option string }.

(** [{ name?; status?; uptime?; cpu?; mem?; maxmem? }] *)
Record Current := {
  cur_name : option string;
  cur_status : option string;
  uptime : option Z;
  cpu : option Q;
  mem : option Z;
  maxmem : option Z
}.

(** [{ name?: string; snaptime?: number }] *)
Record SnapshotEntry := { snap_name : option string; snaptime : option Z }.
End Wire.

(** ** The platform *)

Record URL := { protocol : string; href : string }.

Inductive Method := GET | POST | DELETE.

(** [node:https] or [node:http] *)
Inductive TransportModule := node_https | node_http.

(** [new Agent({ rejectUnauthorized })] *)
Record Agent := { agent_rejectUnauthorized : bool }.

Record RequestOptions := {
  method : Method;
  headers : list (string * string);
  agent : option Agent;
  rejectUnauthorized : option bool
}.

(** One call of [request(url, requestOptions, callback)], with what was
    written to the request before [req.end()]. *)
Record Invocation := {
  module : TransportModule;
  target : URL;
  options : RequestOptions;
  written : option string
}.

(** What comes back: an ['error'] event, or a response with its status code
    and the chunks of its body up to ['end']. *)
Inductive Outcome :=
| NetworkError (reason : string)
| Response (statusCode : option Z) (chunks : list string).

(** The values a call is rejected with. *)
Inductive Rejection :=
| Error (message : string)          (* [new Error(message)], raised by the client *)
| TypeError (input : string)        (* thrown by the [URL] constructor *)
| SyntaxError (text : string)       (* thrown by [JSON.parse] *)
| TransportError (reason : string). (* the ['error'] event of the request *)

Record Runtime := {
  (** [JSON.parse]; [None] when it throws *)
  JSON : Type;
  JSON_parse : string -> option JSON;
  (** the type assertions [as T] of the four typed requests *)
  as_nodes : JSON -> Wire.Envelope (list Wire.NodeEntry);
  as_vms : JSON -> Wire.Envelope (list Wire.VmEntry);
  as_current : JSON -> Wire.Envelope Wire.Current;
  as_snapshots : JSON -> Wire.Envelope (list Wire.SnapshotEntry);
  (** [new URL(input, base)]; [None] when it throws *)
  URL_new : string -> option URL -> option URL;
  (** the answer to an invocation, given the invocations made before it *)
  respond : list Invocation -> Invocation -> Outcome;
  (** when both requests of a [Promise.all] pair reject: did the second
      reject before the first? *)
  second_settles_first : bool
}.

(** ** Asynchronous computations

    A computation takes the log of transport invocations made so far and gives
    back its settlement and the log extended by the invocations it made. *)

Definition Promise (A : Type) : Type :=
  list Invocation -> (Rejection + A) * list Invocation.

Definition resolve {A} (a : A) : Promise A := fun log => (inr a, log).

Definition reject {A} (e : Rejection) : Promise A := fun log => (inl e, log).

Definition await {A B} (p : Promise A) (k : A -> Promise B) : Promise B :=
  fun log =>
    match p log with
    | (inr a, log') => k a log'
    | (inl e, log') => (inl e, log')
    end.

Notation "x <- p ;; k" := (await p (fun x => k))
  (at level 61, p at next level, right associativity).

(** A computation that was started and whose settlement nobody awaits, the
    caller being rejected with [e] meanwhile. *)
Definition abandon {A B} (p : Promise A) (e : Rejection) : Promise B :=
  fun log => (inl e, snd (p log)).

(** [Promise.all([p1, p2])]: both computations are started; the pair is
    rejected as soon as one member is. *)
Definition Promise_all2 {A B} (second_first : bool)
    (p1 : Promise A) (p2 : Promise B) : Promise (A * B) :=
  fun log =>
    let (r1, log1) := p1 log in
    let (r2, log2) := p2 log1 in
    (match r1, r2 with
     | inr a, inr b => inr (a, b)
     | inl e1, inr _ => inl e1
     | inr _, inl e2 => inl e2
     | inl e1, inl e2 => inl (if second_first then e2 else e1)
     end, log2).

(** ** The client *)

(** A value of a request body, [string | number | boolean]. *)
Inductive BodyValue :=
| BString (s : string)
| BNumber (n : Z)
| BBoolean (b : bool).

(** [String(value)] *)
Definition String_of (v : BodyValue) : string :=
  match v with
  | BString s => s
  | BNumber n => Js.Number_toString n
  | BBoolean b => Js.Boolean_toString b
  end.

(** [x ?? d] *)
Definition orElse {A} (x : option A) (d : A) : A :=
  match x with
  | Some a => a
  | None => d
  end.

Infix "??" := orElse (at level 45, left associativity).

Module ProxmoxClient.

Record t := { host : string; apiToken : string; allowInsecure : bool }.

(** The constructor: host and token are trimmed, a missing flag is [false]. *)
Definition new (config : ProxmoxClientConfig.t) : t :=
  {| host := Js.trim (ProxmoxClientConfig.host config);
     apiToken := Js.trim (ProxmoxClientConfig.apiToken config);
     allowInsecure := ProxmoxClientConfig.allowInsecure config ?? false |}.

Definition normalizeStatus (status : option string) : NodeStatus.t :=
  match status with
  | Some s =>
      if String.eqb s "online" then NodeStatus.online
      else if String.eqb s "offline" then NodeStatus.offline
      else NodeStatus.unknown
  | None => NodeStatus.unknown
  end.

Definition normalizeVmStatus (status : option string) : VmStatus.t :=
  match status with
  | Some s =>
      if String.eqb s "running" then VmStatus.running
      else if String.eqb s "stopped" then VmStatus.stopped
      else VmStatus.unknown
  | None => VmStatus.unknown
  end.

(** [name?.trim() || fallback] *)
Definition trimmedOr (name : option string) (fallback : string) : string :=
  match name with
  | Some s => if Js.truthy (Js.trim s) then Js.trim s else fallback
  | None => fallback
  end.

Definition mapVm (vm : Wire.VmEntry) (type : VmType.t) (node : string) : ProxmoxVm.t :=
  {| ProxmoxVm.id := Wire.vmid vm ?? -1;
     ProxmoxVm.name :=
       trimmedOr (Wire.name vm)
         ("VM " ++ (option_map Js.Number_toString (Wire.vmid vm) ?? "unknown"));
     ProxmoxVm.status := normalizeVmStatus (Wire.status vm);
     ProxmoxVm.type := type;
     ProxmoxVm.node := node |}.

(** The guard [!this.host || !this.apiToken]. *)
Definition notConfigured (self : t) : bool :=
  negb (Js.truthy (host self)) || negb (Js.truthy (apiToken self)).

Definition notConfiguredError : Rejection :=
  Error "Proxmox host or API token is not configured.".

(** [url.protocol !== 'http:'] *)
Definition useHttps (url : URL) : bool := negb (String.eqb (protocol url) "http:").

(** The form-encoded payload of a body, when there is a body. *)
Definition payloadOf (body : option (list (string * BodyValue))) : option string :=
  option_map
    (fun entries =>
       Js.URLSearchParams_toString (map (fun '(key, value) => (key, String_of value)) entries))
    body.

(** [payload ? ... : ...]: an absent and an empty payload are both falsy. *)
Definition hasPayload (payload : option string) : bool :=
  match payload with
  | Some p => Js.truthy p
  | None => false
  end.

Definition requestOptions (self : t) (url : URL) (method : Method)
    (payload : option string) : RequestOptions :=
  let contentLength :=
    if hasPayload payload then Js.Buffer_byteLength (payload ?? "") else 0 in
  {| method := method;
     headers :=
       [("Accept", "application/json");
        ("Authorization", "PVEAPIToken=" ++ apiToken self)]
       ++ (if hasPayload payload
           then [("Content-Type", "application/x-www-form-urlencoded");
                 ("Content-Length", Js.Number_toString contentLength)]
           else []);
     agent :=
       if useHttps url && allowInsecure self
       then Some {| agent_rejectUnauthorized := false |}
       else None;
     rejectUnauthorized :=
       if useHttps url then Some (negb (allowInsecure self)) else None |}.

(** The call of [request] that [requestJson] makes. *)
Definition invocationOf (self : t) (url : URL) (method : Method)
    (body : option (list (string * BodyValue))) : Invocation :=
  let payload := payloadOf body in
  {| module := if useHttps url then node_https else node_http;
     target := url;
     options := requestOptions self url method payload;
     written := if hasPayload payload then payload else None |}.

(** [!statusCode || statusCode < 200 || statusCode >= 300] *)
Definition notOk (statusCode : option Z) : bool :=
  match statusCode with
  | None => true
  | Some c => (c =? 0) || (c <? 200) || (300 <=? c)
  end.

Definition apiErrorMessage (statusCode : option Z) (body : string) : string :=
  "Proxmox API error " ++ (option_map Js.Number_toString statusCode ?? "unknown")
  ++ ": " ++ body.

Section Methods.
Variable rt : Runtime.

(** [new URL(input, base)] *)
Definition construct (input : string) (base : option URL) : Promise URL :=
  match URL_new rt input base with
  | Some url => resolve url
  | None => reject (TypeError input)
  end.

Definition normalizedBaseUrl (self : t) : Promise URL :=
  construct (if Js.endsWith (host self) "/" then host self else host self ++ "/") None.

Definition requestJson {T} (self : t) (assert : JSON rt -> T) (url : URL)
    (method : Method) (body : option (list (string * BodyValue))) : Promise T :=
  fun log =>
    let invocation := invocationOf self url method body in
    let log' := (log ++ [invocation])%list in
    match respond rt log invocation with
    | NetworkError reason => (inl (TransportError reason), log')
    | Response statusCode chunks =>
        let body := String.concat "" chunks in
        if notOk statusCode
        then (inl (Error (apiErrorMessage statusCode body)), log')
        else match JSON_parse rt body with
             | Some json => (inr (assert json), log')
             | None => (inl (SyntaxError body), log')
             end
    end.

Definition listNodes (self : t) : Promise (list ProxmoxNode.t) :=
  if notConfigured self then reject notConfiguredError
  else
    baseUrl <- construct
      (if Js.endsWith (host self) "/" then host self else host self ++ "/") None ;;
    url <- construct "api2/json/nodes" (Some baseUrl) ;;
    response <- requestJson self (as_nodes rt) url GET None ;;
    let nodes := Wire.data response ?? [] in
    resolve
      (map (fun node =>
              {| ProxmoxNode.name := Wire.node node ?? "unknown";
                 ProxmoxNode.status := normalizeStatus (Wire.node_status node) |})
           nodes).

(** What [listVirtualMachines] makes of the two responses. *)
Definition mergeVms (node : string)
    (qemuResponse lxcResponse : Wire.Envelope (list Wire.VmEntry)) : list ProxmoxVm.t :=
  let qemuVms := map (fun vm => mapVm vm VmType.qemu node) (Wire.data qemuResponse ?? []) in
  let lxcVms := map (fun vm => mapVm vm VmType.lxc node) (Wire.data lxcResponse ?? []) in
  Js.Array_sort (fun a b => ProxmoxVm.id a - ProxmoxVm.id b) (qemuVms ++ lxcVms).

(** The elements of the array handed to [Promise.all] are evaluated in
    order: the first request is under way when the URL of the second is
    constructed. *)
Definition listVirtualMachines (self : t) (node : string) : Promise (list ProxmoxVm.t) :=
  if notConfigured self then reject notConfiguredError
  else
    baseUrl <- construct
      (if Js.endsWith (host self) "/" then host self else host self ++ "/") None ;;
    let nodePath := "api2/json/nodes/" ++ Js.encodeURIComponent node in
    qemuUrl <- construct (nodePath ++ "/qemu") (Some baseUrl) ;;
    let qemuRequest := requestJson self (as_vms rt) qemuUrl GET None in
    match URL_new rt (nodePath ++ "/lxc") (Some baseUrl) with
    | None => abandon qemuRequest (TypeError (nodePath ++ "/lxc"))
    | Some lxcUrl =>
        responses <- Promise_all2 (second_settles_first rt) qemuRequest
                       (requestJson self (as_vms rt) lxcUrl GET None) ;;
        resolve (mergeVms node (fst responses) (snd responses))
    end.

(** [api2/json/nodes/${encodeURIComponent(node)}/${type}/${vmId}] *)
Definition vmPath (node : string) (type : VmType.t) (vmId : Z) : string :=
  "api2/json/nodes/" ++ Js.encodeURIComponent node ++ "/" ++ VmType.toString type
  ++ "/" ++ Js.Number_toString vmId.

Definition vmUrl (self : t) (path : string) : Promise URL :=
  baseUrl <- normalizedBaseUrl self ;;
  construct path (Some baseUrl).

Definition getVirtualMachineDetails (self : t) (node : string) (type : VmType.t)
    (vmId : Z) : Promise ProxmoxVmDetails.t :=
  if notConfigured self then reject notConfiguredError
  else
    url <- vmUrl self (vmPath node type vmId ++ "/status/current") ;;
    response <- requestJson self (as_current rt) url GET None ;;
    let data :=
      Wire.data response ?? Wire.Build_Current None None None None None None in
    resolve
      {| ProxmoxVmDetails.id := vmId;
         ProxmoxVmDetails.name :=
           trimmedOr (Wire.cur_name data) ("VM " ++ Js.Number_toString vmId);
         ProxmoxVmDetails.status := Wire.cur_status data ?? "unknown";
         ProxmoxVmDetails.uptime := Wire.uptime data ?? 0;
         ProxmoxVmDetails.cpu := Wire.cpu data ?? 0%Q;
         ProxmoxVmDetails.mem := Wire.mem data ?? 0;
         ProxmoxVmDetails.maxMem := Wire.maxmem data ?? 0;
         ProxmoxVmDetails.node := node;
         ProxmoxVmDetails.type := type |}.

(** The result of a request whose response is only awaited. *)
Definition ignored (json : JSON rt) : unit := tt.

Definition startVirtualMachine (self : t) (node : string) (type : VmType.t)
    (vmId : Z) : Promise unit :=
  url <- vmUrl self (vmPath node type vmId ++ "/status/start") ;;
  requestJson self ignored url POST None.

Definition stopVirtualMachine (self : t) (node : string) (type : VmType.t)
    (vmId : Z) : Promise unit :=
  url <- vmUrl self (vmPath node type vmId ++ "/status/stop") ;;
  requestJson self ignored url POST None.

Definition restartVirtualMachine (self : t) (node : string) (type : VmType.t)
    (vmId : Z) : Promise unit :=
  url <- vmUrl self (vmPath node type vmId ++ "/status/reboot") ;;
  requestJson self ignored url POST None.

(** [snapshot.name && snapshot.name !== 'current'] *)
Definition keptSnapshot (snapshot : Wire.SnapshotEntry) : bool :=
  match Wire.snap_name snapshot with
  | Some name => Js.truthy name && negb (String.eqb name "current")
  | None => false
  end.

Definition listSnapshots (self : t) (node : string) (type : VmType.t)
    (vmId : Z) : Promise (list ProxmoxSnapshot.t) :=
  url <- vmUrl self (vmPath node type vmId ++ "/snapshot") ;;
  response <- requestJson self (as_snapshots rt) url GET None ;;
  resolve
    (map (fun snapshot =>
            {| ProxmoxSnapshot.name := Wire.snap_name snapshot ?? "unknown";
               ProxmoxSnapshot.createdAt := Wire.snaptime snapshot |})
         (filter keptSnapshot (Wire.data response ?? []))).

Definition createSnapshot (self : t) (node : string) (type : VmType.t)
    (vmId : Z) (name : string) : Promise unit :=
  url <- vmUrl self (vmPath node type vmId ++ "/snapshot") ;;
  requestJson self ignored url POST (Some [("snapname", BString name)]).

Definition deleteSnapshot (self : t) (node : string) (type : VmType.t)
    (vmId : Z) (name : string) : Promise unit :=
  url <- vmUrl self
           (vmPath node type vmId ++ "/snapshot/" ++ Js.encodeURIComponent name) ;;
  requestJson self ignored url DELETE None.

Definition restoreSnapshot (self : t) (node : string) (type : VmType.t)
    (vmId : Z) (name : string) : Promise unit :=
  url <- vmUrl self
           (vmPath node type vmId ++ "/snapshot/" ++ Js.encodeURIComponent name
            ++ "/rollback") ;;
  requestJson self ignored url POST None.
End Methods.

End ProxmoxClient.

(** ** The operations of the collaborator-facing interface *)

Inductive Operation :=
| listNodes
| listGuests (node : string)
| getGuestDetail (node : string) (type : VmType.t) (vmId : Z)
| startGuest (node : string) (type : VmType.t) (vmId : Z)
| stopGuest (node : string) (type : VmType.t) (vmId : Z)
| restartGuest (node : string) (type : VmType.t) (vmId : Z)
| listSnapshots (node : string) (type : VmType.t) (vmId : Z)
| createSnapshot (node : string) (type : VmType.t) (vmId : Z) (name : string)
| deleteSnapshot (node : string) (type : VmType.t) (vmId : Z) (name : string)
| restoreSnapshot (node : string) (type : VmType.t) (vmId : Z) (name : string).

Inductive Answer :=
| Nodes (nodes : list ProxmoxNode.t)
| Guests (vms : list ProxmoxVm.t)
| Detail (details : ProxmoxVmDetails.t)
| Snapshots (snapshots : list ProxmoxSnapshot.t)
| Done.

Definition perform (rt : Runtime) (self : ProxmoxClient.t) (op : Operation) : Promise Answer :=
  match op with
  | listNodes =>
      r <- ProxmoxClient.listNodes rt self ;; resolve (Nodes r)
  | listGuests node =>
      r <- ProxmoxClient.listVirtualMachines rt self node ;; resolve (Guests r)
  | getGuestDetail node type vmId =>
      r <- ProxmoxClient.getVirtualMachineDetails rt self node type vmId ;; resolve (Detail r)
  | startGuest node type vmId =>
      _ <- ProxmoxClient.startVirtualMachine rt self node type vmId ;; resolve Done
  | stopGuest node type vmId =>
      _ <- ProxmoxClient.stopVirtualMachine rt self node type vmId ;; resolve Done
  | restartGuest node type vmId =>
      _ <- ProxmoxClient.restartVirtualMachine rt self node type vmId ;; resolve Done
  | listSnapshots node type vmId =>
      r <- ProxmoxClient.listSnapshots rt self node type vmId ;; resolve (Snapshots r)
  | createSnapshot node type vmId name =>
      _ <- ProxmoxClient.createSnapshot rt self node type vmId name ;; resolve Done
  | deleteSnapshot node type vmId name =>
      _ <- ProxmoxClient.deleteSnapshot rt self node type vmId name ;; resolve Done
  | restoreSnapshot node type vmId name =>
      _ <- ProxmoxClient.restoreSnapshot rt self node type vmId name ;; resolve Done
  end.

(** The invocations a computation adds to the log. *)
Definition issued {A} (p : Promise A) (log : list Invocation) : list Invocation :=
  skipn (List.length log) (snd (p log)).

(** ** A transport double

    A concrete platform to run the client on.  The [URL] constructor is
    reduced to what the client relies on: an input with no scheme is refused
    unless there is a base, whose scheme it inherits and to whose address,
    which ends in a slash here, it is appended.  [JSON.parse] knows a table of
    documents and refuses every other text.  The transport answers by
    address. *)

Module Double.

Definition isAlpha (c : ascii) : bool :=
  let n := nat_of_ascii c in
  (((65 <=? n) && (n <=? 90)) || ((97 <=? n) && (n <=? 122)))%nat.

Definition toLower (c : ascii) : ascii :=
  let n := nat_of_ascii c in
  if ((65 <=? n) && (n <=? 90))%nat then ascii_of_nat (n + 32) else c.

(** The scheme of an address up to its colon, in lower case. *)
Fixpoint schemeRest (s : string) : option string :=
  match s with
  | EmptyString => None
  | String c s' =>
      if Ascii.eqb c ":" then Some ":"
      else if (Js.isAlphaNum c || Js.oneOf "+-." c)%bool
           then option_map (String (toLower c)) (schemeRest s')
           else None
  end.

Definition scheme (s : string) : option string :=
  match s with
  | EmptyString => None
  | String c _ => if isAlpha c then schemeRest s else None
  end.

Definition parseURL (input : string) (base : option URL) : option URL :=
  match scheme input, base with
  | Some p, _ => Some {| protocol := p; href := input |}
  | None, Some b => Some {| protocol := protocol b; href := href b ++ input |}
  | None, None => None
  end.

(** The documents [JSON.parse] can give. *)
Inductive Doc :=
| NodeList (entries : option (list Wire.NodeEntry))
| VmList (entries : option (list Wire.VmEntry))
| CurrentStatus (entry : option Wire.Current)
| SnapshotList (entries : option (list Wire.SnapshotEntry)).

Fixpoint lookup {V} (table : list (string * V)) (key : string) : option V :=
  match table with
  | [] => None
  | (k, v) :: rest => if String.eqb k key then Some v else lookup rest key
  end.

Definition runtime (documents : list (string * Doc))
    (answers : list (string * Outcome)) (second_first : bool) : Runtime :=
  {| JSON := Doc;
     JSON_parse := lookup documents;
     as_nodes := fun d =>
       {| Wire.data := match d with NodeList l => l | _ => None end |};
     as_vms := fun d =>
       {| Wire.data := match d with VmList l => l | _ => None end |};
     as_current := fun d =>
       {| Wire.data := match d with CurrentStatus c => c | _ => None end |};
     as_snapshots := fun d =>
       {| Wire.data := match d with SnapshotList l => l | _ => None end |};
     URL_new := parseURL;
     respond := fun _ invocation =>
       lookup answers (href (target invocation))
         ?? NetworkError "connect ECONNREFUSED";
     second_settles_first := second_first |}.

(** A double quote, and a text between double quotes. *)
Definition dq : string := String (ascii_of_nat 34) EmptyString.
Definition quoted (s : string) : string := dq ++ s ++ dq.

(** The configuration of the end-to-end scenario. *)
Definition pve : ProxmoxClient.t :=
  ProxmoxClient.new
    {| ProxmoxClientConfig.host := "https://h:8006";
       ProxmoxClientConfig.apiToken := "u@pve!t=secret";
       ProxmoxClientConfig.allowInsecure := None |}.

(** A member [key:value] of an object. *)
Definition member (key value : string) : string := quoted key ++ ":" ++ value.

(** [{"data":[{"vmid":100,"name":"web","status":"running"}]}] *)
Definition qemuBody : string :=
  "{" ++ member "data"
    ("[{" ++ member "vmid" "100" ++ "," ++ member "name" (quoted "web") ++ ","
     ++ member "status" (quoted "running") ++ "}]") ++ "}".

(** [{"data":[{"vmid":50,"name":"","status":"stopped"}]}] *)
Definition lxcBody : string :=
  "{" ++ member "data"
    ("[{" ++ member "vmid" "50" ++ "," ++ member "name" (quoted "") ++ ","
     ++ member "status" (quoted "stopped") ++ "}]") ++ "}".

(** [{"data":[{"name":"ghost","status":"paused"},{}]}] *)
Definition ghostBody : string :=
  "{" ++ member "data"
    ("[{" ++ member "name" (quoted "ghost") ++ "," ++ member "status" (quoted "paused")
     ++ "},{}]") ++ "}".

(** [{"data":[]}] *)
Definition emptyBody : string := "{" ++ member "data" "[]" ++ "}".

(** [{"data":null}] *)
Definition nullBody : string := "{" ++ member "data" "null" ++ "}".

(** [{"data":[{"node":"pve1","status":"online"},{"node":"pve2","status":"maintenance"},{}]}] *)
Definition nodesBody : string :=
  "{" ++ member "data"
    ("[{" ++ member "node" (quoted "pve1") ++ "," ++ member "status" (quoted "online")
     ++ "},{" ++ member "node" (quoted "pve2") ++ ","
     ++ member "status" (quoted "maintenance") ++ "},{}]") ++ "}".

(** [{"data":{"name":" ","status":"running","uptime":12}}] *)
Definition currentBody : string :=
  "{" ++ member "data"
    ("{" ++ member "name" (quoted " ") ++ "," ++ member "status" (quoted "running")
     ++ "," ++ member "uptime" "12" ++ "}") ++ "}".

(** [{"data":[{"name":"pre-upgrade","snaptime":1700000000},{"name":"current"},{"snaptime":5},{"name":""}]}] *)
Definition snapshotsBody : string :=
  "{" ++ member "data"
    ("[{" ++ member "name" (quoted "pre-upgrade") ++ "," ++ member "snaptime" "1700000000"
     ++ "},{" ++ member "name" (quoted "current") ++ "},{" ++ member "snaptime" "5"
     ++ "},{" ++ member "name" (quoted "") ++ "}]") ++ "}".

Definition documents : list (string * Doc) :=
  [(qemuBody,
    VmList (Some [{| Wire.vmid := Some 100; Wire.name := Some "web";
                     Wire.status := Some "running" |}]));
   (lxcBody,
    VmList (Some [{| Wire.vmid := Some 50; Wire.name := Some "";
                     Wire.status := Some "stopped" |}]));
   (ghostBody,
    VmList (Some [{| Wire.vmid := None; Wire.name := Some "ghost";
                     Wire.status := Some "paused" |};
                  {| Wire.vmid := None; Wire.name := None; Wire.status := None |}]));
   (emptyBody, VmList (Some []));
   (nullBody, VmList None);
   (nodesBody,
    NodeList (Some [{| Wire.node := Some "pve1"; Wire.node_status := Some "online" |};
                    {| Wire.node := Some "pve2"; Wire.node_status := Some "maintenance" |};
                    {| Wire.node := None; Wire.node_status := None |}]));
   (currentBody,
    CurrentStatus (Some {| Wire.cur_name := Some " "; Wire.cur_status := Some "running";
                           Wire.uptime := Some 12; Wire.cpu := None; Wire.mem := None;
                           Wire.maxmem := None |}));
   (snapshotsBody,
    SnapshotList
      (Some [{| Wire.snap_name := Some "pre-upgrade"; Wire.snaptime := Some 1700000000 |};
             {| Wire.snap_name := Some "current"; Wire.snaptime := None |};
             {| Wire.snap_name := None; Wire.snaptime := Some 5 |};
             {| Wire.snap_name := Some ""; Wire.snaptime := None |}]))].

Definition answers : list (string * Outcome) :=
  [("https://h:8006/api2/json/nodes", Response (Some 200) [nodesBody]);
   ("https://h:8006/api2/json/nodes/pve1/qemu", Response (Some 200) [qemuBody]);
   ("https://h:8006/api2/json/nodes/pve1/lxc", Response (Some 200) [lxcBody]);
   ("https://h:8006/api2/json/nodes/pve1/qemu/100/status/current",
    Response (Some 200) [currentBody]);
   ("https://h:8006/api2/json/nodes/pve1/qemu/100/status/start",
    Response (Some 200) [nullBody]);
   ("https://h:8006/api2/json/nodes/pve1/qemu/100/snapshot",
    Response (Some 200) [snapshotsBody]);
   ("https://h:8006/api2/json/nodes/pve2/qemu", Response (Some 200) [qemuBody]);
   ("https://h:8006/api2/json/nodes/pve2/lxc",
    Response (Some 500) [quoted "permission denied"]);
   ("https://h:8006/api2/json/nodes/pve3/qemu", Response (Some 200) ["not-json"]);
   ("https://h:8006/api2/json/nodes/pve3/lxc", Response (Some 200) [lxcBody]);
   ("https://h:8006/api2/json/nodes/pve4/qemu", Response (Some 200) [ghostBody]);
   ("https://h:8006/api2/json/nodes/pve4/lxc", Response (Some 200) [lxcBody])].

Definition platform : Runtime := runtime documents answers false.

End Double.

(** ** Notions the statements use *)

(** The address of an API path: the base, made to end in a slash, is
    constructed first, then the path against it. *)
Definition endpoint (rt : Runtime) (self : ProxmoxClient.t) (path : string) : option URL :=
  match
    URL_new rt
      (if Js.endsWith (ProxmoxClient.host self) "/" then ProxmoxClient.host self
       else ProxmoxClient.host self ++ "/") None
  with
  | Some baseUrl => URL_new rt path (Some baseUrl)
  | None => None
  end.

(** A GET of [path], issued on [log], is answered by a 2xx response that
    decodes to [response]. *)
Definition fetches {T} (rt : Runtime) (self : ProxmoxClient.t) (assert : JSON rt -> T)
    (path : string) (log : list Invocation) (response : T) (log' : list Invocation) : Prop :=
  exists url,
    endpoint rt self path = Some url /\
    ProxmoxClient.requestJson rt self assert url GET None log = (inr response, log').

(** The path of a node's guest collection of one type, with its slash. *)
Definition guestsPath (node : string) (type : VmType.t) : string :=
  ("api2/json/nodes/" ++ Js.encodeURIComponent node) ++ "/" ++ VmType.toString type.

(** A name that is absent, empty or made of white space only. *)
Definition blank (name : option string) : Prop :=
  match name with
  | Some s => Js.trim s = ""
  | None => True
  end.

(** Every invocation a computation makes satisfies [P]. *)
Definition emits {A} (P : Invocation -> Prop) (p : Promise A) : Prop :=
  forall log, exists new, snd (p log) = (log ++ new)%list /\ Forall P new.

(** The client with its insecure flag set to [flag]. *)
Definition withInsecure (flag : bool) (self : ProxmoxClient.t) : ProxmoxClient.t :=
  {| ProxmoxClient.host := ProxmoxClient.host self;
     ProxmoxClient.apiToken := ProxmoxClient.apiToken self;
     ProxmoxClient.allowInsecure := flag |}.

(** The trust policy of one invocation made by [self]. *)
Definition certificatePolicy (self : ProxmoxClient.t) (i : Invocation) : Prop :=
  exists url method body,
    i = ProxmoxClient.invocationOf self url method body /\
    target i = url /\
    (protocol url <> "http:" -> ProxmoxClient.allowInsecure self = true ->
       rejectUnauthorized (options i) = Some false /\
       agent (options i) = Some {| agent_rejectUnauthorized := false |}) /\
    (protocol url <> "http:" -> ProxmoxClient.allowInsecure self = false ->
       rejectUnauthorized (options i) = Some true /\ agent (options i) = None) /\
    (protocol url = "http:" ->
       rejectUnauthorized (options i) = None /\ agent (options i) = None /\
       forall flag,
         ProxmoxClient.invocationOf (withInsecure flag self) url method body = i).

(** The reading of a placeholder "built from the guest's type and its numeric
    id": the two types have different labels, and the name of a guest with a
    blank name is the label of its type, a space, and its id. *)
Definition placeholderBuiltFromType : Prop :=
  exists label : VmType.t -> string,
    label VmType.qemu <> label VmType.lxc /\
    forall (vm : Wire.VmEntry) (type : VmType.t) (node : string) (id : Z),
      Wire.vmid vm = Some id -> blank (Wire.name vm) ->
      ProxmoxVm.name (ProxmoxClient.mapVm vm type node)
      = label type ++ " " ++ Js.Number_toString id.

(** Every operation is rejected as not configured, with no invocation, when
    the host or the token is empty. *)
Definition failsFastWhenNotConfigured (rt : Runtime) (self : ProxmoxClient.t)
    (op : Operation) : Prop :=
  ProxmoxClient.host self = "" \/ ProxmoxClient.apiToken self = "" ->
  forall log,
    perform rt self op log = (inl ProxmoxClient.notConfiguredError, log).

(** The entry comes from the collection of its type. *)
Definition entryOf (qemuResponse lxcResponse : Wire.Envelope (list Wire.VmEntry))
    (entry : Wire.VmEntry) (type : VmType.t) : Prop :=
  match type with
  | VmType.qemu => In entry (Wire.data qemuResponse ?? [])
  | VmType.lxc => In entry (Wire.data lxcResponse ?? [])
  end.

(** An entry with one of the names [listSnapshots] does not list: no name, the
    empty name, or [current]. *)
Definition unlisted (snapshot : Wire.SnapshotEntry) : bool :=
  match Wire.snap_name snapshot with
  | None => true
  | Some name => String.eqb name "" || String.eqb name "current"
  end.

(** ** The request of each operation *)

(** The operations that check the configuration before anything else. *)
Definition guarded (op : Operation) : bool :=
  match op with
  | listNodes | listGuests _ | getGuestDetail _ _ _ => true
  | _ => false
  end.




(** The headers of one invocation made by [self]: the two fixed headers
    always, the two content headers exactly when a payload is written, the
    length being the number of bytes written. *)
Definition headersPolicy (self : ProxmoxClient.t) (i : Invocation) : Prop :=
  let fixed :=
    [("Accept", "application/json");
     ("Authorization", "PVEAPIToken=" ++ ProxmoxClient.apiToken self)] in
  match written i with
  | None => headers (options i) = fixed
  | Some payload =>
      payload <> "" /\
      headers (options i)
      = (fixed ++ [("Content-Type", "application/x-www-form-urlencoded");
                   ("Content-Length", Js.Number_toString (Js.Buffer_byteLength payload))])%list
  end.

(** Every run of a computation adds at most [n] invocations to the log. *)
Definition emitsAtMost {A} (n : nat) (p : Promise A) : Prop :=
  forall log, exists new, snd (p log) = (log ++ new)%list /\ (List.length new <= n)%nat.





(** Every character of [s] passes [ok]. *)
Definition allChars (ok : ascii -> bool) (s : string) : bool :=
  forallb ok (list_ascii_of_string s).



(** The characters of a number written in decimal. *)
Definition numberChar (c : ascii) : bool :=
  let n := nat_of_ascii c in
  (((48 <=? n) && (n <=? 57)) || (n =? 45))%nat.

(** ** The helpers of the commands (extension.ts) *)

Module Extension.

(** The keys of the three filter picks, ['qemu' | 'lxc' | 'running']. *)
Inductive FilterKey := qemuKey | lxcKey | runningKey.

Definition FilterKey_eqb (a b : FilterKey) : bool :=
  match a, b with
  | qemuKey, qemuKey | lxcKey, lxcKey | runningKey, runningKey => true
  | _, _ => false
  end.

Record VmFilters := { includeQemu : bool; includeLxc : bool; runningOnly : bool }.

(** [new Set(keys).has(key)] *)
Definition has (keys : list FilterKey) (key : FilterKey) : bool :=
  existsb (FilterKey_eqb key) keys.

(** [selectVmFilters], from what the pick of several items resolved to: the
    keys of the picked items, or nothing when the pick was dismissed. *)
Definition selectVmFilters (filterSelection : option (list FilterKey)) : option VmFilters :=
  match filterSelection with
  | None => None
  | Some picked =>
      let includeQemu := has picked qemuKey in
      let includeLxc := has picked lxcKey in
      Some {| includeQemu := includeQemu || (negb includeQemu && negb includeLxc);
              includeLxc := includeLxc || (negb includeQemu && negb includeLxc);
              runningOnly := has picked runningKey |}
  end.

Definition isType (type : VmType.t) (vm : ProxmoxVm.t) : bool :=
  match ProxmoxVm.type vm, type with
  | VmType.qemu, VmType.qemu | VmType.lxc, VmType.lxc => true
  | _, _ => false
  end.

Definition isRunning (vm : ProxmoxVm.t) : bool :=
  match ProxmoxVm.status vm with
  | VmStatus.running => true
  | _ => false
  end.

Definition filterVms (vms : list ProxmoxVm.t) (filters : VmFilters) : list ProxmoxVm.t :=
  filter
    (fun vm =>
       let typeMatch :=
         (includeQemu filters && isType VmType.qemu vm)
         || (includeLxc filters && isType VmType.lxc vm) in
       let statusMatch := negb (runningOnly filters) || isRunning vm in
       typeMatch && statusMatch)
    vms.

(** [formatUptime] on a whole number of seconds: [Math.floor] of a quotient
    is the floor division, [%] the remainder with the sign of the dividend. *)
Definition formatUptime (seconds : Z) : string :=
  let days := seconds / 86400 in
  let hours := Z.rem seconds 86400 / 3600 in
  let minutes := Z.rem seconds 3600 / 60 in
  if 0 <? days
  then Js.Number_toString days ++ "d " ++ Js.Number_toString hours ++ "h"
  else Js.Number_toString hours ++ "h " ++ Js.Number_toString minutes ++ "m".

Definition units : list string := ["B"; "KB"; "MB"; "GB"; "TB"].

(** The loop of [formatBytes], [while (size >= 1024 && unitIndex <
    units.length - 1)]; [remaining] is [units.length - 1 - unitIndex], the
    steps the second condition still allows.  A size is a whole number of
    bytes divided by a power of 1024, which a double holds exactly, so it is
    the rational it stands for. *)
Fixpoint scaleDown (remaining : nat) (size : Q) (unitIndex : nat) : Q * nat :=
  match remaining with
  | O => (size, unitIndex)
  | S remaining' =>
      if Qle_bool 1024%Q size then scaleDown remaining' (size / 1024)%Q (S unitIndex)
      else (size, unitIndex)
  end.

(** [x.toFixed(1)]: the tenths nearest to [x], the larger when two are as
    near, with the sign of [x] in front. *)
Definition toFixed1 (x : Q) : string :=
  let n := Qfloor (Qabs x * 10 + (1 # 2))%Q in
  (if Qle_bool 0%Q x then "" else "-")
  ++ Js.Number_toString (n / 10) ++ "." ++ Js.Number_toString (n mod 10).

Definition formatBytes (value : Z) : string :=
  let (size, unitIndex) := scaleDown (List.length units - 1) (inject_Z value) 0 in
  toFixed1 size ++ " " ++ nth unitIndex units "".

(** [String.prototype.startsWith] *)
Fixpoint startsWith (s prefix : string) : bool :=
  match prefix, s with
  | EmptyString, _ => true
  | String p prefix', String c s' => Ascii.eqb c p && startsWith s' prefix'
  | String _ _, EmptyString => false
  end.

(** [s.replace(/pattern/g, replacement)] for a pattern that is a non-empty
    run of letters and a replacement with no dollar sign: the matches are
    taken from the left and do not overlap; [skip] counts the characters of
    the last match still to pass. *)
Fixpoint replaceFrom (pattern replacement : string) (skip : nat) (s : string) : string :=
  match s with
  | EmptyString => EmptyString
  | String c s' =>
      match skip with
      | S skip' => replaceFrom pattern replacement skip' s'
      | O =>
          if startsWith s pattern
          then replacement
               ++ replaceFrom pattern replacement (String.length pattern - 1) s'
          else String c (replaceFrom pattern replacement 0 s')
      end
  end.

Definition replaceAll (pattern replacement s : string) : string :=
  replaceFrom pattern replacement 0 s.

Fixpoint repeatChar (c : ascii) (n : nat) : string :=
  match n with
  | O => EmptyString
  | S n' => String c (repeatChar c n')
  end.

(** [s.padStart(targetLength, c)] for a pad of one character *)
Definition padStart (s : string) (targetLength : nat) (c : ascii) : string :=
  repeatChar c (targetLength - String.length s) ++ s.

(** The fields of a [Date] in local time that [generateSnapshotName] reads. *)
Record LocalTime := {
  getFullYear : Z;
  getMonth : Z;
  getDate : Z;
  getHours : Z;
  getMinutes : Z
}.

Definition pad2 (value : Z) : string := padStart (Js.Number_toString value) 2 "0".

Definition generateSnapshotName (template : string) (timestamp : LocalTime) : string :=
  let year := Js.Number_toString (getFullYear timestamp) in
  let month := pad2 (getMonth timestamp + 1) in
  let day := pad2 (getDate timestamp) in
  let hour := pad2 (getHours timestamp) in
  let minute := pad2 (getMinutes timestamp) in
  replaceAll "mm" minute
    (replaceAll "HH" hour
       (replaceAll "DD" day
          (replaceAll "MM" month
             (replaceAll "YYYY" year
                (replaceAll "HHMM" (hour ++ minute) template))))).

(** The template the commands fall back on. *)
Definition defaultSnapshotTemplate : string := "snapshot-YYYYMMDD-HHMM".

End Extension.

(** No character of [s] is [c]. *)
Definition without (c : ascii) (s : string) : bool :=
  allChars (fun x => negb (Ascii.eqb x c)) s.

(** The characters the form serializer keeps as they are. *)
Definition formKept (c : ascii) : bool := Js.isAlphaNum c || Js.oneOf "*-._" c.

(** A string that does not start with white space. *)
Definition startsClean (s : string) : Prop :=
  match s with
  | EmptyString => True
  | String c _ => Js.isWhiteSpace c = false
  end.

(** ** The session of the extension (extension.ts, [activate])

    What [activate] keeps and what it reads from the editor: the secret
    storage, the settings, the global state, the status bar and the messages
    shown.  The answer of the user to a prompt is an argument of the function
    that prompts. *)

Module Session.

(** ['unknown' | 'connecting' | 'connected' | 'disconnected'] *)
Inductive StatusState := unknown | connecting | connected | disconnected.

(** A message shown to the user, with the items offered when it is a prompt. *)
Inductive Notice :=
| InformationMessage (text : string)
| WarningMessage (text : string) (items : list string)
| ErrorMessage (text : string).

(** The settings under [proxmox], each absent or set. *)
Record Settings := {
  host : option string;
  apiToken : option string;
  allowInsecure : option bool
}.

Record State := {
  secret : option string;
  suppressInsecureWarning : option bool;
  statusState : StatusState;
  lastRefresh : option Z;
  lastError : option string;
  statusText : string;
  statusTooltip : string;
  notices : list Notice
}.

Definition show (notice : Notice) (s : State) : State :=
  {| secret := secret s; suppressInsecureWarning := suppressInsecureWarning s;
     statusState := statusState s; lastRefresh := lastRefresh s;
     lastError := lastError s; statusText := statusText s;
     statusTooltip := statusTooltip s; notices := (notices s ++ [notice])%list |}.

Definition storeSecret (token : option string) (s : State) : State :=
  {| secret := token; suppressInsecureWarning := suppressInsecureWarning s;
     statusState := statusState s; lastRefresh := lastRefresh s;
     lastError := lastError s; statusText := statusText s;
     statusTooltip := statusTooltip s; notices := notices s |}.

Definition updateSuppress (flag : bool) (s : State) : State :=
  {| secret := secret s; suppressInsecureWarning := Some flag;
     statusState := statusState s; lastRefresh := lastRefresh s;
     lastError := lastError s; statusText := statusText s;
     statusTooltip := statusTooltip s; notices := notices s |}.

Definition setStatus (state : StatusState) (refresh : option Z) (error : option string)
    (s : State) : State :=
  {| secret := secret s; suppressInsecureWarning := suppressInsecureWarning s;
     statusState := state; lastRefresh := refresh; lastError := error;
     statusText := statusText s; statusTooltip := statusTooltip s;
     notices := notices s |}.

Definition newline : string := String (ascii_of_nat 10) EmptyString.

(** [choice === item] for the answer to a prompt, absent when the prompt
    was dismissed. *)
Definition answered (choice : option string) (item : string) : bool :=
  match choice with
  | Some answer => String.eqb answer item
  | None => false
  end.

(** Truthiness of a string that may be absent. *)
Definition given (s : option string) : bool :=
  match s with
  | Some text => Js.truthy text
  | None => false
  end.

Section StatusBar.
(** [Date.prototype.toLocaleString], which depends on the locale. *)
Variable toLocaleString : Z -> string.

Definition updateStatusBar (s : State) : State :=
  let icon :=
    match statusState s with
    | connecting => "$(sync~spin)"
    | connected => "$(plug)"
    | disconnected => "$(circle-slash)"
    | unknown => "$(question)"
    end in
  let stateLabel :=
    match statusState s with
    | connecting => "Connecting"
    | connected => "Connected"
    | disconnected => "Disconnected"
    | unknown => "Not checked"
    end in
  let refreshLabel :=
    match lastRefresh s with
    | Some date => toLocaleString date
    | None => "Never"
    end in
  let errorLabel :=
    if given (lastError s)
    then newline ++ "Last error: " ++ (lastError s ?? "")
    else "" in
  {| secret := secret s; suppressInsecureWarning := suppressInsecureWarning s;
     statusState := statusState s; lastRefresh := lastRefresh s;
     lastError := lastError s;
     statusText := icon ++ " Proxmox";
     statusTooltip :=
       "Proxmox: " ++ stateLabel ++ newline ++ "Last refresh: " ++ refreshLabel
       ++ errorLabel;
     notices := notices s |}.

(** [markConnected], at the time [now]. *)
Definition markConnected (now : Z) (s : State) : State :=
  updateStatusBar (setStatus connected (Some now) None s).

Definition markDisconnected (now : Z) (errorMessage : string) (s : State) : State :=
  updateStatusBar (setStatus disconnected (Some now) (Some errorMessage) s).

(** [getApiToken]; [choice] is the answer to the prompt about the token in
    the settings, when that prompt is shown. *)
Definition getApiToken (settings : Settings) (interactive : bool)
    (choice : option string) (s : State) : option string * State :=
  if given (secret s) then (secret s, s)
  else
    let legacyToken := Js.trim (apiToken settings ?? "") in
    let notConfigured (s : State) :=
      (None,
       if interactive
       then show (ErrorMessage
                    "Proxmox API token is not configured. Run Proxmox: Set API Token.") s
       else s) in
    if Js.truthy legacyToken then
      if interactive then
        let s1 :=
          show (WarningMessage "API token is set in settings. Move it to Secret Storage?"
                  ["Move"; "Use Once"]) s in
        if answered choice "Move" then
          (Some legacyToken,
           show (InformationMessage "Proxmox API token saved in Secret Storage.")
             (storeSecret (Some legacyToken) s1))
        else if answered choice "Use Once" then (Some legacyToken, s1)
        else notConfigured s1
      else (Some legacyToken, s)
    else notConfigured s.

(** [createClient]; [insecureChoice] is the answer to the warning about
    insecure TLS, when that warning is shown. *)
Definition createClient (settings : Settings) (interactive : bool)
    (tokenChoice insecureChoice : option string) (s : State)
    : option ProxmoxClient.t * State :=
  let host := host settings ?? "" in
  let allowInsecure := allowInsecure settings ?? false in
  let (apiToken, s1) := getApiToken settings interactive tokenChoice s in
  if negb (Js.truthy (Js.trim host)) then
    (None, if interactive then show (ErrorMessage "Proxmox host is not configured.") s1
           else s1)
  else if negb (given apiToken) then (None, s1)
  else
    let create (s : State) :=
      (Some (ProxmoxClient.new
               {| ProxmoxClientConfig.host := host;
                  ProxmoxClientConfig.apiToken := apiToken ?? "";
                  ProxmoxClientConfig.allowInsecure := Some allowInsecure |}), s) in
    if interactive && allowInsecure then
      if negb (suppressInsecureWarning s1 ?? false) then
        let s2 :=
          show (WarningMessage
                  "Allow insecure TLS is enabled for Proxmox. This skips certificate validation."
                  ["Continue"; "Don't show again"]) s1 in
        let s3 :=
          if answered insecureChoice "Don't show again"
          then updateSuppress true s2 else s2 in
        if negb (answered insecureChoice "Continue")
        then (None, updateStatusBar (setStatus unknown (lastRefresh s3) (lastError s3) s3))
        else create s3
      else create s1
    else create s1.
End StatusBar.

(** The command [setApiToken]; [input] is what the input box resolved to. *)
Definition setApiToken (input : option string) (s : State) : State :=
  match input with
  | Some token =>
      if Js.truthy (Js.trim token)
      then show (InformationMessage "Proxmox API token saved in Secret Storage.")
             (storeSecret (Some (Js.trim token)) s)
      else s
  | None => s
  end.

(** The command [clearApiToken]; [confirm] is the answer to its prompt. *)
Definition clearApiToken (confirm : option string) (s : State) : State :=
  let s1 := show (WarningMessage "Clear stored Proxmox API token?" ["Clear"]) s in
  if answered confirm "Clear"
  then show (InformationMessage "Proxmox API token cleared.") (storeSecret None s1)
  else s1.

(** The command [resetInsecureWarning]. *)
Definition resetInsecureWarning (s : State) : State :=
  show (InformationMessage "Proxmox insecure TLS warning has been reset.")
    (updateSuppress false s).

(** The session as [activate] leaves it, with nothing stored. *)
Definition start : State :=
  {| secret := None; suppressInsecureWarning := None; statusState := unknown;
     lastRefresh := None; lastError := None;
     statusText := "$(question) Proxmox";
     statusTooltip := "Proxmox: Not checked" ++ newline ++ "Last refresh: Never";
     notices := [] |}.

(** The secret, when there is one, is a token as the commands store it: not
    empty, and with no white space around it. *)
Definition secretAsStored (s : State) : Prop :=
  match secret s with
  | Some token => token <> "" /\ Js.trim token = token
  | None => True
  end.

End Session.

(** ** The tree of the explorer view (proxmoxExplorer.ts) *)

(** [try { body } catch (error) { handler }] around an awaited computation. *)
Definition catch {A} (body : Promise A) (handler : Rejection -> Promise A) : Promise A :=
  fun log =>
    match body log with
    | (inl error, log') => handler error log'
    | settled => settled
    end.

Module Explorer.

(** ['node' | 'vm' | 'snapshot' | 'error' | 'empty'] *)
Module Kind.
Inductive t := node | vm | snapshot | error | empty.

Definition toString (kind : t) : string :=
  match kind with
  | node => "node"
  | vm => "vm"
  | snapshot => "snapshot"
  | error => "error"
  | empty => "empty"
  end.
End Kind.

(** [vscode.TreeItemCollapsibleState] *)
Inductive TreeItemCollapsibleState := NotCollapsible | Collapsed | Expanded.

Record ExplorerItemData := {
  nodeName : option string;
  vm : option ProxmoxVm.t;
  snapshotName : option string;
  snapshotTime : option (option Z)
}.

Record ProxmoxExplorerItem := {
  label : string;
  collapsibleState : TreeItemCollapsibleState;
  kind : Kind.t;
  data : option ExplorerItemData;
  contextValue : string;
  description : option string;
  iconPath : option string
}.

(** The constructor, followed by the assignments to [description] and
    [iconPath] where the source makes them. *)
Definition item (label : string) (collapsibleState : TreeItemCollapsibleState)
    (kind : Kind.t) (data : option ExplorerItemData)
    (description iconPath : option string) : ProxmoxExplorerItem :=
  {| label := label; collapsibleState := collapsibleState; kind := kind; data := data;
     contextValue := "proxmox." ++ Kind.toString kind;
     description := description; iconPath := iconPath |}.

(** What the items show of the platform: the bullet between type and status,
    a character beyond the code units held here; the rendering of a time in
    the locale; the message of an error the platform raised. *)
Record Display := {
  bullet : string;
  toLocaleString : Z -> string;
  platformMessage : Rejection -> string
}.

Definition nodeStatusText (status : NodeStatus.t) : string :=
  match status with
  | NodeStatus.online => "online"
  | NodeStatus.offline => "offline"
  | NodeStatus.unknown => "unknown"
  end.

Definition vmStatusText (status : VmStatus.t) : string :=
  match status with
  | VmStatus.running => "running"
  | VmStatus.stopped => "stopped"
  | VmStatus.unknown => "unknown"
  end.

(** [toUpperCase] on the letters a to z, which the guest types are made of. *)
Definition upper (c : ascii) : ascii :=
  let n := nat_of_ascii c in
  if ((97 <=? n) && (n <=? 122))%nat then ascii_of_nat (n - 32) else c.

Fixpoint toUpperCase (s : string) : string :=
  match s with
  | EmptyString => EmptyString
  | String c s' => String (upper c) (toUpperCase s')
  end.

Section Tree.
Variable display : Display.
Variable rt : Runtime.

(** [error instanceof Error ? error.message : String(error)]; every rejection
    here is an [Error]. *)
Definition messageOf (error : Rejection) : string :=
  match error with
  | Error message => message
  | _ => platformMessage display error
  end.

Definition placeholder (text : string) : ProxmoxExplorerItem :=
  item text NotCollapsible Kind.empty None None None.

Definition nodeItem (node : ProxmoxNode.t) : ProxmoxExplorerItem :=
  item (ProxmoxNode.name node) Collapsed Kind.node
    (Some {| nodeName := Some (ProxmoxNode.name node); vm := None;
             snapshotName := None; snapshotTime := None |})
    (Some (nodeStatusText (ProxmoxNode.status node))) (Some "server").

Definition vmItem (guest : ProxmoxVm.t) : ProxmoxExplorerItem :=
  item (ProxmoxVm.name guest ++ " (" ++ Js.Number_toString (ProxmoxVm.id guest) ++ ")")
    Collapsed Kind.vm
    (Some {| nodeName := Some (ProxmoxVm.node guest); vm := Some guest;
             snapshotName := None; snapshotTime := None |})
    (Some (toUpperCase (VmType.toString (ProxmoxVm.type guest)) ++ " " ++ bullet display
           ++ " " ++ vmStatusText (ProxmoxVm.status guest)))
    (Some match ProxmoxVm.type guest with
          | VmType.qemu => "desktop-download"
          | VmType.lxc => "container"
          end).

Definition snapshotItem (guest : ProxmoxVm.t) (snapshot : ProxmoxSnapshot.t)
    : ProxmoxExplorerItem :=
  item (ProxmoxSnapshot.name snapshot) NotCollapsible Kind.snapshot
    (Some {| nodeName := None; vm := Some guest;
             snapshotName := Some (ProxmoxSnapshot.name snapshot);
             snapshotTime := Some (ProxmoxSnapshot.createdAt snapshot) |})
    (match ProxmoxSnapshot.createdAt snapshot with
     | Some createdAt =>
         if createdAt =? 0 then None
         else Some (toLocaleString display (createdAt * 1000))
     | None => None
     end)
    (Some "history").

Definition errorItem (error : Rejection) : ProxmoxExplorerItem :=
  item "Failed to load Proxmox data" NotCollapsible Kind.error None
    (Some (messageOf error)) (Some "error").

(** [list.length === 0 ? [placeholder] : list.map(...)] *)
Definition orPlaceholder {A} (text : string) (f : A -> ProxmoxExplorerItem) (l : list A)
    : list ProxmoxExplorerItem :=
  match l with
  | [] => [placeholder text]
  | _ => map f l
  end.

(** [element.kind === 'node' && element.data?.nodeName] *)
Definition nodeToExpand (element : ProxmoxExplorerItem) : option string :=
  match kind element, data element with
  | Kind.node, Some d =>
      match nodeName d with
      | Some name => if Js.truthy name then Some name else None
      | None => None
      end
  | _, _ => None
  end.

(** [element.kind === 'vm' && element.data?.vm] *)
Definition vmToExpand (element : ProxmoxExplorerItem) : option ProxmoxVm.t :=
  match kind element, data element with
  | Kind.vm, Some d => vm d
  | _, _ => None
  end.

(** The body of the [try] of [getChildren]. *)
Definition loadChildren (getClient : Promise (option ProxmoxClient.t))
    (element : option ProxmoxExplorerItem) : Promise (list ProxmoxExplorerItem) :=
  client <- getClient ;;
  match client with
  | None => resolve [placeholder "Configure Proxmox settings to load data"]
  | Some client =>
      match element with
      | None =>
          nodes <- ProxmoxClient.listNodes rt client ;;
          resolve (orPlaceholder "No nodes found" nodeItem nodes)
      | Some element =>
          match nodeToExpand element with
          | Some name =>
              vms <- ProxmoxClient.listVirtualMachines rt client name ;;
              resolve (orPlaceholder "No VMs found" vmItem vms)
          | None =>
              match vmToExpand element with
              | Some guest =>
                  snapshots <- ProxmoxClient.listSnapshots rt client
                                 (ProxmoxVm.node guest) (ProxmoxVm.type guest)
                                 (ProxmoxVm.id guest) ;;
                  resolve (orPlaceholder "No snapshots" (snapshotItem guest) snapshots)
              | None => resolve []
              end
          end
      end
  end.

Definition getChildren (getClient : Promise (option ProxmoxClient.t))
    (element : option ProxmoxExplorerItem) : Promise (list ProxmoxExplorerItem) :=
  catch (loadChildren getClient element) (fun error => resolve [errorItem error]).
End Tree.

End Explorer.

(** ** Runs on the transport double *)

Example trim_ex : Js.trim "  web 1 " = "web 1".
Proof. reflexivity. Qed.

Example encodeURIComponent_ex : Js.encodeURIComponent "a b/c" = "a%20b%2Fc".
Proof. reflexivity. Qed.

Example formEncode_ex :
  Js.URLSearchParams_toString [("snapname", "pre upgrade")] = "snapname=pre+upgrade".
Proof. reflexivity. Qed.

(** The end-to-end scenario of the specification. *)
Example listGuests_scenario :
  fst (ProxmoxClient.listVirtualMachines Double.platform Double.pve "pve1" [])
  = inr [ {| ProxmoxVm.id := 50; ProxmoxVm.name := "VM 50";
             ProxmoxVm.status := VmStatus.stopped; ProxmoxVm.type := VmType.lxc;
             ProxmoxVm.node := "pve1" |};
          {| ProxmoxVm.id := 100; ProxmoxVm.name := "web";
             ProxmoxVm.status := VmStatus.running; ProxmoxVm.type := VmType.qemu;
             ProxmoxVm.node := "pve1" |} ].
Proof. vm_compute. reflexivity. Qed.

Example listGuests_scenario_requests :
  map (fun i => (module i, href (target i), agent (options i), rejectUnauthorized (options i)))
      (issued (ProxmoxClient.listVirtualMachines Double.platform Double.pve "pve1") [])
  = [ (node_https, "https://h:8006/api2/json/nodes/pve1/qemu", None, Some true);
      (node_https, "https://h:8006/api2/json/nodes/pve1/lxc", None, Some true) ].
Proof. vm_compute. reflexivity. Qed.

(** An insecure client on a TLS address, and on a plain http address. *)
Example insecure_https_request :
  map (fun i => (module i, agent (options i), rejectUnauthorized (options i)))
      (issued (perform Double.platform (withInsecure true Double.pve) listNodes) [])
  = [ (node_https, Some {| agent_rejectUnauthorized := false |}, Some false) ].
Proof. vm_compute. reflexivity. Qed.

Example insecure_http_request :
  let self :=
    ProxmoxClient.new
      {| ProxmoxClientConfig.host := "http://h:8006/";
         ProxmoxClientConfig.apiToken := "u@pve!t=secret";
         ProxmoxClientConfig.allowInsecure := Some true |} in
  map (fun i => (module i, href (target i), agent (options i), rejectUnauthorized (options i)))
      (issued (perform Double.platform self listNodes) [])
  = [ (node_http, "http://h:8006/api2/json/nodes", None, None) ].
Proof. vm_compute. reflexivity. Qed.

(** A 500 from the lxc collection, and a 200 that is not JSON from the qemu
    collection. *)
Example listGuests_protocol_failure :
  fst (ProxmoxClient.listVirtualMachines Double.platform Double.pve "pve2" [])
  = inl (Error ("Proxmox API error 500: " ++ Double.quoted "permission denied")).
Proof. vm_compute. reflexivity. Qed.

Example listGuests_decode_failure :
  fst (ProxmoxClient.listVirtualMachines Double.platform Double.pve "pve3" [])
  = inl (SyntaxError "not-json").
Proof. vm_compute. reflexivity. Qed.

(** The body of [createSnapshot]. *)
Example createSnapshot_request :
  map (fun i => (method (options i), written i, headers (options i)))
      (issued (perform Double.platform Double.pve
                 (createSnapshot "pve1" VmType.qemu 100 "pre upgrade")) [])
  = [ (POST, Some "snapname=pre+upgrade",
       [("Accept", "application/json");
        ("Authorization", "PVEAPIToken=u@pve!t=secret");
        ("Content-Type", "application/x-www-form-urlencoded");
        ("Content-Length", "20")]) ].
Proof. vm_compute. reflexivity. Qed.

(** With an unconfigured client the guarded operations make no invocation. *)
Example listNodes_not_configured :
  ProxmoxClient.listNodes Double.platform
    (ProxmoxClient.new
       {| ProxmoxClientConfig.host := "  ";
          ProxmoxClientConfig.apiToken := "u@pve!t=secret";
          ProxmoxClientConfig.allowInsecure := None |}) []
  = (inl (Error "Proxmox host or API token is not configured."), []).
Proof. vm_compute. reflexivity. Qed.

(** ** Facts about the stable sort *)

Section SortByKey.
Context {A : Type} (key : A -> Z).

#[local] Abbreviation byKey := (fun a b : A => key a - key b).

Lemma insert_length (x : A) (l : list A) :
  List.length (Js.insert byKey x l) = S (List.length l).
Proof.
  induction l as [|y l IH]; simpl; [reflexivity|].
  destruct (byKey x y <=? 0); simpl; congruence.
Qed.

Lemma Array_sort_length (l : list A) :
  List.length (Js.Array_sort byKey l) = List.length l.
Proof.
  induction l as [|x l IH]; simpl; [reflexivity|].
  rewrite insert_length. congruence.
Qed.

Lemma insert_Permutation (x : A) (l : list A) :
  Permutation (x :: l) (Js.insert byKey x l).
Proof.
  induction l as [|y l IH]; simpl; [apply Permutation_refl|].
  destruct (byKey x y <=? 0); [apply Permutation_refl|].
  eapply Permutation_trans; [apply perm_swap|].
  apply perm_skip, IH.
Qed.

Lemma Array_sort_Permutation (l : list A) :
  Permutation l (Js.Array_sort byKey l).
Proof.
  induction l as [|x l IH]; simpl; [apply perm_nil|].
  eapply Permutation_trans; [apply perm_skip, IH|apply insert_Permutation].
Qed.

Lemma insert_sorted (x : A) (l : list A) :
  StronglySorted (fun a b => key a <= key b) l ->
  StronglySorted (fun a b => key a <= key b) (Js.insert byKey x l).
Proof.
  induction 1 as [|y l Hl IH Hy]; simpl.
  - constructor; constructor.
  - destruct (Z.leb_spec (byKey x y) 0) as [Hle|Hgt]; cbv beta in *.
    + constructor; [constructor; assumption|].
      constructor; [lia|].
      eapply Forall_impl; [|exact Hy]. simpl. intros; lia.
    + constructor; [exact IH|].
      eapply Permutation_Forall; [apply insert_Permutation|].
      constructor; [lia|exact Hy].
Qed.

Lemma Array_sort_sorted (l : list A) :
  StronglySorted (fun a b => key a <= key b) (Js.Array_sort byKey l).
Proof.
  induction l as [|x l IH]; simpl; [constructor|].
  apply insert_sorted, IH.
Qed.

(** An inserted element only passes elements with a strictly smaller key, so
    the elements of one key keep their order. *)
Lemma insert_filter_key (k : Z) (x : A) (l : list A) :
  filter (fun a => key a =? k) (Js.insert byKey x l)
  = filter (fun a => key a =? k) (x :: l).
Proof.
  induction l as [|y l IH]; [reflexivity|].
  cbn [Js.insert].
  destruct (Z.leb_spec (byKey x y) 0) as [Hle|Hgt]; [reflexivity|].
  cbv beta in Hgt.
  cbn [filter] in *. rewrite IH.
  destruct (Z.eqb_spec (key x) k), (Z.eqb_spec (key y) k); try reflexivity.
  lia.
Qed.

Lemma Array_sort_stable (k : Z) (l : list A) :
  filter (fun a => key a =? k) (Js.Array_sort byKey l)
  = filter (fun a => key a =? k) l.
Proof.
  induction l as [|x l IH]; [reflexivity|].
  cbn [Js.Array_sort fold_right].
  rewrite insert_filter_key. cbn [filter].
  unfold Js.Array_sort in IH. rewrite IH. reflexivity.
Qed.

Lemma Array_sort_In (a : A) (l : list A) :
  In a (Js.Array_sort byKey l) <-> In a l.
Proof.
  split; apply Permutation_in;
    [apply Permutation_sym|]; apply Array_sort_Permutation.
Qed.
(** Two lists in the order of their keys that hold, for every key, the same
    elements in the same order are one list: the result of a stable sort does
    not depend on how the platform sorts. *)
Lemma sorted_stable_unique (s1 s2 : list A) :
  StronglySorted (fun a b => key a <= key b) s1 ->
  StronglySorted (fun a b => key a <= key b) s2 ->
  (forall k, filter (fun a => key a =? k) s1 = filter (fun a => key a =? k) s2) ->
  s1 = s2.
Proof.
  intros H1. revert s2.
  induction H1 as [|x s1 Hs1 IH Hx]; intros s2 H2 Hsame.
  - destruct s2 as [|y s2]; [reflexivity|].
    specialize (Hsame (key y)). cbn in Hsame. rewrite Z.eqb_refl in Hsame.
    discriminate Hsame.
  - destruct H2 as [|y s2 Hs2 Hy].
    { specialize (Hsame (key x)). cbn in Hsame. rewrite Z.eqb_refl in Hsame.
      discriminate Hsame. }
    assert (key x = key y) as Hkey.
    { apply Z.le_antisymm.
      - pose proof (Hsame (key y)) as Hk. cbn in Hk. rewrite Z.eqb_refl in Hk.
        destruct (Z.eqb_spec (key x) (key y)) as [E|_]; [lia|].
        assert (In y (filter (fun a => key a =? key y) s1)) as Hin
          by (rewrite Hk; left; reflexivity).
        apply filter_In in Hin as [Hin _].
        rewrite Forall_forall in Hx. apply Hx, Hin.
      - pose proof (Hsame (key x)) as Hk. cbn in Hk. rewrite Z.eqb_refl in Hk.
        destruct (Z.eqb_spec (key y) (key x)) as [E|_]; [lia|].
        assert (In x (filter (fun a => key a =? key x) s2)) as Hin
          by (rewrite <- Hk; left; reflexivity).
        apply filter_In in Hin as [Hin _].
        rewrite Forall_forall in Hy. apply Hy, Hin. }
    pose proof (Hsame (key x)) as Hk. cbn in Hk.
    rewrite <- Hkey, Z.eqb_refl in Hk. injection Hk as Hxy Htail. subst y.
    f_equal. apply IH; [exact Hs2|].
    intros k. specialize (Hsame k). cbn in Hsame.
    destruct (key x =? k); [injection Hsame as Hsame|]; exact Hsame.
Qed.

Lemma Array_sort_unique (l sorted : list A) :
  StronglySorted (fun a b => key a <= key b) sorted ->
  (forall k, filter (fun a => key a =? k) sorted = filter (fun a => key a =? k) l) ->
  sorted = Js.Array_sort byKey l.
Proof.
  intros Hsorted Hstable.
  apply sorted_stable_unique; [exact Hsorted|apply Array_sort_sorted|].
  intros k. rewrite Array_sort_stable. apply Hstable.
Qed.
End SortByKey.

(** ** Facts about computations *)

Lemma emits_resolve {A} (P : Invocation -> Prop) (a : A) : emits P (resolve a).
Proof. intros log. exists []. simpl. rewrite app_nil_r. auto. Qed.

Lemma emits_reject {A} (P : Invocation -> Prop) (e : Rejection) :
  emits P (@reject A e).
Proof. intros log. exists []. simpl. rewrite app_nil_r. auto. Qed.

Lemma emits_await {A B} (P : Invocation -> Prop) (p : Promise A) (k : A -> Promise B) :
  emits P p -> (forall a, emits P (k a)) -> emits P (await p k).
Proof.
  intros Hp Hk log. unfold await.
  destruct (Hp log) as (new1 & E1 & F1).
  destruct (p log) as [[e|a] log1]; simpl in E1; subst log1.
  - exists new1. auto.
  - destruct (Hk a (log ++ new1)%list) as (new2 & E2 & F2).
    exists (new1 ++ new2)%list. rewrite E2, app_assoc.
    split; [reflexivity|]. apply Forall_app. auto.
Qed.

Lemma emits_abandon {A B} (P : Invocation -> Prop) (p : Promise A) (e : Rejection) :
  emits P p -> emits P (@abandon A B p e).
Proof. intros Hp log. unfold abandon. simpl. apply Hp. Qed.

Lemma emits_all2 {A B} (P : Invocation -> Prop) (flag : bool)
    (p1 : Promise A) (p2 : Promise B) :
  emits P p1 -> emits P p2 -> emits P (Promise_all2 flag p1 p2).
Proof.
  intros H1 H2 log. unfold Promise_all2.
  destruct (H1 log) as (new1 & E1 & F1).
  destruct (p1 log) as [r1 log1]; simpl in E1; subst log1.
  destruct (H2 (log ++ new1)%list) as (new2 & E2 & F2).
  destruct (p2 (log ++ new1)%list) as [r2 log2]; simpl in E2; subst log2.
  exists (new1 ++ new2)%list. simpl. rewrite app_assoc.
  split; [reflexivity|]. apply Forall_app. auto.
Qed.

Lemma emits_issued {A} (P : Invocation -> Prop) (p : Promise A) (log : list Invocation) :
  emits P p -> Forall P (issued p log).
Proof.
  intros Hp. destruct (Hp log) as (new & E & F).
  unfold issued. rewrite E, skipn_app, skipn_all, Nat.sub_diag. exact F.
Qed.

(** ** Facts about the client *)

Section ClientFacts.
Variable rt : Runtime.
Variable self : ProxmoxClient.t.

Lemma construct_emits (P : Invocation -> Prop) (input : string) (base : option URL) :
  emits P (ProxmoxClient.construct rt input base).
Proof.
  unfold ProxmoxClient.construct.
  destruct (URL_new rt input base); [apply emits_resolve|apply emits_reject].
Qed.

Lemma vmUrl_emits (P : Invocation -> Prop) (path : string) :
  emits P (ProxmoxClient.vmUrl rt self path).
Proof.
  unfold ProxmoxClient.vmUrl, ProxmoxClient.normalizedBaseUrl.
  apply emits_await; intros; apply construct_emits.
Qed.

(** [requestJson] makes exactly one invocation, whatever the answer. *)
Lemma requestJson_log {T} (assert : JSON rt -> T) (url : URL) (method : Method)
    (body : option (list (string * BodyValue))) (log : list Invocation) :
  snd (ProxmoxClient.requestJson rt self assert url method body log)
  = (log ++ [ProxmoxClient.invocationOf self url method body])%list.
Proof.
  unfold ProxmoxClient.requestJson.
  destruct (respond rt log _) as [reason|statusCode chunks]; [reflexivity|].
  destruct (ProxmoxClient.notOk statusCode); [reflexivity|].
  destruct (JSON_parse rt _); reflexivity.
Qed.

Lemma requestJson_emits {T} (P : Invocation -> Prop) (assert : JSON rt -> T)
    (url : URL) (method : Method) (body : option (list (string * BodyValue))) :
  P (ProxmoxClient.invocationOf self url method body) ->
  emits P (ProxmoxClient.requestJson rt self assert url method body).
Proof.
  intros HP log. eexists. split; [apply requestJson_log|].
  constructor; [exact HP|constructor].
Qed.

Lemma perform_emits (P : Invocation -> Prop) (op : Operation) :
  (forall url method body, P (ProxmoxClient.invocationOf self url method body)) ->
  emits P (perform rt self op).
Proof.
  intros HP.
  destruct op; cbn [perform];
    (apply emits_await; [|intros; apply emits_resolve]);
    unfold ProxmoxClient.listNodes, ProxmoxClient.listVirtualMachines,
      ProxmoxClient.getVirtualMachineDetails, ProxmoxClient.startVirtualMachine,
      ProxmoxClient.stopVirtualMachine, ProxmoxClient.restartVirtualMachine,
      ProxmoxClient.listSnapshots, ProxmoxClient.createSnapshot,
      ProxmoxClient.deleteSnapshot, ProxmoxClient.restoreSnapshot;
    try (destruct (ProxmoxClient.notConfigured self); [apply emits_reject|]);
    repeat first
      [ apply emits_resolve
      | apply construct_emits
      | apply vmUrl_emits
      | apply requestJson_emits; apply HP
      | apply emits_all2
      | apply emits_abandon
      | apply emits_await; [|intros ?]
      | match goal with
        | |- emits _ (match ?x with _ => _ end) => destruct x
        end ].
Qed.

Lemma notConfigured_iff :
  ProxmoxClient.notConfigured self = true
  <-> ProxmoxClient.host self = "" \/ ProxmoxClient.apiToken self = "".
Proof.
  unfold ProxmoxClient.notConfigured, Js.truthy.
  rewrite orb_true_iff, !negb_true_iff, !negb_false_iff, !String.eqb_eq.
  reflexivity.
Qed.

Lemma vmUrl_endpoint (path : string) (url : URL) (log : list Invocation) :
  endpoint rt self path = Some url ->
  ProxmoxClient.vmUrl rt self path log = (inr url, log).
Proof.
  unfold endpoint, ProxmoxClient.vmUrl, ProxmoxClient.normalizedBaseUrl,
    ProxmoxClient.construct, await.
  destruct (URL_new rt _ None) as [baseUrl|]; [|discriminate].
  intros E. cbn. rewrite E. reflexivity.
Qed.

Lemma listNodes_returns (log log' : list Invocation)
    (response : Wire.Envelope (list Wire.NodeEntry)) :
  ProxmoxClient.notConfigured self = false ->
  fetches rt self (as_nodes rt) "api2/json/nodes" log response log' ->
  ProxmoxClient.listNodes rt self log
  = (inr (map (fun node =>
                 {| ProxmoxNode.name := Wire.node node ?? "unknown";
                    ProxmoxNode.status :=
                      ProxmoxClient.normalizeStatus (Wire.node_status node) |})
              (Wire.data response ?? [])), log').
Proof.
  intros Hc (url & Hurl & Hreq).
  unfold ProxmoxClient.listNodes. rewrite Hc.
  unfold endpoint in Hurl. unfold ProxmoxClient.construct, await.
  destruct (URL_new rt _ None) as [baseUrl|]; [|discriminate].
  cbn. rewrite Hurl. cbn. rewrite Hreq. reflexivity.
Qed.

Lemma listVirtualMachines_returns (node : string) (log log1 log2 : list Invocation)
    (qemuResponse lxcResponse : Wire.Envelope (list Wire.VmEntry)) :
  ProxmoxClient.notConfigured self = false ->
  fetches rt self (as_vms rt) (guestsPath node VmType.qemu) log qemuResponse log1 ->
  fetches rt self (as_vms rt) (guestsPath node VmType.lxc) log1 lxcResponse log2 ->
  ProxmoxClient.listVirtualMachines rt self node log
  = (inr (ProxmoxClient.mergeVms node qemuResponse lxcResponse), log2).
Proof.
  intros Hc (qemuUrl & Hq & Hqr) (lxcUrl & Hl & Hlr).
  unfold ProxmoxClient.listVirtualMachines. rewrite Hc.
  unfold endpoint, guestsPath in Hq, Hl. unfold ProxmoxClient.construct, await.
  destruct (URL_new rt _ None) as [baseUrl|]; [|discriminate].
  cbn in *. rewrite Hq. cbn. rewrite Hl.
  unfold Promise_all2. rewrite Hqr, Hlr. reflexivity.
Qed.

(** A rejected fetch rejects the whole listing, with the rejection of one of
    the two fetches. *)
Lemma listVirtualMachines_rejects (node : string) (log log1 log2 : list Invocation)
    (qemuUrl lxcUrl : URL)
    (r1 r2 : Rejection + Wire.Envelope (list Wire.VmEntry)) :
  ProxmoxClient.notConfigured self = false ->
  endpoint rt self (guestsPath node VmType.qemu) = Some qemuUrl ->
  endpoint rt self (guestsPath node VmType.lxc) = Some lxcUrl ->
  ProxmoxClient.requestJson rt self (as_vms rt) qemuUrl GET None log = (r1, log1) ->
  ProxmoxClient.requestJson rt self (as_vms rt) lxcUrl GET None log1 = (r2, log2) ->
  (exists e, r1 = inl e) \/ (exists e, r2 = inl e) ->
  exists e,
    ProxmoxClient.listVirtualMachines rt self node log = (inl e, log2) /\
    (r1 = inl e \/ r2 = inl e).
Proof.
  intros Hc Hq Hl Hqr Hlr Hfail.
  unfold ProxmoxClient.listVirtualMachines. rewrite Hc.
  unfold endpoint, guestsPath in Hq, Hl. unfold ProxmoxClient.construct, await.
  destruct (URL_new rt _ None) as [baseUrl|]; [|discriminate].
  cbn in *. rewrite Hq. cbn. rewrite Hl.
  unfold Promise_all2. rewrite Hqr, Hlr.
  destruct r1 as [e1|a], r2 as [e2|b].
  - destruct (second_settles_first rt); eexists; split; eauto.
  - eexists; split; eauto.
  - eexists; split; eauto.
  - destruct Hfail as [[e He]|[e He]]; discriminate.
Qed.

Lemma getVirtualMachineDetails_returns (node : string) (type : VmType.t) (vmId : Z)
    (log log' : list Invocation) (response : Wire.Envelope Wire.Current) :
  ProxmoxClient.notConfigured self = false ->
  fetches rt self (as_current rt)
    (ProxmoxClient.vmPath node type vmId ++ "/status/current") log response log' ->
  exists details,
    ProxmoxClient.getVirtualMachineDetails rt self node type vmId log
    = (inr details, log') /\
    ProxmoxVmDetails.id details = vmId /\
    ProxmoxVmDetails.name details
    = ProxmoxClient.trimmedOr
        (match Wire.data response with
         | Some data => Wire.cur_name data
         | None => None
         end)
        ("VM " ++ Js.Number_toString vmId).
Proof.
  intros Hc (url & Hurl & Hreq).
  unfold ProxmoxClient.getVirtualMachineDetails. rewrite Hc.
  unfold await. rewrite (vmUrl_endpoint _ _ _ Hurl), Hreq.
  eexists. split; [reflexivity|]. split; [reflexivity|].
  cbn. destruct (Wire.data response); reflexivity.
Qed.

Lemma listSnapshots_returns (node : string) (type : VmType.t) (vmId : Z)
    (log log' : list Invocation) (response : Wire.Envelope (list Wire.SnapshotEntry)) :
  fetches rt self (as_snapshots rt)
    (ProxmoxClient.vmPath node type vmId ++ "/snapshot") log response log' ->
  ProxmoxClient.listSnapshots rt self node type vmId log
  = (inr (map (fun snapshot =>
                 {| ProxmoxSnapshot.name := Wire.snap_name snapshot ?? "unknown";
                    ProxmoxSnapshot.createdAt := Wire.snaptime snapshot |})
              (filter ProxmoxClient.keptSnapshot (Wire.data response ?? []))), log').
Proof.
  intros (url & Hurl & Hreq).
  unfold ProxmoxClient.listSnapshots, await.
  rewrite (vmUrl_endpoint _ _ _ Hurl), Hreq. reflexivity.
Qed.
End ClientFacts.

Lemma append_nil_r (s : string) : s ++ "" = s.
Proof. induction s as [|c s IH]; simpl; congruence. Qed.

Lemma append_assoc (s1 s2 s3 : string) : (s1 ++ s2) ++ s3 = s1 ++ s2 ++ s3.
Proof. induction s1 as [|c s1 IH]; simpl; congruence. Qed.

Lemma contains_middle (before needle after : string) :
  Js.contains (before ++ needle ++ after) needle.
Proof. exists before, after. reflexivity. Qed.

Lemma contains_end (before needle : string) : Js.contains (before ++ needle) needle.
Proof. exists before, "". rewrite append_nil_r. reflexivity. Qed.

(** Sorting by a key commutes with every change of the elements that keeps
    their keys. *)
Lemma Array_sort_map_key {A} (key : A -> Z) (g : A -> A) (l : list A) :
  (forall a, key (g a) = key a) ->
  Js.Array_sort (fun a b => key a - key b) (map g l)
  = map g (Js.Array_sort (fun a b => key a - key b) l).
Proof.
  intros Hg. induction l as [|x l IH]; [reflexivity|].
  cbn [map Js.Array_sort fold_right]. unfold Js.Array_sort in IH. rewrite IH.
  generalize (fold_right (Js.insert (fun a b => key a - key b)) [] l) as s.
  induction s as [|y s IHs]; [reflexivity|].
  cbn [Js.insert map]. rewrite !Hg.
  destruct (key x - key y <=? 0); cbn [map]; congruence.
Qed.

(** The three guarded operations do fail fast. *)
Lemma guarded_operations_fail_fast (rt : Runtime) (self : ProxmoxClient.t) (op : Operation) :
  match op with
  | listNodes | listGuests _ | getGuestDetail _ _ _ => True
  | _ => False
  end ->
  failsFastWhenNotConfigured rt self op.
Proof.
  intros Hop Hempty log. apply notConfigured_iff in Hempty.
  destruct op; try contradiction; cbn [perform]; unfold await,
    ProxmoxClient.listNodes, ProxmoxClient.listVirtualMachines,
    ProxmoxClient.getVirtualMachineDetails;
    rewrite Hempty; reflexivity.
Qed.

(** With an empty host the other operations stop at the [URL] constructor,
    when it refuses a lone slash: no invocation, but not the configuration
    error. *)
Lemma unguarded_operation_empty_host (rt : Runtime) (self : ProxmoxClient.t)
    (node : string) (type : VmType.t) (vmId : Z) (log : list Invocation) :
  ProxmoxClient.host self = "" ->
  URL_new rt "/" None = None ->
  perform rt self (startGuest node type vmId) log = (inl (TypeError "/"), log).
Proof.
  intros Hhost Hurl. cbn [perform].
  unfold ProxmoxClient.startVirtualMachine, ProxmoxClient.vmUrl,
    ProxmoxClient.normalizedBaseUrl, ProxmoxClient.construct, await.
  rewrite Hhost. cbn. rewrite Hurl. reflexivity.
Qed.

(** * The claims *)

(** C1 (fails on the code).  The claim: every operation fails with the
    configuration error, before any transport invocation, when the host or the
    token is empty.  [startVirtualMachine] has no such guard: with the host
    [https://h:8006] and a token of white space only, which the constructor
    trims to the empty string, starting guest 100 on [pve1] invokes the
    transport once, with the header [Authorization: PVEAPIToken=], and is
    fulfilled. *)
Theorem C1_startGuest_with_empty_token_invokes_transport :
  let self :=
    ProxmoxClient.new
      {| ProxmoxClientConfig.host := "https://h:8006";
         ProxmoxClientConfig.apiToken := " ";
         ProxmoxClientConfig.allowInsecure := None |} in
  ProxmoxClient.apiToken self = "" /\
  (exists invocation,
     perform Double.platform self (startGuest "pve1" VmType.qemu 100) []
     = (inr Done, [invocation]) /\
     href (target invocation)
     = "https://h:8006/api2/json/nodes/pve1/qemu/100/status/start" /\
     In ("Authorization", "PVEAPIToken=") (headers (options invocation))) /\
  ~ failsFastWhenNotConfigured Double.platform self (startGuest "pve1" VmType.qemu 100).
Proof.
  cbv zeta. split; [reflexivity|]. split.
  - eexists. split; [vm_compute; reflexivity|].
    split; [reflexivity|]. right. left. reflexivity.
  - intros H. specialize (H (or_intror eq_refl) []).
    vm_compute in H. discriminate H.
Qed.

(** C2.  When the qemu collection of a node returns N entries and its lxc
    collection M entries, [listVirtualMachines] is fulfilled with N+M records,
    in non-decreasing order of id; the records of one id stand in the order of
    the merged input (the sort is stable), and giving the records other types
    before sorting changes nothing in the order. *)
Theorem C2_listGuests_all_entries_sorted_stable :
  forall (rt : Runtime) (self : ProxmoxClient.t) (node : string)
         (log log1 log2 : list Invocation)
         (qemuResponse lxcResponse : Wire.Envelope (list Wire.VmEntry)),
    ProxmoxClient.notConfigured self = false ->
    fetches rt self (as_vms rt) (guestsPath node VmType.qemu) log qemuResponse log1 ->
    fetches rt self (as_vms rt) (guestsPath node VmType.lxc) log1 lxcResponse log2 ->
    let merged :=
      (map (fun vm => ProxmoxClient.mapVm vm VmType.qemu node) (Wire.data qemuResponse ?? [])
       ++ map (fun vm => ProxmoxClient.mapVm vm VmType.lxc node) (Wire.data lxcResponse ?? []))%list in
    exists vms,
      ProxmoxClient.listVirtualMachines rt self node log = (inr vms, log2) /\
      List.length vms
      = (List.length (Wire.data qemuResponse ?? [])
         + List.length (Wire.data lxcResponse ?? []))%nat /\
      StronglySorted (fun a b => ProxmoxVm.id a <= ProxmoxVm.id b) vms /\
      (forall k,
         filter (fun vm => ProxmoxVm.id vm =? k) vms
         = filter (fun vm => ProxmoxVm.id vm =? k) merged) /\
      (forall retype : ProxmoxVm.t -> VmType.t,
         let relabel vm :=
           {| ProxmoxVm.id := ProxmoxVm.id vm; ProxmoxVm.name := ProxmoxVm.name vm;
              ProxmoxVm.status := ProxmoxVm.status vm; ProxmoxVm.type := retype vm;
              ProxmoxVm.node := ProxmoxVm.node vm |} in
         Js.Array_sort (fun a b => ProxmoxVm.id a - ProxmoxVm.id b) (map relabel merged)
         = map relabel vms).
Proof.
  intros rt self node log log1 log2 q lx Hc Hq Hl merged.
  exists (ProxmoxClient.mergeVms node q lx).
  split; [apply listVirtualMachines_returns with (log1 := log1); assumption|].
  unfold ProxmoxClient.mergeVms. fold merged.
  split; [|split; [|split]].
  - rewrite (Array_sort_length ProxmoxVm.id). unfold merged.
    rewrite length_app, !length_map. reflexivity.
  - apply (Array_sort_sorted ProxmoxVm.id).
  - intros k. apply (Array_sort_stable ProxmoxVm.id).
  - intros retype. apply (Array_sort_map_key ProxmoxVm.id). reflexivity.
Qed.

Lemma C2_witness :
  exists vms,
    fst (ProxmoxClient.listVirtualMachines Double.platform Double.pve "pve1" []) = inr vms /\
    List.length vms = 2%nat.
Proof.
  destruct (C2_listGuests_all_entries_sorted_stable Double.platform Double.pve "pve1"
              [] _ _ _ _ eq_refl
              (ex_intro _ _ (conj eq_refl eq_refl))
              (ex_intro _ _ (conj eq_refl eq_refl)))
    as (vms & Hrun & Hlen & _).
  exists vms. split; [|exact Hlen].
  rewrite Hrun. reflexivity.
Defined.

(** C3.  When the qemu fetch or the lxc fetch of [listVirtualMachines] is
    rejected, the call is rejected, with the rejection of one of the two
    fetches, and is fulfilled with no list: the response of the other fetch,
    if there is one, is dropped. *)
Theorem C3_listGuests_fails_as_a_whole :
  forall (rt : Runtime) (self : ProxmoxClient.t) (node : string)
         (log log1 log2 : list Invocation) (qemuUrl lxcUrl : URL)
         (r1 r2 : Rejection + Wire.Envelope (list Wire.VmEntry)),
    ProxmoxClient.notConfigured self = false ->
    endpoint rt self (guestsPath node VmType.qemu) = Some qemuUrl ->
    endpoint rt self (guestsPath node VmType.lxc) = Some lxcUrl ->
    ProxmoxClient.requestJson rt self (as_vms rt) qemuUrl GET None log = (r1, log1) ->
    ProxmoxClient.requestJson rt self (as_vms rt) lxcUrl GET None log1 = (r2, log2) ->
    (exists e, r1 = inl e) \/ (exists e, r2 = inl e) ->
    exists e,
      ProxmoxClient.listVirtualMachines rt self node log = (inl e, log2) /\
      (r1 = inl e \/ r2 = inl e) /\
      forall vms, fst (ProxmoxClient.listVirtualMachines rt self node log) <> inr vms.
Proof.
  intros rt self node log log1 log2 qemuUrl lxcUrl r1 r2 Hc Hq Hl Hqr Hlr Hfail.
  destruct (listVirtualMachines_rejects rt self node log log1 log2 qemuUrl lxcUrl r1 r2
              Hc Hq Hl Hqr Hlr Hfail) as (e & Hrun & Hwhich).
  exists e. split; [exact Hrun|]. split; [exact Hwhich|].
  intros vms. rewrite Hrun. discriminate.
Qed.

(** On the double, the lxc collection of [pve2] answers 500 after the qemu
    collection answered 200 with one entry: the call is rejected. *)
Lemma C3_witness :
  exists e,
    fst (ProxmoxClient.listVirtualMachines Double.platform Double.pve "pve2" []) = inl e.
Proof.
  destruct (C3_listGuests_fails_as_a_whole Double.platform Double.pve "pve2"
              [] _ _ _ _ _ _ eq_refl eq_refl eq_refl eq_refl eq_refl
              (or_intror (ex_intro _ _ eq_refl)))
    as (e & Hrun & _ & _).
  exists e. rewrite Hrun. reflexivity.
Defined.

Lemma invocationOf_policy (self : ProxmoxClient.t) (url : URL) (method : Method)
    (body : option (list (string * BodyValue))) :
  certificatePolicy self (ProxmoxClient.invocationOf self url method body).
Proof.
  exists url, method, body.
  split; [reflexivity|]. split; [reflexivity|].
  unfold ProxmoxClient.invocationOf, ProxmoxClient.requestOptions,
    ProxmoxClient.useHttps, withInsecure.
  cbn [options rejectUnauthorized agent ProxmoxClient.allowInsecure
       ProxmoxClient.apiToken].
  destruct (String.eqb_spec (protocol url) "http:") as [Hhttp|Hhttps]; cbn [negb andb].
  - split; [intros; contradiction|]. split; [intros; contradiction|].
    intros _. auto.
  - split; [intros _ ->; auto|]. split; [intros _ ->; auto|].
    intros; contradiction.
Qed.

(** C4.  Every invocation an operation makes is [invocationOf] of the client
    for some address: when the address is not plain http, an insecure client
    passes [rejectUnauthorized: false], with an agent that does not validate,
    and a client that is not insecure passes [rejectUnauthorized: true] and no
    agent; when the address is plain http, both are absent, and the whole
    invocation is the same whatever the flag. *)
Theorem C4_certificate_validation_follows_flag_and_scheme :
  forall (rt : Runtime) (self : ProxmoxClient.t) (op : Operation)
         (log : list Invocation),
    Forall (certificatePolicy self) (issued (perform rt self op) log).
Proof.
  intros rt self op log.
  apply emits_issued, perform_emits.
  apply invocationOf_policy.
Qed.

(** C5.  A response whose status is outside 200..299 rejects the request with
    an [Error] whose message contains the status code in decimal and the body
    as received; a response with a status inside 200..299 whose body
    [JSON.parse] refuses rejects it with the [SyntaxError] of the parser, which
    is no such [Error]. *)
Theorem C5_protocol_failure_and_decode_failure :
  forall (rt : Runtime) (self : ProxmoxClient.t) (T : Type) (assert : JSON rt -> T)
         (url : URL) (method : Method) (body : option (list (string * BodyValue)))
         (log : list Invocation) (code : Z) (chunks : list string),
    respond rt log (ProxmoxClient.invocationOf self url method body)
    = Response (Some code) chunks ->
    let text := String.concat "" chunks in
    let settled := fst (ProxmoxClient.requestJson rt self assert url method body log) in
    (code < 200 \/ 300 <= code ->
       exists message,
         settled = inl (Error message) /\
         Js.contains message (Js.Number_toString code) /\
         Js.contains message text) /\
    (200 <= code < 300 -> JSON_parse rt text = None ->
       settled = inl (SyntaxError text) /\
       forall message, settled <> inl (Error message)).
Proof.
  intros rt self T assert url method body log code chunks Hresp text settled.
  subst settled. unfold ProxmoxClient.requestJson. rewrite Hresp. fold text.
  split.
  - intros Hcode.
    assert (ProxmoxClient.notOk (Some code) = true) as ->.
    { unfold ProxmoxClient.notOk. apply orb_true_iff.
      destruct Hcode; [left; apply orb_true_iff; right|right]; lia. }
    eexists. split; [reflexivity|].
    unfold ProxmoxClient.apiErrorMessage. cbn [option_map orElse].
    split; [apply contains_middle|].
    rewrite <- !append_assoc. apply contains_end.
  - intros Hcode Hparse.
    assert (ProxmoxClient.notOk (Some code) = false) as ->.
    { unfold ProxmoxClient.notOk. rewrite !orb_false_iff. repeat split; lia. }
    rewrite Hparse. split; [reflexivity|]. intros message. discriminate.
Qed.

(** On the double: 500 with the body ["permission denied"], and 200 with the
    body [not-json]. *)
Lemma C5_witness :
  Js.contains ("Proxmox API error 500: " ++ Double.quoted "permission denied") "500" /\
  fst (ProxmoxClient.requestJson Double.platform Double.pve
         (as_vms Double.platform)
         {| protocol := "https:"; href := "https://h:8006/api2/json/nodes/pve3/qemu" |}
         GET None [])
  = inl (SyntaxError "not-json").
Proof.
  split.
  - destruct (C5_protocol_failure_and_decode_failure Double.platform Double.pve _
                (as_vms Double.platform)
                {| protocol := "https:"; href := "https://h:8006/api2/json/nodes/pve2/lxc" |}
                GET None [] 500 [Double.quoted "permission denied"] eq_refl)
      as [Hbad _].
    assert (500 < 200 \/ 300 <= 500) as Hcode500 by (right; lia).
    destruct (Hbad Hcode500) as (message & Hmsg & Hcode & _).
    vm_compute in Hmsg. injection Hmsg as <-. exact Hcode.
  - destruct (C5_protocol_failure_and_decode_failure Double.platform Double.pve _
                (as_vms Double.platform)
                {| protocol := "https:"; href := "https://h:8006/api2/json/nodes/pve3/qemu" |}
                GET None [] 200 ["not-json"] eq_refl)
      as [_ Hgood].
    assert (200 <= 200 < 300) as Hcode200 by lia.
    destruct (Hgood Hcode200 eq_refl) as [Hsettled _]. exact Hsettled.
Defined.

(** ** Facts the remaining claims share *)

Lemma trimmedOr_blank (name : option string) (fallback : string) :
  blank name -> ProxmoxClient.trimmedOr name fallback = fallback.
Proof.
  destruct name as [s|]; cbn; [|reflexivity].
  intros ->. reflexivity.
Qed.

Lemma In_mergeVms (node : string) (vm : ProxmoxVm.t)
    (qemuResponse lxcResponse : Wire.Envelope (list Wire.VmEntry)) :
  In vm (ProxmoxClient.mergeVms node qemuResponse lxcResponse)
  <-> (exists entry, In entry (Wire.data qemuResponse ?? []) /\
                     vm = ProxmoxClient.mapVm entry VmType.qemu node)
      \/ (exists entry, In entry (Wire.data lxcResponse ?? []) /\
                        vm = ProxmoxClient.mapVm entry VmType.lxc node).
Proof.
  unfold ProxmoxClient.mergeVms.
  rewrite (Array_sort_In ProxmoxVm.id), in_app_iff, !in_map_iff.
  split; intros [(entry & H1 & H2)|(entry & H1 & H2)]; eauto.
Qed.

Lemma entryOf_listed (node : string) (entry : Wire.VmEntry) (type : VmType.t)
    (qemuResponse lxcResponse : Wire.Envelope (list Wire.VmEntry)) :
  entryOf qemuResponse lxcResponse entry type ->
  In (ProxmoxClient.mapVm entry type node)
     (ProxmoxClient.mergeVms node qemuResponse lxcResponse).
Proof.
  intros H. apply In_mergeVms. destruct type; [left|right]; eauto.
Qed.

Lemma filter_map_length_le {A B} (p : A -> bool) (q : B -> bool) (f : A -> B) (l : list A) :
  (forall a, p a = true -> q (f a) = true) ->
  (List.length (filter p l) <= List.length (filter q (map f l)))%nat.
Proof.
  intros Hpq. induction l as [|a l IH]; cbn; [lia|].
  destruct (p a) eqn:Hp.
  - rewrite (Hpq a Hp). cbn. lia.
  - destruct (q (f a)); cbn; lia.
Qed.

Lemma keptSnapshot_unlisted (snapshot : Wire.SnapshotEntry) :
  ProxmoxClient.keptSnapshot snapshot = negb (unlisted snapshot).
Proof.
  unfold ProxmoxClient.keptSnapshot, unlisted, Js.truthy.
  destruct (Wire.snap_name snapshot) as [name|]; [|reflexivity].
  rewrite negb_orb. reflexivity.
Qed.

Lemma filter_split_length {A} (p : A -> bool) (l : list A) :
  (List.length (filter p l) + List.length (filter (fun a => negb (p a)) l)
   = List.length l)%nat.
Proof.
  induction l as [|a l IH]; cbn; [reflexivity|].
  destruct (p a); cbn; lia.
Qed.

(** C6.  When the snapshot collection is fetched, [listSnapshots] is fulfilled
    with a list that holds no record named [current], whatever the payload;
    every entry with a non-empty name other than [current] is listed under its
    name, with [createdAt] its [snaptime], or null when it has none. *)
Theorem C6_listSnapshots_never_lists_current :
  forall (rt : Runtime) (self : ProxmoxClient.t) (node : string) (type : VmType.t)
         (vmId : Z) (log log' : list Invocation)
         (response : Wire.Envelope (list Wire.SnapshotEntry)),
    fetches rt self (as_snapshots rt)
      (ProxmoxClient.vmPath node type vmId ++ "/snapshot") log response log' ->
    exists snapshots,
      ProxmoxClient.listSnapshots rt self node type vmId log = (inr snapshots, log') /\
      (forall s, In s snapshots -> ProxmoxSnapshot.name s <> "current") /\
      (forall entry name,
         In entry (Wire.data response ?? []) ->
         Wire.snap_name entry = Some name -> name <> "" -> name <> "current" ->
         In {| ProxmoxSnapshot.name := name;
               ProxmoxSnapshot.createdAt := Wire.snaptime entry |} snapshots).
Proof.
  intros rt self node type vmId log log' response Hfetch.
  eexists. split; [apply listSnapshots_returns; exact Hfetch|]. split.
  - intros s Hs. apply in_map_iff in Hs as (entry & <- & Hentry).
    apply filter_In in Hentry as [_ Hkept].
    unfold ProxmoxClient.keptSnapshot in Hkept.
    destruct (Wire.snap_name entry) as [name|]; [|discriminate]. cbn.
    apply andb_true_iff in Hkept as [_ Hcur].
    apply negb_true_iff, String.eqb_neq in Hcur. exact Hcur.
  - intros entry name Hin Hname Hne Hcur.
    apply in_map_iff. exists entry. rewrite Hname. split; [reflexivity|].
    apply filter_In. split; [exact Hin|].
    unfold ProxmoxClient.keptSnapshot, Js.truthy. rewrite Hname.
    apply andb_true_iff.
    split; apply negb_true_iff, String.eqb_neq; assumption.
Qed.

(** On the double, guest 100 of [pve1] has the entries [pre-upgrade],
    [current], one with no name and one with the empty name. *)
Lemma C6_witness :
  fst (ProxmoxClient.listSnapshots Double.platform Double.pve "pve1" VmType.qemu 100 [])
  = inr [ {| ProxmoxSnapshot.name := "pre-upgrade";
             ProxmoxSnapshot.createdAt := Some 1700000000 |} ].
Proof.
  destruct (C6_listSnapshots_never_lists_current Double.platform Double.pve "pve1"
              VmType.qemu 100 [] _ _ (ex_intro _ _ (conj eq_refl eq_refl)))
    as (snapshots & Hrun & _).
  rewrite Hrun. vm_compute in Hrun. injection Hrun as <-. reflexivity.
Defined.

(** C7.  [listNodes] gives the status [unknown] to every node whose remote
    status is not [online] or [offline], the empty and the absent status
    included; [listVirtualMachines] gives the status [unknown] to the record
    of every entry whose remote status is not [running] or [stopped]. *)
Theorem C7_unrecognised_status_is_unknown :
  forall (rt : Runtime) (self : ProxmoxClient.t),
    ProxmoxClient.notConfigured self = false ->
    (forall (log log' : list Invocation) (response : Wire.Envelope (list Wire.NodeEntry)),
       fetches rt self (as_nodes rt) "api2/json/nodes" log response log' ->
       exists nodes,
         ProxmoxClient.listNodes rt self log = (inr nodes, log') /\
         Forall2
           (fun entry node =>
              Wire.node_status entry <> Some "online" ->
              Wire.node_status entry <> Some "offline" ->
              ProxmoxNode.status node = NodeStatus.unknown)
           (Wire.data response ?? []) nodes) /\
    (forall (node : string) (log log1 log2 : list Invocation)
            (qemuResponse lxcResponse : Wire.Envelope (list Wire.VmEntry)),
       fetches rt self (as_vms rt) (guestsPath node VmType.qemu) log qemuResponse log1 ->
       fetches rt self (as_vms rt) (guestsPath node VmType.lxc) log1 lxcResponse log2 ->
       exists vms,
         ProxmoxClient.listVirtualMachines rt self node log = (inr vms, log2) /\
         forall entry type,
           entryOf qemuResponse lxcResponse entry type ->
           Wire.status entry <> Some "running" ->
           Wire.status entry <> Some "stopped" ->
           In (ProxmoxClient.mapVm entry type node) vms /\
           ProxmoxVm.status (ProxmoxClient.mapVm entry type node) = VmStatus.unknown).
Proof.
  intros rt self Hc. split.
  - intros log log' response Hfetch.
    eexists. split; [eapply listNodes_returns; eassumption|].
    induction (Wire.data response ?? []) as [|entry entries IH]; cbn; constructor;
      [|exact IH].
    cbn. unfold ProxmoxClient.normalizeStatus.
    destruct (Wire.node_status entry) as [s|]; [|reflexivity].
    intros Hon Hoff.
    destruct (String.eqb_spec s "online") as [->|_]; [congruence|].
    destruct (String.eqb_spec s "offline") as [->|_]; [congruence|reflexivity].
  - intros node log log1 log2 q lx Hq Hl.
    eexists. split; [eapply listVirtualMachines_returns; eassumption|].
    intros entry type Hentry Hrun Hstop.
    split; [apply entryOf_listed; exact Hentry|].
    cbn. unfold ProxmoxClient.normalizeVmStatus.
    destruct (Wire.status entry) as [s|]; [|reflexivity].
    destruct (String.eqb_spec s "running") as [->|_]; [congruence|].
    destruct (String.eqb_spec s "stopped") as [->|_]; [congruence|reflexivity].
Qed.

(** On the double: the nodes [pve1] (online), [pve2] (maintenance) and one
    with no field; the guests of [pve4], one of them [paused]. *)
Lemma C7_witness :
  map ProxmoxNode.status (match fst (ProxmoxClient.listNodes Double.platform Double.pve []) with
                          | inr nodes => nodes
                          | inl _ => []
                          end)
  = [NodeStatus.online; NodeStatus.unknown; NodeStatus.unknown] /\
  exists vm,
    ProxmoxVm.name vm = "ghost" /\ ProxmoxVm.status vm = VmStatus.unknown /\
    exists vms,
      fst (ProxmoxClient.listVirtualMachines Double.platform Double.pve "pve4" []) = inr vms /\
      In vm vms.
Proof.
  destruct (C7_unrecognised_status_is_unknown Double.platform Double.pve eq_refl)
    as [Hnodes Hvms].
  split.
  - destruct (Hnodes [] _ _ (ex_intro _ _ (conj eq_refl eq_refl))) as (nodes & Hrun & _).
    rewrite Hrun. vm_compute in Hrun. injection Hrun as <-. reflexivity.
  - destruct (Hvms "pve4" [] _ _ _ _
                (ex_intro _ _ (conj eq_refl eq_refl))
                (ex_intro _ _ (conj eq_refl eq_refl)))
      as (vms & Hrun & Hentries).
    destruct (Hentries
                {| Wire.vmid := None; Wire.name := Some "ghost"; Wire.status := Some "paused" |}
                VmType.qemu (or_introl eq_refl)) as [Hin Hstatus];
      [discriminate|discriminate|].
    eexists. split; [|split; [exact Hstatus|]].
    + reflexivity.
    + exists vms. rewrite Hrun. split; [reflexivity|exact Hin].
Defined.

Lemma label_of_VM_50 (label : string) : label ++ " 50" = "VM 50" -> label = "VM".
Proof.
  intros H.
  repeat (destruct label as [|? label]; cbn in H; try discriminate H;
          try reflexivity; injection H as -> H).
Qed.

(** C8 as it is written fails: for a guest with id 50 and an empty name the
    record is named [VM 50] whether its type is lxc or qemu, so no labelling
    that tells the two types apart builds the placeholder. *)
Lemma C8_placeholder_ignores_type :
  let entry := {| Wire.vmid := Some 50; Wire.name := Some ""; Wire.status := None |} in
  ProxmoxVm.name (ProxmoxClient.mapVm entry VmType.lxc "pve1") = "VM 50" /\
  ProxmoxVm.name (ProxmoxClient.mapVm entry VmType.qemu "pve1") = "VM 50" /\
  ~ placeholderBuiltFromType.
Proof.
  intros entry. split; [reflexivity|]. split; [reflexivity|].
  intros (label & Hdiffer & Hname).
  pose proof (Hname entry VmType.qemu "pve1" 50 eq_refl eq_refl) as Hqemu.
  pose proof (Hname entry VmType.lxc "pve1" 50 eq_refl eq_refl) as Hlxc.
  vm_compute in Hqemu, Hlxc.
  apply Hdiffer.
  rewrite (label_of_VM_50 _ (eq_sym Hqemu)), (label_of_VM_50 _ (eq_sym Hlxc)).
  reflexivity.
Qed.

(** C8, amended.  A guest entry with a numeric id whose name is absent, empty
    or white space only is listed by [listVirtualMachines] under the name made
    of the word [VM], a space and the id in decimal, whatever its type; and
    [getVirtualMachineDetails] names such a guest [VM], a space and the id it
    was asked for. *)
Theorem C8_blank_name_defaults_to_VM_and_id :
  forall (rt : Runtime) (self : ProxmoxClient.t) (node : string),
    ProxmoxClient.notConfigured self = false ->
    (forall (log log1 log2 : list Invocation)
            (qemuResponse lxcResponse : Wire.Envelope (list Wire.VmEntry)),
       fetches rt self (as_vms rt) (guestsPath node VmType.qemu) log qemuResponse log1 ->
       fetches rt self (as_vms rt) (guestsPath node VmType.lxc) log1 lxcResponse log2 ->
       exists vms,
         ProxmoxClient.listVirtualMachines rt self node log = (inr vms, log2) /\
         forall entry type id,
           entryOf qemuResponse lxcResponse entry type ->
           Wire.vmid entry = Some id -> blank (Wire.name entry) ->
           In {| ProxmoxVm.id := id;
                 ProxmoxVm.name := "VM " ++ Js.Number_toString id;
                 ProxmoxVm.status := ProxmoxClient.normalizeVmStatus (Wire.status entry);
                 ProxmoxVm.type := type;
                 ProxmoxVm.node := node |} vms) /\
    (forall (type : VmType.t) (vmId : Z) (log log' : list Invocation)
            (response : Wire.Envelope Wire.Current),
       fetches rt self (as_current rt)
         (ProxmoxClient.vmPath node type vmId ++ "/status/current") log response log' ->
       blank (match Wire.data response with
              | Some data => Wire.cur_name data
              | None => None
              end) ->
       exists details,
         ProxmoxClient.getVirtualMachineDetails rt self node type vmId log
         = (inr details, log') /\
         ProxmoxVmDetails.name details = "VM " ++ Js.Number_toString vmId).
Proof.
  intros rt self node Hc. split.
  - intros log log1 log2 q lx Hq Hl.
    eexists. split; [eapply listVirtualMachines_returns; eassumption|].
    intros entry type id Hentry Hid Hblank.
    pose proof (entryOf_listed node entry type q lx Hentry) as Hin.
    unfold ProxmoxClient.mapVm in Hin.
    rewrite (trimmedOr_blank _ _ Hblank), Hid in Hin. exact Hin.
  - intros type vmId log log' response Hfetch Hblank.
    destruct (getVirtualMachineDetails_returns rt self node type vmId log log' response
                Hc Hfetch) as (details & Hrun & _ & Hname).
    exists details. split; [exact Hrun|].
    rewrite Hname. apply trimmedOr_blank, Hblank.
Qed.

(** On the double: the lxc guest 50 of [pve1] has the empty name, and the
    current status of guest 100 gives a name of one space. *)
Lemma C8_witness :
  (exists vms,
     fst (ProxmoxClient.listVirtualMachines Double.platform Double.pve "pve1" []) = inr vms /\
     In {| ProxmoxVm.id := 50; ProxmoxVm.name := "VM 50";
           ProxmoxVm.status := VmStatus.stopped; ProxmoxVm.type := VmType.lxc;
           ProxmoxVm.node := "pve1" |} vms) /\
  (exists details,
     fst (ProxmoxClient.getVirtualMachineDetails Double.platform Double.pve "pve1"
            VmType.qemu 100 []) = inr details /\
     ProxmoxVmDetails.name details = "VM 100").
Proof.
  destruct (C8_blank_name_defaults_to_VM_and_id Double.platform Double.pve "pve1" eq_refl)
    as [Hvms Hdetails].
  split.
  - destruct (Hvms [] _ _ _ _
                (ex_intro _ _ (conj eq_refl eq_refl))
                (ex_intro _ _ (conj eq_refl eq_refl)))
      as (vms & Hrun & Hentries).
    exists vms. rewrite Hrun. split; [reflexivity|].
    apply (Hentries
             {| Wire.vmid := Some 50; Wire.name := Some ""; Wire.status := Some "stopped" |}
             VmType.lxc 50 (or_introl eq_refl) eq_refl eq_refl).
  - destruct (Hdetails VmType.qemu 100 [] _ _ (ex_intro _ _ (conj eq_refl eq_refl)) eq_refl)
      as (details & Hrun & Hname).
    exists details. rewrite Hrun. split; [reflexivity|exact Hname].
Defined.

(** C9.  An entry of the qemu or lxc collection that has no [vmid] is listed
    all the same, with the id -1, and under the name [VM unknown] when its
    name is blank too; each such entry has a record of its own, so the list
    holds at least as many records with the id -1 as there are entries with
    no [vmid]. *)
Theorem C9_missing_vmid_is_listed_as_minus_one :
  forall (rt : Runtime) (self : ProxmoxClient.t) (node : string)
         (log log1 log2 : list Invocation)
         (qemuResponse lxcResponse : Wire.Envelope (list Wire.VmEntry)),
    ProxmoxClient.notConfigured self = false ->
    fetches rt self (as_vms rt) (guestsPath node VmType.qemu) log qemuResponse log1 ->
    fetches rt self (as_vms rt) (guestsPath node VmType.lxc) log1 lxcResponse log2 ->
    let noVmid (entry : Wire.VmEntry) :=
      match Wire.vmid entry with
      | None => true
      | Some _ => false
      end in
    exists vms,
      ProxmoxClient.listVirtualMachines rt self node log = (inr vms, log2) /\
      (forall entry type,
         entryOf qemuResponse lxcResponse entry type ->
         Wire.vmid entry = None ->
         In (ProxmoxClient.mapVm entry type node) vms /\
         ProxmoxVm.id (ProxmoxClient.mapVm entry type node) = -1 /\
         (blank (Wire.name entry) ->
          ProxmoxVm.name (ProxmoxClient.mapVm entry type node) = "VM unknown")) /\
      (List.length (filter noVmid (Wire.data qemuResponse ?? []))
       + List.length (filter noVmid (Wire.data lxcResponse ?? []))
       <= List.length (filter (fun vm => (ProxmoxVm.id vm =? -1)%Z) vms))%nat.
Proof.
  intros rt self node log log1 log2 q lx Hc Hq Hl noVmid.
  eexists. split; [eapply listVirtualMachines_returns; eassumption|]. split.
  - intros entry type Hentry Hid.
    split; [apply entryOf_listed; exact Hentry|].
    unfold ProxmoxClient.mapVm. cbn. rewrite Hid. cbn.
    split; [reflexivity|].
    intros Hblank. apply trimmedOr_blank, Hblank.
  - unfold ProxmoxClient.mergeVms.
    rewrite (Array_sort_stable ProxmoxVm.id), filter_app, length_app.
    apply Nat.add_le_mono; apply filter_map_length_le;
      intros entry; unfold noVmid, ProxmoxClient.mapVm; cbn;
      destruct (Wire.vmid entry); cbn; congruence.
Qed.

(** On the double, the qemu collection of [pve4] has two entries with no
    [vmid], one named [ghost] and one with no name. *)
Lemma C9_witness :
  map (fun vm => (ProxmoxVm.id vm, ProxmoxVm.name vm))
      (match fst (ProxmoxClient.listVirtualMachines Double.platform Double.pve "pve4" []) with
       | inr vms => vms
       | inl _ => []
       end)
  = [(-1, "ghost"); (-1, "VM unknown"); (50, "VM 50")].
Proof.
  destruct (C9_missing_vmid_is_listed_as_minus_one Double.platform Double.pve "pve4"
              [] _ _ _ _ eq_refl
              (ex_intro _ _ (conj eq_refl eq_refl))
              (ex_intro _ _ (conj eq_refl eq_refl)))
    as (vms & Hrun & _).
  rewrite Hrun. vm_compute in Hrun. injection Hrun as <-. reflexivity.
Defined.

(** C10.  When the snapshot collection is fetched, [listSnapshots] is
    fulfilled, and every entry with no name or with the empty name is left
    out, like the entry named [current]: every record has a non-empty name,
    is made from an entry of that name, and the records and the entries with
    no name, the empty name or the name [current] add up to the entries. *)
Theorem C10_listSnapshots_drops_nameless_entries :
  forall (rt : Runtime) (self : ProxmoxClient.t) (node : string) (type : VmType.t)
         (vmId : Z) (log log' : list Invocation)
         (response : Wire.Envelope (list Wire.SnapshotEntry)),
    fetches rt self (as_snapshots rt)
      (ProxmoxClient.vmPath node type vmId ++ "/snapshot") log response log' ->
    exists snapshots,
      ProxmoxClient.listSnapshots rt self node type vmId log = (inr snapshots, log') /\
      (forall s, In s snapshots ->
         ProxmoxSnapshot.name s <> "" /\
         exists entry,
           In entry (Wire.data response ?? []) /\
           Wire.snap_name entry = Some (ProxmoxSnapshot.name s) /\
           ProxmoxSnapshot.createdAt s = Wire.snaptime entry) /\
      (List.length snapshots + List.length (filter unlisted (Wire.data response ?? []))
       = List.length (Wire.data response ?? []))%nat.
Proof.
  intros rt self node type vmId log log' response Hfetch.
  eexists. split; [apply listSnapshots_returns; exact Hfetch|]. split.
  - intros s Hs. apply in_map_iff in Hs as (entry & <- & Hentry).
    apply filter_In in Hentry as [Hin Hkept].
    unfold ProxmoxClient.keptSnapshot, Js.truthy in Hkept.
    destruct (Wire.snap_name entry) as [name|] eqn:Hname; [|discriminate].
    apply andb_true_iff in Hkept as [Hne _].
    apply negb_true_iff, String.eqb_neq in Hne. cbn.
    split; [exact Hne|]. exists entry. auto.
  - rewrite length_map.
    rewrite (filter_ext _ _ keptSnapshot_unlisted).
    rewrite Nat.add_comm. apply filter_split_length.
Qed.

Lemma C10_witness :
  exists snapshots,
    fst (ProxmoxClient.listSnapshots Double.platform Double.pve "pve1" VmType.qemu 100 [])
    = inr snapshots /\
    List.length snapshots = 1%nat.
Proof.
  destruct (C10_listSnapshots_drops_nameless_entries Double.platform Double.pve "pve1"
              VmType.qemu 100 [] _ _ (ex_intro _ _ (conj eq_refl eq_refl)))
    as (snapshots & Hrun & _ & Hcount).
  exists snapshots. rewrite Hrun. split; [reflexivity|].
  change (List.length (filter unlisted _)) with 3%nat in Hcount.
  change (List.length (Wire.data _ ?? [])) with 4%nat in Hcount.
  lia.
Defined.

(** * Further properties of the client *)

(** ** How many requests, and which *)

Lemma emitsAtMost_resolve {A} (a : A) : emitsAtMost 0 (resolve a).
Proof. intros log. exists []. simpl. rewrite app_nil_r. auto. Qed.

Lemma emitsAtMost_reject {A} (e : Rejection) : emitsAtMost 0 (@reject A e).
Proof. intros log. exists []. simpl. rewrite app_nil_r. auto. Qed.

Lemma emitsAtMost_weaken {A} (n m : nat) (p : Promise A) :
  (n <= m)%nat -> emitsAtMost n p -> emitsAtMost m p.
Proof.
  intros Hnm Hp log. destruct (Hp log) as (new & E & L).
  exists new. split; [exact E|lia].
Qed.

Lemma emitsAtMost_await {A B} (n m : nat) (p : Promise A) (k : A -> Promise B) :
  emitsAtMost n p -> (forall a, emitsAtMost m (k a)) -> emitsAtMost (n + m) (await p k).
Proof.
  intros Hp Hk log. unfold await.
  destruct (Hp log) as (new1 & E1 & L1).
  destruct (p log) as [[e|a] log1]; simpl in E1; subst log1.
  - exists new1. split; [reflexivity|lia].
  - destruct (Hk a (log ++ new1)%list) as (new2 & E2 & L2).
    exists (new1 ++ new2)%list. rewrite E2, app_assoc, length_app.
    split; [reflexivity|lia].
Qed.

Lemma emitsAtMost_all2 {A B} (n m : nat) (flag : bool) (p1 : Promise A) (p2 : Promise B) :
  emitsAtMost n p1 -> emitsAtMost m p2 -> emitsAtMost (n + m) (Promise_all2 flag p1 p2).
Proof.
  intros H1 H2 log. unfold Promise_all2.
  destruct (H1 log) as (new1 & E1 & L1).
  destruct (p1 log) as [r1 log1]; simpl in E1; subst log1.
  destruct (H2 (log ++ new1)%list) as (new2 & E2 & L2).
  destruct (p2 (log ++ new1)%list) as [r2 log2]; simpl in E2; subst log2.
  exists (new1 ++ new2)%list. simpl. rewrite app_assoc, length_app.
  split; [reflexivity|lia].
Qed.

Lemma emitsAtMost_issued {A} (n : nat) (p : Promise A) (log : list Invocation) :
  emitsAtMost n p -> (List.length (issued p log) <= n)%nat.
Proof.
  intros Hp. destruct (Hp log) as (new & E & L).
  unfold issued. rewrite E, skipn_app, skipn_all, Nat.sub_diag. exact L.
Qed.

Section RequestCount.
Variable rt : Runtime.
Variable self : ProxmoxClient.t.

Lemma construct_atMost (input : string) (base : option URL) :
  emitsAtMost 0 (ProxmoxClient.construct rt input base).
Proof.
  unfold ProxmoxClient.construct.
  destruct (URL_new rt input base); [apply emitsAtMost_resolve|apply emitsAtMost_reject].
Qed.

Lemma vmUrl_atMost (path : string) : emitsAtMost 0 (ProxmoxClient.vmUrl rt self path).
Proof.
  unfold ProxmoxClient.vmUrl, ProxmoxClient.normalizedBaseUrl.
  apply (emitsAtMost_await 0 0); intros; apply construct_atMost.
Qed.

Lemma requestJson_atMost {T} (assert : JSON rt -> T) (url : URL) (method : Method)
    (body : option (list (string * BodyValue))) :
  emitsAtMost 1 (ProxmoxClient.requestJson rt self assert url method body).
Proof.
  intros log. eexists. split; [apply requestJson_log|]. simpl. lia.
Qed.

(** A request behind the construction of its address: at most one invocation. *)
Lemma request_atMost {T} (assert : JSON rt -> T) (path : string) (method : Method)
    (body : option (list (string * BodyValue))) :
  emitsAtMost 1
    (url <- ProxmoxClient.vmUrl rt self path ;;
     ProxmoxClient.requestJson rt self assert url method body).
Proof.
  apply (emitsAtMost_await 0 1); [apply vmUrl_atMost|].
  intros url. apply requestJson_atMost.
Qed.

Lemma listVirtualMachines_atMost (node : string) :
  emitsAtMost 2 (ProxmoxClient.listVirtualMachines rt self node).
Proof.
  unfold ProxmoxClient.listVirtualMachines.
  destruct (ProxmoxClient.notConfigured self);
    [apply (emitsAtMost_weaken 0); [lia|apply emitsAtMost_reject]|].
  apply (emitsAtMost_await 0 2); [apply construct_atMost|intros baseUrl].
  apply (emitsAtMost_await 0 2); [apply construct_atMost|intros qemuUrl].
  destruct (URL_new rt _ (Some baseUrl)) as [lxcUrl|].
  - apply (emitsAtMost_await 2 0); [|intros; apply emitsAtMost_resolve].
    apply (emitsAtMost_all2 1 1); apply requestJson_atMost.
  - apply (emitsAtMost_weaken 1); [lia|].
    intros log. unfold abandon. simpl. apply requestJson_atMost.
Qed.

Lemma perform_atMost (op : Operation) :
  emitsAtMost (match op with listGuests _ => 2 | _ => 1 end) (perform rt self op).
Proof.
  destruct op; cbn [perform].
  - apply (emitsAtMost_await 1 0); [|intros; apply emitsAtMost_resolve].
    unfold ProxmoxClient.listNodes.
    destruct (ProxmoxClient.notConfigured self);
      [apply (emitsAtMost_weaken 0); [lia|apply emitsAtMost_reject]|].
    apply (emitsAtMost_await 0 1); [apply construct_atMost|intros baseUrl].
    apply (emitsAtMost_await 0 1); [apply construct_atMost|intros url].
    apply (emitsAtMost_await 1 0); [apply requestJson_atMost|].
    intros; apply emitsAtMost_resolve.
  - apply (emitsAtMost_await 2 0); [|intros; apply emitsAtMost_resolve].
    apply listVirtualMachines_atMost.
  - apply (emitsAtMost_await 1 0); [|intros; apply emitsAtMost_resolve].
    unfold ProxmoxClient.getVirtualMachineDetails.
    destruct (ProxmoxClient.notConfigured self);
      [apply (emitsAtMost_weaken 0); [lia|apply emitsAtMost_reject]|].
    apply (emitsAtMost_await 0 1); [apply vmUrl_atMost|intros url].
    apply (emitsAtMost_await 1 0); [apply requestJson_atMost|].
    intros; apply emitsAtMost_resolve.
  - apply (emitsAtMost_await 1 0); [apply request_atMost|intros; apply emitsAtMost_resolve].
  - apply (emitsAtMost_await 1 0); [apply request_atMost|intros; apply emitsAtMost_resolve].
  - apply (emitsAtMost_await 1 0); [apply request_atMost|intros; apply emitsAtMost_resolve].
  - apply (emitsAtMost_await 1 0); [|intros; apply emitsAtMost_resolve].
    unfold ProxmoxClient.listSnapshots.
    apply (emitsAtMost_await 0 1); [apply vmUrl_atMost|intros url].
    apply (emitsAtMost_await 1 0); [apply requestJson_atMost|].
    intros; apply emitsAtMost_resolve.
  - apply (emitsAtMost_await 1 0); [apply request_atMost|intros; apply emitsAtMost_resolve].
  - apply (emitsAtMost_await 1 0); [apply request_atMost|intros; apply emitsAtMost_resolve].
  - apply (emitsAtMost_await 1 0); [apply request_atMost|intros; apply emitsAtMost_resolve].
Qed.
End RequestCount.

(** X1.  No operation repeats a request: whatever the answers, an operation
    invokes the transport at most once, [listGuests] at most twice; and a
    guarded operation of a client with no host or no token invokes it not at
    all. *)
Theorem X1_no_operation_retries :
  forall (rt : Runtime) (self : ProxmoxClient.t) (op : Operation) (log : list Invocation),
    (List.length (issued (perform rt self op) log)
     <= match op with listGuests _ => 2 | _ => 1 end)%nat /\
    (guarded op = true -> ProxmoxClient.notConfigured self = true ->
     issued (perform rt self op) log = []).
Proof.
  intros rt self op log. split.
  - apply emitsAtMost_issued, perform_atMost.
  - intros Hg Hc. unfold issued.
    rewrite (guarded_operations_fail_fast rt self op).
    + simpl. apply skipn_all.
    + destruct op; try discriminate Hg; exact I.
    + apply notConfigured_iff, Hc.
Qed.





(** X3.  [listVirtualMachines] starts both requests before it looks at
    either answer: with host, token and both addresses there, it invokes the
    transport exactly twice, a GET of the qemu collection and then a GET of
    the lxc collection, also when the first of them is rejected. *)
Theorem X3_listGuests_issues_both_requests :
  forall (rt : Runtime) (self : ProxmoxClient.t) (node : string)
         (log : list Invocation) (qemuUrl lxcUrl : URL),
    ProxmoxClient.notConfigured self = false ->
    endpoint rt self (guestsPath node VmType.qemu) = Some qemuUrl ->
    endpoint rt self (guestsPath node VmType.lxc) = Some lxcUrl ->
    snd (ProxmoxClient.listVirtualMachines rt self node log)
    = (log ++ [ProxmoxClient.invocationOf self qemuUrl GET None;
               ProxmoxClient.invocationOf self lxcUrl GET None])%list.
Proof.
  intros rt self node log qemuUrl lxcUrl Hc Hq Hl.
  unfold ProxmoxClient.listVirtualMachines. rewrite Hc.
  unfold endpoint, guestsPath in Hq, Hl. unfold ProxmoxClient.construct, await.
  destruct (URL_new rt _ None) as [baseUrl|]; [|discriminate].
  cbn in *. rewrite Hq. cbn. rewrite Hl. unfold Promise_all2.
  pose proof (requestJson_log rt self (as_vms rt) qemuUrl GET None log) as H1.
  destruct (ProxmoxClient.requestJson rt self (as_vms rt) qemuUrl GET None log)
    as [r1 log1].
  simpl in H1. subst log1.
  pose proof (requestJson_log rt self (as_vms rt) lxcUrl GET None
                (log ++ [ProxmoxClient.invocationOf self qemuUrl GET None])%list) as H2.
  destruct (ProxmoxClient.requestJson rt self (as_vms rt) lxcUrl GET None _)
    as [r2 log2].
  simpl in H2. subst log2.
  rewrite <- app_assoc.
  destruct r1, r2; reflexivity.
Qed.

(** On the double, the qemu collection of [pve3] is answered with a body that
    is no JSON; the lxc collection is requested all the same. *)
Lemma X3_witness :
  map (fun i => href (target i))
      (snd (ProxmoxClient.listVirtualMachines Double.platform Double.pve "pve3" []))
  = [ "https://h:8006/api2/json/nodes/pve3/qemu";
      "https://h:8006/api2/json/nodes/pve3/lxc" ].
Proof.
  rewrite (X3_listGuests_issues_both_requests Double.platform Double.pve "pve3" []
             _ _ eq_refl eq_refl eq_refl).
  reflexivity.
Defined.

Lemma invocationOf_headers (self : ProxmoxClient.t) (url : URL) (method : Method)
    (body : option (list (string * BodyValue))) :
  headersPolicy self (ProxmoxClient.invocationOf self url method body).
Proof.
  unfold headersPolicy, ProxmoxClient.invocationOf, ProxmoxClient.requestOptions.
  cbn [written options headers].
  destruct (ProxmoxClient.payloadOf body) as [payload|]; cbn [ProxmoxClient.hasPayload].
  - destruct (Js.truthy payload) eqn:Htruthy; [|reflexivity].
    split; [|reflexivity].
    unfold Js.truthy in Htruthy.
    apply negb_true_iff, String.eqb_neq in Htruthy. exact Htruthy.
  - reflexivity.
Qed.

(** X4.  Every invocation of every operation carries [Accept:
    application/json] and [Authorization: PVEAPIToken=] followed by the token,
    in that order; when it writes a payload, which is then not empty, it
    carries the form content type and a [Content-Length] that is the number of
    bytes written, and when it writes none it carries no other header. *)
Theorem X4_headers_of_every_request :
  forall (rt : Runtime) (self : ProxmoxClient.t) (op : Operation)
         (log : list Invocation),
    Forall (headersPolicy self) (issued (perform rt self op) log).
Proof.
  intros rt self op log.
  apply emits_issued, perform_emits. apply invocationOf_headers.
Qed.

(** X5.  A response fulfils a request exactly when its status code is there
    and lies in 200..299 and [JSON.parse] accepts its body, the chunks joined
    in the order received; the value is then the parsed document.  A response
    without status code, a status 0 and a transport error never fulfil it. *)
Theorem X5_request_fulfilled_exactly_on_2xx_json :
  forall (rt : Runtime) (self : ProxmoxClient.t) (url : URL) (method : Method)
         (body : option (list (string * BodyValue))) (log : list Invocation)
         (json : JSON rt),
    fst (ProxmoxClient.requestJson rt self (fun json => json) url method body log)
    = inr json
    <-> exists code chunks,
          respond rt log (ProxmoxClient.invocationOf self url method body)
          = Response (Some code) chunks /\
          200 <= code < 300 /\
          JSON_parse rt (String.concat "" chunks) = Some json.
Proof.
  intros rt self url method body log json.
  unfold ProxmoxClient.requestJson.
  destruct (respond rt log _) as [reason|statusCode chunks].
  - split; [discriminate|]. intros (code & chunks & H & _). discriminate H.
  - destruct statusCode as [code|]; cbn [ProxmoxClient.notOk].
    + destruct (Z.eqb_spec code 0) as [E0|N0]; cbn [orb];
        [|destruct (Z.ltb_spec code 200) as [Hlo|Hlo]; cbn [orb];
          [|destruct (Z.leb_spec 300 code) as [Hhi|Hhi]; cbn [orb]]].
      * split; [discriminate|].
        intros (code' & chunks' & H & Hrange & _). injection H as <- <-. lia.
      * split; [discriminate|].
        intros (code' & chunks' & H & Hrange & _). injection H as <- <-. lia.
      * split; [discriminate|].
        intros (code' & chunks' & H & Hrange & _). injection H as <- <-. lia.
      * destruct (JSON_parse rt (String.concat "" chunks)) as [parsed|] eqn:Hparse.
        -- split.
           ++ intros H. injection H as <-. exists code, chunks.
              split; [reflexivity|]. split; [lia|exact Hparse].
           ++ intros (code' & chunks' & H & _ & Hjson). injection H as <- <-.
              rewrite Hparse in Hjson. injection Hjson as <-. reflexivity.
        -- split; [discriminate|].
           intros (code' & chunks' & H & _ & Hjson). injection H as <- <-.
           rewrite Hparse in Hjson. discriminate Hjson.
    + split; [discriminate|]. intros (code & chunks' & H & _). discriminate H.
Qed.

(** ** The base address *)

Lemma length_append (s1 s2 : string) :
  String.length (s1 ++ s2) = (String.length s1 + String.length s2)%nat.
Proof. induction s1 as [|c s1 IH]; simpl; congruence. Qed.

Lemma substring_suffix (s suffix : string) :
  substring (String.length s) (String.length suffix) (s ++ suffix) = suffix.
Proof.
  induction s as [|c s IH]; simpl; [|exact IH].
  induction suffix as [|c suffix IH]; simpl; [|rewrite IH]; reflexivity.
Qed.

Lemma endsWith_append (s suffix : string) : Js.endsWith (s ++ suffix) suffix = true.
Proof.
  unfold Js.endsWith. rewrite length_append.
  replace (String.length s + String.length suffix - String.length suffix)%nat
    with (String.length s) by lia.
  rewrite substring_suffix, String.eqb_refl, andb_true_r.
  apply Nat.leb_le. lia.
Qed.

(** X6.  A host written without its final slash and the same host written
    with it are one configuration: every operation runs the same on both,
    invocations and settlement alike. *)
Theorem X6_trailing_slash_of_host_is_immaterial :
  forall (rt : Runtime) (host token : string) (insecure : bool) (op : Operation)
         (log : list Invocation),
    host <> "" ->
    Js.endsWith host "/" = false ->
    perform rt
      {| ProxmoxClient.host := host; ProxmoxClient.apiToken := token;
         ProxmoxClient.allowInsecure := insecure |} op log
    = perform rt
        {| ProxmoxClient.host := host ++ "/"; ProxmoxClient.apiToken := token;
           ProxmoxClient.allowInsecure := insecure |} op log.
Proof.
  intros rt host token insecure op log Hhost Hends.
  assert (Js.truthy (host ++ "/") = Js.truthy host) as Htruthy.
  { unfold Js.truthy. destruct host; [contradiction|reflexivity]. }
  pose proof (endsWith_append host "/") as Hends'.
  destruct op; cbn [perform];
    unfold ProxmoxClient.listNodes, ProxmoxClient.listVirtualMachines,
      ProxmoxClient.getVirtualMachineDetails, ProxmoxClient.startVirtualMachine,
      ProxmoxClient.stopVirtualMachine, ProxmoxClient.restartVirtualMachine,
      ProxmoxClient.listSnapshots, ProxmoxClient.createSnapshot,
      ProxmoxClient.deleteSnapshot, ProxmoxClient.restoreSnapshot,
      ProxmoxClient.vmUrl, ProxmoxClient.normalizedBaseUrl,
      ProxmoxClient.notConfigured;
    cbn [ProxmoxClient.host ProxmoxClient.apiToken];
    rewrite ?Htruthy, Hends, Hends'; reflexivity.
Qed.

Lemma X6_witness :
  perform Double.platform Double.pve (listGuests "pve1") []
  = perform Double.platform
      {| ProxmoxClient.host := "https://h:8006/";
         ProxmoxClient.apiToken := "u@pve!t=secret";
         ProxmoxClient.allowInsecure := false |} (listGuests "pve1") [].
Proof.
  apply (X6_trailing_slash_of_host_is_immaterial Double.platform "https://h:8006"
           "u@pve!t=secret" false (listGuests "pve1") []).
  - discriminate.
  - reflexivity.
Defined.

(** ** What caller-supplied names become on the wire *)

Lemma list_ascii_append (s1 s2 : string) :
  list_ascii_of_string (s1 ++ s2)
  = (list_ascii_of_string s1 ++ list_ascii_of_string s2)%list.
Proof. induction s1 as [|c s1 IH]; simpl; congruence. Qed.

Lemma allChars_append (ok : ascii -> bool) (s1 s2 : string) :
  allChars ok (s1 ++ s2) = allChars ok s1 && allChars ok s2.
Proof. unfold allChars. rewrite list_ascii_append. apply forallb_app. Qed.



Lemma allChars_weaken (ok ok' : ascii -> bool) (s : string) :
  (forall c, ok c = true -> ok' c = true) ->
  allChars ok s = true -> allChars ok' s = true.
Proof.
  unfold allChars. intros Himp Hall.
  rewrite forallb_forall in *. auto.
Qed.





Lemma string_of_uint_chars (d : Decimal.uint) :
  allChars numberChar (NilEmpty.string_of_uint d) = true.
Proof. induction d; cbn; try reflexivity; exact IHd. Qed.

Lemma NilZero_string_of_uint_chars (d : Decimal.uint) :
  allChars numberChar (NilZero.string_of_uint d) = true.
Proof.
  unfold NilZero.string_of_uint.
  destruct d; [reflexivity|..]; apply string_of_uint_chars.
Qed.

Lemma Number_toString_chars (n : Z) : allChars numberChar (Js.Number_toString n) = true.
Proof.
  unfold Js.Number_toString, NilZero.string_of_int.
  destruct (Z.to_int n) as [d|d]; [apply NilZero_string_of_uint_chars|].
  change (numberChar "-" && allChars numberChar (NilZero.string_of_uint d) = true).
  rewrite NilZero_string_of_uint_chars. reflexivity.
Qed.























(** X9.  Once the status of a guest is fetched, [getVirtualMachineDetails] is
    fulfilled whatever fields the response has: the id, node and type are the
    ones asked for; the status is the remote text as it is, also a text that
    [listVirtualMachines] would turn into [unknown], and [unknown] when
    absent; every absent number is 0; and a response with no [data] gives all
    of these defaults at once, with the name [VM] and the id. *)
Theorem X9_details_default_every_missing_field :
  forall (rt : Runtime) (self : ProxmoxClient.t) (node : string) (type : VmType.t)
         (vmId : Z) (log log' : list Invocation) (response : Wire.Envelope Wire.Current),
    ProxmoxClient.notConfigured self = false ->
    fetches rt self (as_current rt)
      (ProxmoxClient.vmPath node type vmId ++ "/status/current") log response log' ->
    exists details,
      ProxmoxClient.getVirtualMachineDetails rt self node type vmId log
      = (inr details, log') /\
      ProxmoxVmDetails.id details = vmId /\
      ProxmoxVmDetails.node details = node /\
      ProxmoxVmDetails.type details = type /\
      (forall data, Wire.data response = Some data ->
         (forall status, Wire.cur_status data = Some status ->
            ProxmoxVmDetails.status details = status) /\
         (Wire.cur_status data = None -> ProxmoxVmDetails.status details = "unknown") /\
         ProxmoxVmDetails.uptime details = Wire.uptime data ?? 0 /\
         ProxmoxVmDetails.mem details = Wire.mem data ?? 0 /\
         ProxmoxVmDetails.maxMem details = Wire.maxmem data ?? 0 /\
         ProxmoxVmDetails.cpu details = Wire.cpu data ?? 0%Q) /\
      (Wire.data response = None ->
         details
         = {| ProxmoxVmDetails.id := vmId;
              ProxmoxVmDetails.name := "VM " ++ Js.Number_toString vmId;
              ProxmoxVmDetails.status := "unknown";
              ProxmoxVmDetails.uptime := 0;
              ProxmoxVmDetails.cpu := 0%Q;
              ProxmoxVmDetails.mem := 0;
              ProxmoxVmDetails.maxMem := 0;
              ProxmoxVmDetails.node := node;
              ProxmoxVmDetails.type := type |}).
Proof.
  intros rt self node type vmId log log' response Hc (url & Hurl & Hreq).
  unfold ProxmoxClient.getVirtualMachineDetails. rewrite Hc.
  unfold await. rewrite (vmUrl_endpoint _ _ _ _ _ Hurl), Hreq.
  eexists. split; [reflexivity|]. cbn.
  split; [reflexivity|]. split; [reflexivity|]. split; [reflexivity|]. split.
  - intros data ->. cbn.
    split; [intros status ->; reflexivity|].
    split; [intros ->; reflexivity|]. repeat split; reflexivity.
  - intros ->. reflexivity.
Qed.

(** On the double, the status of guest 100 has a name of one space, the
    status [running], an uptime and nothing else. *)
Lemma X9_witness :
  exists details,
    fst (ProxmoxClient.getVirtualMachineDetails Double.platform Double.pve "pve1"
           VmType.qemu 100 []) = inr details /\
    ProxmoxVmDetails.status details = "running" /\
    ProxmoxVmDetails.uptime details = 12 /\
    ProxmoxVmDetails.maxMem details = 0.
Proof.
  destruct (X9_details_default_every_missing_field Double.platform Double.pve "pve1"
              VmType.qemu 100 [] _ _ eq_refl (ex_intro _ _ (conj eq_refl eq_refl)))
    as (details & Hrun & _ & _ & _ & Hdata & _).
  destruct (Hdata _ eq_refl) as (Hstatus & _ & Huptime & _ & HmaxMem & _).
  exists details. rewrite Hrun. split; [reflexivity|].
  split; [apply Hstatus; reflexivity|]. split; [exact Huptime|exact HmaxMem].
Defined.

(** * Properties of the command helpers *)

Example formatUptime_ex :
  map Extension.formatUptime [0; 59; 3661; 86399; 86400; 200000]
  = ["0h 0m"; "0h 0m"; "1h 1m"; "23h 59m"; "1d 0h"; "2d 7h"].
Proof. vm_compute. reflexivity. Qed.

Example formatBytes_ex :
  map Extension.formatBytes [0; 1023; 1024; 1536; 1048575; 1048576; 1099511627776;
                             1125899906842624]
  = ["0.0 B"; "1023.0 B"; "1.0 KB"; "1.5 KB"; "1024.0 KB"; "1.0 MB"; "1.0 TB";
     "1024.0 TB"].
Proof. vm_compute. reflexivity. Qed.

Example generateSnapshotName_ex :
  let t := {| Extension.getFullYear := 2024; Extension.getMonth := 0;
              Extension.getDate := 5; Extension.getHours := 9;
              Extension.getMinutes := 7 |} in
  map (fun template => Extension.generateSnapshotName template t)
      ["snapshot-YYYYMMDD-HHMM"; "HH:MM"; "HH:mm"; "pre-upgrade"; "YYYYY"]
  = ["snapshot-20240105-0907"; "09:01"; "09:07"; "pre-upgrade"; "2024Y"].
Proof. vm_compute. reflexivity. Qed.

(** ** The guest filters *)

Lemma filterVms_everything (vms : list ProxmoxVm.t) (filters : Extension.VmFilters) :
  Extension.includeQemu filters = true ->
  Extension.includeLxc filters = true ->
  Extension.runningOnly filters = false ->
  Extension.filterVms vms filters = vms.
Proof.
  intros Hq Hl Hr. unfold Extension.filterVms. rewrite Hq, Hl, Hr.
  induction vms as [|vm vms IH]; [reflexivity|].
  cbn [filter]. rewrite IH. unfold Extension.isType.
  destruct (ProxmoxVm.type vm); reflexivity.
Qed.

(** X10.  Whatever is picked, the filters keep at least one type of guest: a
    type is left out only when the other type alone is picked; picking
    neither type is picking both; and with neither or both types picked and
    [Running only] not picked, filtering changes nothing. *)
Theorem X10_picking_no_type_is_picking_both :
  forall picked : list Extension.FilterKey,
    exists filters,
      Extension.selectVmFilters (Some picked) = Some filters /\
      (Extension.includeQemu filters = true \/ Extension.includeLxc filters = true) /\
      (Extension.includeQemu filters = false ->
       Extension.has picked Extension.lxcKey = true /\
       Extension.has picked Extension.qemuKey = false) /\
      (Extension.includeLxc filters = false ->
       Extension.has picked Extension.qemuKey = true /\
       Extension.has picked Extension.lxcKey = false) /\
      (Extension.has picked Extension.qemuKey = Extension.has picked Extension.lxcKey ->
       Extension.has picked Extension.runningKey = false ->
       forall vms, Extension.filterVms vms filters = vms).
Proof.
  intros picked. eexists. split; [reflexivity|].
  destruct (Extension.has picked Extension.qemuKey) eqn:Hq,
    (Extension.has picked Extension.lxcKey) eqn:Hl; cbn;
    (split; [auto|]); (split; [intros H; try discriminate H; auto|]);
    (split; [intros H; try discriminate H; auto|]);
    intros Hsame Hrun vms; try discriminate Hsame;
    apply filterVms_everything; cbn; rewrite ?Hq, ?Hl; auto.
Qed.

Lemma filter_StronglySorted {A} (R : A -> A -> Prop) (p : A -> bool) (l : list A) :
  StronglySorted R l -> StronglySorted R (filter p l).
Proof.
  induction 1 as [|a l Hl IH Ha]; cbn; [constructor|].
  destruct (p a); [|exact IH].
  constructor; [exact IH|].
  rewrite Forall_forall in *. intros x Hx. apply filter_In in Hx as [Hx _]. auto.
Qed.

(** X11.  The filtered listing of a node is still in the order of the ids:
    when both collections are fetched, [filterVms] on the result of
    [listVirtualMachines] gives, in non-decreasing order of id, exactly the
    listed guests whose type is included and, under [Running only], whose
    status is [running]; a guest whose remote status was not recognised is
    then left out. *)
Theorem X11_filtered_listing_keeps_order :
  forall (rt : Runtime) (self : ProxmoxClient.t) (node : string)
         (log log1 log2 : list Invocation)
         (qemuResponse lxcResponse : Wire.Envelope (list Wire.VmEntry))
         (filters : Extension.VmFilters),
    ProxmoxClient.notConfigured self = false ->
    fetches rt self (as_vms rt) (guestsPath node VmType.qemu) log qemuResponse log1 ->
    fetches rt self (as_vms rt) (guestsPath node VmType.lxc) log1 lxcResponse log2 ->
    exists vms,
      ProxmoxClient.listVirtualMachines rt self node log = (inr vms, log2) /\
      StronglySorted (fun a b => ProxmoxVm.id a <= ProxmoxVm.id b)
        (Extension.filterVms vms filters) /\
      (forall vm,
         In vm (Extension.filterVms vms filters)
         <-> In vm vms /\
             match ProxmoxVm.type vm with
             | VmType.qemu => Extension.includeQemu filters = true
             | VmType.lxc => Extension.includeLxc filters = true
             end /\
             (Extension.runningOnly filters = true ->
              ProxmoxVm.status vm = VmStatus.running)) /\
      (Extension.runningOnly filters = true ->
       forall entry type,
         entryOf qemuResponse lxcResponse entry type ->
         Wire.status entry <> Some "running" ->
         ~ In (ProxmoxClient.mapVm entry type node) (Extension.filterVms vms filters)).
Proof.
  intros rt self node log log1 log2 q lx filters Hc Hq Hl.
  eexists. split; [eapply listVirtualMachines_returns; eassumption|].
  assert (forall vm vms,
            In vm (Extension.filterVms vms filters)
            <-> In vm vms /\
                match ProxmoxVm.type vm with
                | VmType.qemu => Extension.includeQemu filters = true
                | VmType.lxc => Extension.includeLxc filters = true
                end /\
                (Extension.runningOnly filters = true ->
                 ProxmoxVm.status vm = VmStatus.running)) as Hfilter.
  { intros vm vms. unfold Extension.filterVms. rewrite filter_In.
    unfold Extension.isType, Extension.isRunning.
    destruct (ProxmoxVm.type vm), (ProxmoxVm.status vm),
      (Extension.includeQemu filters), (Extension.includeLxc filters),
      (Extension.runningOnly filters); cbn;
      intuition (try discriminate; auto). }
  split; [|split].
  - apply filter_StronglySorted. unfold ProxmoxClient.mergeVms.
    apply (Array_sort_sorted ProxmoxVm.id).
  - intros vm. apply Hfilter.
  - intros Hrun entry type Hentry Hstatus Hin.
    apply Hfilter in Hin as (_ & _ & Hrunning).
    specialize (Hrunning Hrun). cbn in Hrunning.
    unfold ProxmoxClient.normalizeVmStatus in Hrunning.
    destruct (Wire.status entry) as [s|]; [|discriminate Hrunning].
    destruct (String.eqb_spec s "running") as [->|_]; [congruence|].
    destruct (String.eqb s "stopped"); discriminate Hrunning.
Qed.

(** On the double, [pve4] has two qemu guests with no id, one of them
    [paused], and a stopped lxc guest: with [Running only] nothing is left,
    with LXC picked the one container. *)
Lemma X11_witness :
  exists vms,
    fst (ProxmoxClient.listVirtualMachines Double.platform Double.pve "pve4" []) = inr vms /\
    map ProxmoxVm.name
      (Extension.filterVms vms
         {| Extension.includeQemu := false; Extension.includeLxc := true;
            Extension.runningOnly := false |}) = ["VM 50"] /\
    Extension.filterVms vms
      {| Extension.includeQemu := true; Extension.includeLxc := true;
         Extension.runningOnly := true |} = [].
Proof.
  destruct (X11_filtered_listing_keeps_order Double.platform Double.pve "pve4"
              [] _ _ _ _
              {| Extension.includeQemu := true; Extension.includeLxc := true;
                 Extension.runningOnly := true |}
              eq_refl
              (ex_intro _ _ (conj eq_refl eq_refl))
              (ex_intro _ _ (conj eq_refl eq_refl)))
    as (vms & Hrun & _).
  exists vms. rewrite Hrun. split; [reflexivity|].
  vm_compute in Hrun. injection Hrun as <-. split; reflexivity.
Defined.

(** ** Uptime *)



(** ** Sizes *)

(** The powers of 1024 in a goal whose exponents are known. *)
Ltac known_powers :=
  repeat match goal with
         | |- context [1024 ^ ?e] =>
             let p := eval vm_compute in (1024 ^ e) in
             change (1024 ^ e) with p
         end.

(** One exit of the loop of [formatBytes]: the size is [value] over the
    power [P] of 1024, and the tenths are rounded from it. *)
Ltac formatBytes_exit value P :=
  match goal with
  | |- context [Extension.toFixed1 ?size] =>
      let Hsign := fresh "Hsign" in
      let Htenths := fresh "Htenths" in
      let tenths := fresh "tenths" in
      let Etenths := fresh "Etenths" in
      assert (Qle_bool 0 size = true) as Hsign
        by (apply Qle_bool_iff; unfold Qle; cbn; lia);
      assert (Qfloor (Qabs size * 10 + (1 # 2))%Q = (20 * value + P) / (2 * P))
        as Htenths
        by (remember ((20 * value + P) / (2 * P)) as tenths eqn:Etenths;
            unfold Qfloor, Qabs, Qplus, Qmult, Qdiv, Qinv, inject_Z; cbn;
            rewrite Etenths, Z.abs_eq by lia; f_equal; lia);
      unfold Extension.toFixed1; rewrite Hsign, Htenths;
      exists ((20 * value + P) / (2 * P));
      pose proof (Z.div_mod (20 * value + P) (2 * P) ltac:(lia));
      pose proof (Z.mod_pos_bound (20 * value + P) (2 * P) ltac:(lia));
      (split; [lia|]);
      (split; [cbn [append]; rewrite ?append_assoc; cbn [append]; reflexivity|]);
      known_powers;
      repeat split; lia
  end.

(** X13.  For a size in bytes that is a whole number from 0 up to 2^53,
    [formatBytes] prints a number with one decimal and the unit number [k] of
    B, KB, MB, GB, TB: the unit is the largest whose size, the power [k] of
    1024, does not exceed the value, TB at most; the printed tenths [n] are
    the value over that power rounded to the nearest tenth, upwards from the
    middle; so below TB the number printed is at most 1024.0, which it
    reaches just below the next unit. *)
Theorem X13_formatBytes_unit_and_rounding :
  forall value : Z,
    0 <= value < 2 ^ 53 ->
    exists (k : nat) (n : Z),
      (k <= 4)%nat /\
      Extension.formatBytes value
      = Js.Number_toString (n / 10) ++ "." ++ Js.Number_toString (n mod 10)
        ++ " " ++ nth k Extension.units "" /\
      (k = 0%nat \/ 1024 ^ Z.of_nat k <= value) /\
      ((k < 4)%nat -> value < 1024 ^ (Z.of_nat k + 1)) /\
      2 * 1024 ^ Z.of_nat k * n <= 20 * value + 1024 ^ Z.of_nat k
        < 2 * 1024 ^ Z.of_nat k * (n + 1) /\
      ((k < 4)%nat -> 0 <= n <= 10240).
Proof.
  intros value Hvalue.
  assert (2 ^ 53 = 9007199254740992) as Hpow by reflexivity. rewrite Hpow in Hvalue.
  unfold Extension.formatBytes.
  cbn [List.length Extension.units Nat.sub Extension.scaleDown].
  destruct (Qle_bool 1024 (inject_Z value)) eqn:H0;
    [destruct (Qle_bool 1024 (inject_Z value / 1024)) eqn:H1;
     [destruct (Qle_bool 1024 (inject_Z value / 1024 / 1024)) eqn:H2;
      [destruct (Qle_bool 1024 (inject_Z value / 1024 / 1024 / 1024)) eqn:H3|]|]|];
    repeat match goal with
           | H : Qle_bool _ _ = true |- _ =>
               apply Qle_bool_iff in H; unfold Qle in H; cbn in H
           | H : Qle_bool _ _ = false |- _ =>
               apply Bool.not_true_iff_false in H; rewrite Qle_bool_iff in H;
               unfold Qle in H; cbn in H
           end.
  - exists 4%nat. formatBytes_exit value 1099511627776.
  - exists 3%nat. formatBytes_exit value 1073741824.
  - exists 2%nat. formatBytes_exit value 1048576.
  - exists 1%nat. formatBytes_exit value 1024.
  - exists 0%nat. formatBytes_exit value 1.
Qed.

(** One byte less than a MB is shown as 1024.0 KB. *)
Lemma X13_witness : Extension.formatBytes 1048575 = "1024.0 KB".
Proof.
  destruct (X13_formatBytes_unit_and_rounding 1048575) as (k & n & _); [lia|].
  reflexivity.
Defined.

(** ** Snapshot names *)

Section ReplaceAll.
Variables (p : ascii) (pattern' replacement : string).

#[local] Abbreviation pattern := (String p pattern').

Lemma replaceFrom_without (d s : string) :
  without p d = true ->
  Extension.replaceFrom pattern replacement 0 (d ++ s)
  = d ++ Extension.replaceFrom pattern replacement 0 s.
Proof.
  unfold without, allChars.
  induction d as [|c d IH]; [reflexivity|].
  cbn [list_ascii_of_string forallb]. intros H.
  apply andb_true_iff in H as [Hc Hd].
  apply negb_true_iff in Hc.
  cbn [append Extension.replaceFrom Extension.startsWith].
  rewrite Hc. cbn [andb]. rewrite (IH Hd). reflexivity.
Qed.

Lemma replaceFrom_skip (d s : string) :
  Extension.replaceFrom pattern replacement (String.length d) (d ++ s)
  = Extension.replaceFrom pattern replacement 0 s.
Proof.
  induction d as [|c d IH]; [destruct s; reflexivity|].
  cbn [append String.length Extension.replaceFrom]. exact IH.
Qed.

Lemma startsWith_append (s t : string) : Extension.startsWith (s ++ t) s = true.
Proof.
  induction s as [|c s IH]; [destruct t; reflexivity|].
  cbn [append Extension.startsWith]. rewrite Ascii.eqb_refl. exact IH.
Qed.

Lemma replaceAll_without (d s : string) :
  without p d = true ->
  Extension.replaceAll pattern replacement (d ++ s)
  = d ++ Extension.replaceAll pattern replacement s.
Proof. apply replaceFrom_without. Qed.

Lemma replaceAll_match (s : string) :
  Extension.replaceAll pattern replacement (pattern ++ s)
  = replacement ++ Extension.replaceAll pattern replacement s.
Proof.
  unfold Extension.replaceAll.
  change (String p pattern' ++ s) with (String p (pattern' ++ s)).
  cbn [Extension.replaceFrom].
  change (String p (pattern' ++ s)) with (String p pattern' ++ s).
  rewrite startsWith_append.
  cbn [String.length Nat.sub]. rewrite Nat.sub_0_r, replaceFrom_skip. reflexivity.
Qed.

Lemma replaceAll_unchanged (s : string) :
  without p s = true -> Extension.replaceAll pattern replacement s = s.
Proof.
  intros H. rewrite <- (append_nil_r s) at 1.
  rewrite (replaceAll_without s "" H). apply append_nil_r.
Qed.
End ReplaceAll.

Lemma without_append (c : ascii) (s t : string) :
  without c (s ++ t) = without c s && without c t.
Proof. apply allChars_append. Qed.

Lemma without_number (c : ascii) (s : string) :
  numberChar c = false -> allChars numberChar s = true -> without c s = true.
Proof.
  intros Hc. apply allChars_weaken. intros x Hx.
  apply negb_true_iff. destruct (Ascii.eqb_spec x c) as [->|_]; [congruence|reflexivity].
Qed.

Lemma repeatChar_chars (ok : ascii -> bool) (c : ascii) (n : nat) :
  ok c = true -> allChars ok (Extension.repeatChar c n) = true.
Proof.
  intros Hc. induction n as [|n IH]; [reflexivity|].
  unfold allChars in *. cbn. rewrite Hc. exact IH.
Qed.

Lemma pad2_chars (value : Z) : allChars numberChar (Extension.pad2 value) = true.
Proof.
  unfold Extension.pad2, Extension.padStart.
  rewrite allChars_append, repeatChar_chars, Number_toString_chars; reflexivity.
Qed.

Lemma without_pad2 (c : ascii) (value : Z) :
  numberChar c = false -> without c (Extension.pad2 value) = true.
Proof. intros Hc. apply without_number; [exact Hc|apply pad2_chars]. Qed.

Lemma without_year (c : ascii) (value : Z) :
  numberChar c = false -> without c (Js.Number_toString value) = true.
Proof. intros Hc. apply without_number; [exact Hc|apply Number_toString_chars]. Qed.

Lemma formEncode_kept (s : string) :
  allChars formKept s = true -> Js.formEncode s = s.
Proof.
  unfold allChars, formKept.
  induction s as [|c s IH]; [reflexivity|].
  cbn [list_ascii_of_string forallb Js.formEncode]. intros H.
  apply andb_true_iff in H as [Hc Hs]. rewrite Hc, (IH Hs). reflexivity.
Qed.

(** X14.  With the template the commands fall back on,
    [snapshot-YYYYMMDD-HHMM], the name generated at any time is [snapshot-],
    the year, the month and the day on two digits at least, a dash, and the
    hour and the minute on two digits at least; the form encoding leaves
    this name as it is, so [createSnapshot] sends it after [snapname=]
    character for character. *)
Theorem X14_default_snapshot_name :
  forall timestamp : Extension.LocalTime,
    let name :=
      Extension.generateSnapshotName Extension.defaultSnapshotTemplate timestamp in
    name
    = "snapshot-" ++ Js.Number_toString (Extension.getFullYear timestamp)
      ++ Extension.pad2 (Extension.getMonth timestamp + 1)
      ++ Extension.pad2 (Extension.getDate timestamp)
      ++ "-" ++ Extension.pad2 (Extension.getHours timestamp)
      ++ Extension.pad2 (Extension.getMinutes timestamp) /\
    ProxmoxClient.payloadOf (Some [("snapname", BString name)])
    = Some ("snapname=" ++ name).
Proof.
  intros timestamp name.
  assert (name
          = "snapshot-" ++ Js.Number_toString (Extension.getFullYear timestamp)
            ++ Extension.pad2 (Extension.getMonth timestamp + 1)
            ++ Extension.pad2 (Extension.getDate timestamp)
            ++ "-" ++ Extension.pad2 (Extension.getHours timestamp)
            ++ Extension.pad2 (Extension.getMinutes timestamp)) as Hname.
  { subst name. unfold Extension.generateSnapshotName, Extension.defaultSnapshotTemplate.
    change "snapshot-YYYYMMDD-HHMM"
      with ("snapshot-" ++ "YYYY" ++ "MM" ++ "DD" ++ "-" ++ "HHMM" ++ "").
    set (year := Js.Number_toString (Extension.getFullYear timestamp)).
    set (month := Extension.pad2 (Extension.getMonth timestamp + 1)).
    set (day := Extension.pad2 (Extension.getDate timestamp)).
    set (hour := Extension.pad2 (Extension.getHours timestamp)).
    set (minute := Extension.pad2 (Extension.getMinutes timestamp)).
    assert (forall c, numberChar c = false -> without c year = true) as Hyear
      by (intros; apply without_year; assumption).
    assert (forall c, numberChar c = false -> without c month = true) as Hmonth
      by (intros; apply without_pad2; assumption).
    assert (forall c, numberChar c = false -> without c day = true) as Hday
      by (intros; apply without_pad2; assumption).
    assert (forall c, numberChar c = false -> without c hour = true) as Hhour
      by (intros; apply without_pad2; assumption).
    assert (forall c, numberChar c = false -> without c minute = true) as Hminute
      by (intros; apply without_pad2; assumption).
    clearbody year month day hour minute.
    rewrite (replaceAll_without "H"%char "HMM" (hour ++ minute) "snapshot-") by reflexivity.
    rewrite (replaceAll_without "H"%char "HMM" (hour ++ minute) "YYYY") by reflexivity.
    rewrite (replaceAll_without "H"%char "HMM" (hour ++ minute) "MM") by reflexivity.
    rewrite (replaceAll_without "H"%char "HMM" (hour ++ minute) "DD") by reflexivity.
    rewrite (replaceAll_without "H"%char "HMM" (hour ++ minute) "-") by reflexivity.
    rewrite (replaceAll_match "H"%char "HMM" (hour ++ minute) "").
    change (Extension.replaceAll "HHMM" (hour ++ minute) "") with "".
    rewrite (replaceAll_without "Y"%char "YYY" year "snapshot-") by reflexivity.
    rewrite (replaceAll_match "Y"%char "YYY" year).
    rewrite (replaceAll_unchanged "Y"%char "YYY" year)
      by (rewrite !without_append, Hhour, Hminute; reflexivity).
    rewrite (replaceAll_without "M"%char "M" month "snapshot-") by reflexivity.
    rewrite (replaceAll_without "M"%char "M" month year) by (apply Hyear; reflexivity).
    rewrite (replaceAll_match "M"%char "M" month).
    rewrite (replaceAll_unchanged "M"%char "M" month)
      by (rewrite !without_append, Hhour, Hminute; reflexivity).
    rewrite (replaceAll_without "D"%char "D" day "snapshot-") by reflexivity.
    rewrite (replaceAll_without "D"%char "D" day year) by (apply Hyear; reflexivity).
    rewrite (replaceAll_without "D"%char "D" day month) by (apply Hmonth; reflexivity).
    rewrite (replaceAll_match "D"%char "D" day).
    rewrite (replaceAll_unchanged "D"%char "D" day)
      by (rewrite !without_append, Hhour, Hminute; reflexivity).
    rewrite (replaceAll_unchanged "H"%char "H" hour)
      by (rewrite !without_append, Hyear, Hmonth, Hday, Hhour, Hminute; reflexivity).
    rewrite (replaceAll_unchanged "m"%char "m" minute)
      by (rewrite !without_append, Hyear, Hmonth, Hday, Hhour, Hminute; reflexivity).
    rewrite ?append_nil_r, ?append_assoc. reflexivity. }
  split; [exact Hname|].
  cbn [ProxmoxClient.payloadOf option_map map String_of Js.URLSearchParams_toString].
  rewrite (formEncode_kept name); [reflexivity|].
  rewrite Hname, !allChars_append.
  repeat (apply andb_true_iff; split); try reflexivity;
    (eapply allChars_weaken; [|first [apply Number_toString_chars|apply pad2_chars]]);
    intros c; destruct c as [[] [] [] [] [] [] [] []]; try discriminate; reflexivity.
Qed.

Lemma X14_witness :
  Extension.generateSnapshotName Extension.defaultSnapshotTemplate
    {| Extension.getFullYear := 2024; Extension.getMonth := 0; Extension.getDate := 5;
       Extension.getHours := 9; Extension.getMinutes := 7 |}
  = "snapshot-20240105-0907".
Proof.
  destruct (X14_default_snapshot_name
              {| Extension.getFullYear := 2024; Extension.getMonth := 0;
                 Extension.getDate := 5; Extension.getHours := 9;
                 Extension.getMinutes := 7 |}) as [Hname _].
  rewrite Hname. reflexivity.
Defined.

Lemma without_token (token : ascii) (s : string) :
  Js.oneOf "HYMDm" token = true ->
  allChars (fun c => negb (Js.oneOf "HYMDm" c)) s = true ->
  without token s = true.
Proof.
  intros Htoken. apply allChars_weaken. intros c Hc.
  apply negb_true_iff. destruct (Ascii.eqb_spec c token) as [->|_]; [|reflexivity].
  rewrite Htoken in Hc. discriminate Hc.
Qed.

(** X15.  A template in which none of the letters H, Y, M, D and m occurs is
    the snapshot name, whatever the time. *)
Theorem X15_template_without_tokens_is_the_name :
  forall (template : string) (timestamp : Extension.LocalTime),
    allChars (fun c => negb (Js.oneOf "HYMDm" c)) template = true ->
    Extension.generateSnapshotName template timestamp = template.
Proof.
  intros template timestamp Hplain. unfold Extension.generateSnapshotName.
  rewrite (replaceAll_unchanged "H"%char "HMM") by (apply without_token; auto).
  rewrite (replaceAll_unchanged "Y"%char "YYY") by (apply without_token; auto).
  rewrite (replaceAll_unchanged "M"%char "M") by (apply without_token; auto).
  rewrite (replaceAll_unchanged "D"%char "D") by (apply without_token; auto).
  rewrite (replaceAll_unchanged "H"%char "H") by (apply without_token; auto).
  apply (replaceAll_unchanged "m"%char "m"). apply without_token; auto.
Qed.

Lemma X15_witness :
  Extension.generateSnapshotName "pre-upgrade"
    {| Extension.getFullYear := 2024; Extension.getMonth := 0; Extension.getDate := 5;
       Extension.getHours := 9; Extension.getMinutes := 7 |}
  = "pre-upgrade".
Proof. apply X15_template_without_tokens_is_the_name. reflexivity. Defined.

(** A character that starts the pattern but no match is passed over. *)
Lemma replaceAll_no_match (p : ascii) (pattern' replacement s : string) :
  Extension.startsWith s pattern' = false ->
  Extension.replaceAll (String p pattern') replacement (String p s)
  = String p (Extension.replaceAll (String p pattern') replacement s).
Proof.
  intros H. unfold Extension.replaceAll.
  cbn [Extension.replaceFrom Extension.startsWith].
  rewrite Ascii.eqb_refl, H. reflexivity.
Qed.

(** X16.  The minutes are written for [mm], and for [MM] only where it
    follows [HH] at once: with a separator in between, one or more characters
    other than H, Y, M, D and m, the template HH, separator, MM gives the hour,
    the separator and the month, and HH, separator, mm gives the hour, the
    separator and the minute. *)
Theorem X16_MM_after_a_separator_is_the_month :
  forall (separator : string) (timestamp : Extension.LocalTime),
    separator <> "" ->
    allChars (fun c => negb (Js.oneOf "HYMDm" c)) separator = true ->
    Extension.generateSnapshotName ("HH" ++ separator ++ "MM") timestamp
    = Extension.pad2 (Extension.getHours timestamp) ++ separator
      ++ Extension.pad2 (Extension.getMonth timestamp + 1) /\
    Extension.generateSnapshotName ("HH" ++ separator ++ "mm") timestamp
    = Extension.pad2 (Extension.getHours timestamp) ++ separator
      ++ Extension.pad2 (Extension.getMinutes timestamp) /\
    Extension.generateSnapshotName "HHMM" timestamp
    = Extension.pad2 (Extension.getHours timestamp)
      ++ Extension.pad2 (Extension.getMinutes timestamp).
Proof.
  intros separator timestamp Hne Hplain.
  unfold Extension.generateSnapshotName.
  set (year := Js.Number_toString (Extension.getFullYear timestamp)).
  set (month := Extension.pad2 (Extension.getMonth timestamp + 1)).
  set (day := Extension.pad2 (Extension.getDate timestamp)).
  set (hour := Extension.pad2 (Extension.getHours timestamp)).
  set (minute := Extension.pad2 (Extension.getMinutes timestamp)).
  assert (forall c, numberChar c = false -> without c month = true) as Hmonth
    by (intros; apply without_pad2; assumption).
  assert (forall c, numberChar c = false -> without c hour = true) as Hhour
    by (intros; apply without_pad2; assumption).
  assert (forall c, numberChar c = false -> without c minute = true) as Hminute
    by (intros; apply without_pad2; assumption).
  assert (forall c, Js.oneOf "HYMDm" c = true -> without c separator = true) as Hsep
    by (intros; apply without_token; assumption).
  assert (forall rest, Extension.startsWith (String "H" (separator ++ rest)) "HMM" = false)
    as Hfirst.
  { intros rest. destruct separator as [|c separator]; [contradiction|].
    specialize (Hsep "M"%char eq_refl). unfold without, allChars in Hsep.
    cbn [list_ascii_of_string forallb] in Hsep.
    apply andb_true_iff in Hsep as [Hc _]. apply negb_true_iff in Hc.
    cbn [append Extension.startsWith]. rewrite Hc. reflexivity. }
  assert (forall rest, Extension.startsWith (separator ++ rest) "HMM" = false) as Hsecond.
  { intros rest. destruct separator as [|c separator]; [contradiction|].
    specialize (Hsep "H"%char eq_refl). unfold without, allChars in Hsep.
    cbn [list_ascii_of_string forallb] in Hsep.
    apply andb_true_iff in Hsep as [Hc _]. apply negb_true_iff in Hc.
    cbn [append Extension.startsWith]. rewrite Hc. reflexivity. }
  clearbody year month day hour minute.
  split; [|split].
  - change ("HH" ++ separator ++ "MM")
      with (String "H" (String "H" (separator ++ "MM" ++ ""))).
    rewrite (replaceAll_no_match "H"%char "HMM") by apply Hfirst.
    rewrite (replaceAll_no_match "H"%char "HMM") by apply Hsecond.
    rewrite (replaceAll_without "H"%char "HMM") by (apply Hsep; reflexivity).
    rewrite (replaceAll_unchanged "H"%char "HMM" (hour ++ minute) ("MM" ++ "")) by reflexivity.
    change (String "H" (String "H" (separator ++ "MM" ++ "")))
      with ("HH" ++ separator ++ "MM" ++ "").
    rewrite (replaceAll_unchanged "Y"%char "YYY")
      by (rewrite !without_append, Hsep; reflexivity).
    rewrite (replaceAll_without "M"%char "M" month "HH") by reflexivity.
    rewrite (replaceAll_without "M"%char "M" month separator) by (apply Hsep; reflexivity).
    rewrite (replaceAll_match "M"%char "M" month).
    change (Extension.replaceAll "MM" month "") with "".
    rewrite (replaceAll_unchanged "D"%char "D")
      by (rewrite !without_append, Hsep, Hmonth; reflexivity).
    rewrite (replaceAll_match "H"%char "H" hour).
    rewrite (replaceAll_unchanged "H"%char "H" hour)
      by (rewrite !without_append, Hsep, Hmonth; reflexivity).
    rewrite (replaceAll_unchanged "m"%char "m")
      by (rewrite !without_append, Hhour, Hsep, Hmonth; reflexivity).
    rewrite append_nil_r. reflexivity.
  - change ("HH" ++ separator ++ "mm")
      with (String "H" (String "H" (separator ++ "mm" ++ ""))).
    rewrite (replaceAll_no_match "H"%char "HMM") by apply Hfirst.
    rewrite (replaceAll_no_match "H"%char "HMM") by apply Hsecond.
    rewrite (replaceAll_without "H"%char "HMM") by (apply Hsep; reflexivity).
    rewrite (replaceAll_unchanged "H"%char "HMM" (hour ++ minute) ("mm" ++ "")) by reflexivity.
    change (String "H" (String "H" (separator ++ "mm" ++ "")))
      with ("HH" ++ separator ++ "mm" ++ "").
    rewrite (replaceAll_unchanged "Y"%char "YYY")
      by (rewrite !without_append, Hsep; reflexivity).
    rewrite (replaceAll_unchanged "M"%char "M")
      by (rewrite !without_append, Hsep; reflexivity).
    rewrite (replaceAll_unchanged "D"%char "D")
      by (rewrite !without_append, Hsep; reflexivity).
    rewrite (replaceAll_match "H"%char "H" hour).
    rewrite (replaceAll_unchanged "H"%char "H" hour)
      by (rewrite !without_append, Hsep; reflexivity).
    rewrite (replaceAll_without "m"%char "m" minute hour) by (apply Hhour; reflexivity).
    rewrite (replaceAll_without "m"%char "m" minute separator)
      by (apply Hsep; reflexivity).
    rewrite (replaceAll_match "m"%char "m" minute).
    change (Extension.replaceAll "mm" minute "") with "".
    rewrite append_nil_r. reflexivity.
  - change "HHMM" with ("HHMM" ++ "").
    rewrite (replaceAll_match "H"%char "HMM" (hour ++ minute)).
    change (Extension.replaceAll "HHMM" (hour ++ minute) "") with "".
    rewrite (replaceAll_unchanged "Y"%char "YYY")
      by (rewrite !without_append, Hhour, Hminute; reflexivity).
    rewrite (replaceAll_unchanged "M"%char "M")
      by (rewrite !without_append, Hhour, Hminute; reflexivity).
    rewrite (replaceAll_unchanged "D"%char "D")
      by (rewrite !without_append, Hhour, Hminute; reflexivity).
    rewrite (replaceAll_unchanged "H"%char "H")
      by (rewrite !without_append, Hhour, Hminute; reflexivity).
    rewrite (replaceAll_unchanged "m"%char "m")
      by (rewrite !without_append, Hhour, Hminute; reflexivity).
    rewrite append_nil_r. reflexivity.
Qed.

Lemma X16_witness :
  Extension.generateSnapshotName "HH:MM"
    {| Extension.getFullYear := 2024; Extension.getMonth := 0; Extension.getDate := 5;
       Extension.getHours := 9; Extension.getMinutes := 7 |}
  = "09:01".
Proof.
  destruct (X16_MM_after_a_separator_is_the_month ":"
              {| Extension.getFullYear := 2024; Extension.getMonth := 0;
                 Extension.getDate := 5; Extension.getHours := 9;
                 Extension.getMinutes := 7 |}) as [Hmonth _];
    [discriminate|reflexivity|].
  exact Hmonth.
Defined.

(** * Properties of the session *)

(** ** Trimming *)

Lemma trimStart_clean (s : string) : startsClean (Js.trimStart s).
Proof.
  induction s as [|c s IH]; [exact I|].
  cbn [Js.trimStart]. destruct (Js.isWhiteSpace c) eqn:Hc; [exact IH|exact Hc].
Qed.

Lemma trimStart_of_clean (s : string) : startsClean s -> Js.trimStart s = s.
Proof. destruct s as [|c s]; [reflexivity|]. cbn. intros ->. reflexivity. Qed.

Lemma trimEnd_clean (s : string) : startsClean s -> startsClean (Js.trimEnd s).
Proof.
  destruct s as [|c s]; [exact (fun H => H)|].
  cbn [startsClean Js.trimEnd]. intros Hc. rewrite Hc.
  destruct (Js.trimEnd s); exact Hc.
Qed.

Lemma trimEnd_idempotent (s : string) : Js.trimEnd (Js.trimEnd s) = Js.trimEnd s.
Proof.
  induction s as [|c s IH]; [reflexivity|].
  cbn [Js.trimEnd].
  destruct (Js.trimEnd s) as [|d r] eqn:Hs.
  - destruct (Js.isWhiteSpace c) eqn:Hc; [reflexivity|].
    cbn [Js.trimEnd]. rewrite Hc. reflexivity.
  - cbn [Js.trimEnd] in *. rewrite IH. reflexivity.
Qed.

Lemma trim_idempotent (s : string) : Js.trim (Js.trim s) = Js.trim s.
Proof.
  unfold Js.trim.
  rewrite (trimStart_of_clean (Js.trimEnd (Js.trimStart s)))
    by apply trimEnd_clean, trimStart_clean.
  apply trimEnd_idempotent.
Qed.

Lemma truthy_iff (s : string) : Js.truthy s = true <-> s <> "".
Proof. unfold Js.truthy. rewrite negb_true_iff. apply String.eqb_neq. Qed.

(** ** The stored token *)

Section SessionFacts.
Variable toLocaleString : Z -> string.
Variable settings : Session.Settings.

Lemma getApiToken_secret (interactive : bool) (choice : option string) (s : Session.State) :
  Session.secretAsStored s ->
  Session.secretAsStored (snd (Session.getApiToken settings interactive choice s)).
Proof.
  intros Hs. unfold Session.getApiToken.
  destruct (Session.given (Session.secret s)); [exact Hs|].
  destruct (Js.truthy (Js.trim (Session.apiToken settings ?? ""))) eqn:Hlegacy;
    [destruct interactive;
     [destruct (Session.answered choice "Move");
      [|destruct (Session.answered choice "Use Once")]|]|destruct interactive];
    try exact Hs.
  cbn. split; [apply truthy_iff, Hlegacy|apply trim_idempotent].
Qed.

(** The token [getApiToken] gives is never empty, and the constructor of the
    client leaves it not empty when the secret is as the commands store it. *)
Lemma getApiToken_token (interactive : bool) (choice : option string) (s : Session.State)
    (token : string) :
  Session.secretAsStored s ->
  fst (Session.getApiToken settings interactive choice s) = Some token ->
  Js.trim token = token /\ token <> "".
Proof.
  intros Hs. unfold Session.getApiToken, Session.secretAsStored in *.
  destruct (Session.secret s) as [stored|]; cbn [Session.given].
  - destruct (Js.truthy stored).
    + cbn. intros H. injection H as <-. destruct Hs as [Hne Htrim]. auto.
    + destruct (Js.truthy (Js.trim (Session.apiToken settings ?? ""))) eqn:Hlegacy;
        [destruct interactive;
         [destruct (Session.answered choice "Move");
          [|destruct (Session.answered choice "Use Once")]|]|destruct interactive];
        cbn; intros H; try discriminate H; injection H as <-;
        (split; [apply trim_idempotent|apply truthy_iff, Hlegacy]).
  - destruct (Js.truthy (Js.trim (Session.apiToken settings ?? ""))) eqn:Hlegacy;
      [destruct interactive;
       [destruct (Session.answered choice "Move");
        [|destruct (Session.answered choice "Use Once")]|]|destruct interactive];
      cbn; intros H; try discriminate H; injection H as <-;
      (split; [apply trim_idempotent|apply truthy_iff, Hlegacy]).
Qed.

Lemma createClient_secret (interactive : bool) (tokenChoice insecureChoice : option string)
    (s : Session.State) :
  Session.secretAsStored s ->
  Session.secretAsStored
    (snd (Session.createClient toLocaleString settings interactive tokenChoice
            insecureChoice s)).
Proof.
  intros Hs. unfold Session.createClient.
  pose proof (getApiToken_secret interactive tokenChoice s Hs) as H1.
  destruct (Session.getApiToken settings interactive tokenChoice s) as [token s1].
  cbn [snd] in H1.
  destruct (negb (Js.truthy (Js.trim (Session.host settings ?? ""))));
    [destruct interactive; exact H1|].
  destruct (negb (Session.given token)); [exact H1|].
  destruct (interactive && (Session.allowInsecure settings ?? false))%bool; [|exact H1].
  destruct (negb (Session.suppressInsecureWarning s1 ?? false)); [|exact H1].
  destruct (Session.answered insecureChoice "Don't show again"),
    (negb (Session.answered insecureChoice "Continue")); exact H1.
Qed.
End SessionFacts.

(** X17.  The commands store a token only trimmed and not empty: if the
    secret is absent or such a token, it is so again after [setApiToken],
    [clearApiToken], [resetInsecureWarning], [getApiToken] and [createClient],
    whatever the user enters or answers. *)
Theorem X17_commands_store_only_trimmed_tokens :
  forall (toLocaleString : Z -> string) (settings : Session.Settings) (s : Session.State),
    Session.secretAsStored s ->
    (forall input, Session.secretAsStored (Session.setApiToken input s)) /\
    (forall confirm, Session.secretAsStored (Session.clearApiToken confirm s)) /\
    Session.secretAsStored (Session.resetInsecureWarning s) /\
    (forall interactive choice,
       Session.secretAsStored (snd (Session.getApiToken settings interactive choice s))) /\
    (forall interactive tokenChoice insecureChoice,
       Session.secretAsStored
         (snd (Session.createClient toLocaleString settings interactive tokenChoice
                 insecureChoice s))).
Proof.
  intros toLocaleString settings s Hs.
  split; [|split; [|split; [|split]]].
  - intros [token|]; [|exact Hs]. unfold Session.setApiToken.
    destruct (Js.truthy (Js.trim token)) eqn:Htoken; [|exact Hs].
    cbn. split; [apply truthy_iff, Htoken|apply trim_idempotent].
  - intros confirm. unfold Session.clearApiToken.
    destruct (Session.answered confirm "Clear"); [exact I|exact Hs].
  - exact Hs.
  - intros interactive choice. apply getApiToken_secret, Hs.
  - intros interactive tokenChoice insecureChoice. apply createClient_secret, Hs.
Qed.

Lemma X17_witness :
  Session.secretAsStored (Session.setApiToken (Some "  u@pve!t=secret ") Session.start).
Proof.
  apply (X17_commands_store_only_trimmed_tokens (fun _ => "")
           {| Session.host := None; Session.apiToken := None;
              Session.allowInsecure := None |} Session.start I).
Defined.

(** X18.  A token entered with [setApiToken] is the token every later
    [getApiToken] gives, trimmed, without a prompt or a message and before the
    token of the settings; an input that is blank or dismissed changes
    nothing. *)
Theorem X18_token_set_is_token_got :
  forall (settings : Session.Settings) (input : option string) (s : Session.State),
    (forall token, input = Some token -> Js.trim token <> "" ->
       let s' := Session.setApiToken input s in
       Session.secret s' = Some (Js.trim token) /\
       forall interactive choice,
         Session.getApiToken settings interactive choice s' = (Some (Js.trim token), s')) /\
    ((input = None \/ exists token, input = Some token /\ Js.trim token = "") ->
     Session.setApiToken input s = s).
Proof.
  intros settings input s. split.
  - intros token -> Htoken s'. subst s'. unfold Session.setApiToken.
    apply truthy_iff in Htoken. rewrite Htoken. cbn.
    split; [reflexivity|]. intros interactive choice.
    unfold Session.getApiToken. cbn. rewrite Htoken. reflexivity.
  - intros [->|(token & -> & Hblank)]; [reflexivity|].
    unfold Session.setApiToken. rewrite Hblank. reflexivity.
Qed.

Lemma X18_witness :
  fst (Session.getApiToken
         {| Session.host := None; Session.apiToken := Some "legacy";
            Session.allowInsecure := None |} true (Some "Move")
         (Session.setApiToken (Some " new ") Session.start))
  = Some "new".
Proof.
  destruct (X18_token_set_is_token_got
              {| Session.host := None; Session.apiToken := Some "legacy";
                 Session.allowInsecure := None |} (Some " new ") Session.start)
    as [Hset _].
  destruct (Hset " new " eq_refl) as [_ Hget]; [discriminate|].
  rewrite Hget. reflexivity.
Defined.

(** ** The client of a command *)

(** X19.  A client that [createClient] gives is configured: when the secret
    is absent or a token as the commands store it, the client has a host and a
    token that are not empty, the host being the setting trimmed and the
    insecure flag the setting, so its guarded operations do not stop at the
    configuration error and no request goes out with an empty token. *)
Theorem X19_created_client_is_configured :
  forall (toLocaleString : Z -> string) (settings : Session.Settings)
         (interactive : bool) (tokenChoice insecureChoice : option string)
         (s s' : Session.State) (client : ProxmoxClient.t),
    Session.secretAsStored s ->
    Session.createClient toLocaleString settings interactive tokenChoice insecureChoice s
    = (Some client, s') ->
    ProxmoxClient.notConfigured client = false /\
    ProxmoxClient.host client = Js.trim (Session.host settings ?? "") /\
    ProxmoxClient.allowInsecure client = Session.allowInsecure settings ?? false /\
    fst (Session.getApiToken settings interactive tokenChoice s)
    = Some (ProxmoxClient.apiToken client).
Proof.
  intros toLocaleString settings interactive tokenChoice insecureChoice s s' client Hs.
  unfold Session.createClient.
  pose proof (fun token => getApiToken_token settings interactive tokenChoice s token Hs)
    as Htoken.
  destruct (Session.getApiToken settings interactive tokenChoice s) as [token s1].
  cbn [fst] in Htoken.
  destruct (Js.truthy (Js.trim (Session.host settings ?? ""))) eqn:Hhost; cbn [negb];
    [|destruct interactive; discriminate].
  destruct token as [token|]; cbn [Session.given]; [|discriminate].
  destruct (Htoken token eq_refl) as [Htrim Hne].
  assert (Js.truthy token = true) as Htruthy by (apply truthy_iff, Hne).
  rewrite Htruthy. cbn [negb].
  assert (forall state,
            (Some (ProxmoxClient.new
                     {| ProxmoxClientConfig.host := Session.host settings ?? "";
                        ProxmoxClientConfig.apiToken := Some token ?? "";
                        ProxmoxClientConfig.allowInsecure :=
                          Some (Session.allowInsecure settings ?? false) |}), state)
            = (Some client, s') ->
            ProxmoxClient.notConfigured client = false /\
            ProxmoxClient.host client = Js.trim (Session.host settings ?? "") /\
            ProxmoxClient.allowInsecure client = Session.allowInsecure settings ?? false /\
            Some token = Some (ProxmoxClient.apiToken client)) as Hcreate.
  { intros state H. injection H as <- _.
    unfold ProxmoxClient.notConfigured, ProxmoxClient.new.
    cbn [ProxmoxClient.host ProxmoxClient.apiToken ProxmoxClient.allowInsecure
         ProxmoxClientConfig.host ProxmoxClientConfig.apiToken
         ProxmoxClientConfig.allowInsecure orElse].
    rewrite Hhost, Htrim, Htruthy. auto. }
  destruct (interactive && (Session.allowInsecure settings ?? false))%bool;
    [|apply Hcreate].
  destruct (negb (Session.suppressInsecureWarning s1 ?? false)); [|apply Hcreate].
  destruct (negb (Session.answered insecureChoice "Continue")); [discriminate|].
  apply Hcreate.
Qed.

Lemma X19_witness :
  exists client,
    fst (Session.createClient (fun _ => "")
           {| Session.host := Some " https://h:8006 "; Session.apiToken := None;
              Session.allowInsecure := None |} false None None
           (Session.setApiToken (Some "u@pve!t=secret") Session.start))
    = Some client /\
    ProxmoxClient.notConfigured client = false.
Proof.
  exists (ProxmoxClient.new
            {| ProxmoxClientConfig.host := " https://h:8006 ";
               ProxmoxClientConfig.apiToken := "u@pve!t=secret";
               ProxmoxClientConfig.allowInsecure := Some false |}).
  split; [reflexivity|].
  apply (X19_created_client_is_configured (fun _ => "")
           {| Session.host := Some " https://h:8006 "; Session.apiToken := None;
              Session.allowInsecure := None |} false None None
           (Session.setApiToken (Some "u@pve!t=secret") Session.start)
           (Session.setApiToken (Some "u@pve!t=secret") Session.start)
           (ProxmoxClient.new
              {| ProxmoxClientConfig.host := " https://h:8006 ";
                 ProxmoxClientConfig.apiToken := "u@pve!t=secret";
                 ProxmoxClientConfig.allowInsecure := Some false |})).
  - split; [discriminate|reflexivity].
  - reflexivity.
Defined.

Lemma getApiToken_silent (settings : Session.Settings) (choice : option string)
    (s : Session.State) :
  Session.getApiToken settings false choice s
  = (fst (Session.getApiToken settings false None s), s).
Proof.
  unfold Session.getApiToken.
  destruct (Session.given (Session.secret s)); [reflexivity|].
  destruct (Js.truthy (Js.trim (Session.apiToken settings ?? ""))); reflexivity.
Qed.

(** X20.  Without interaction [createClient] is silent: it shows no message
    and no prompt, stores nothing and leaves the status bar alone, whatever
    the settings and the state, and no answer has any influence on it. *)
Theorem X20_background_client_is_silent :
  forall (toLocaleString : Z -> string) (settings : Session.Settings)
         (tokenChoice insecureChoice : option string) (s : Session.State),
    snd (Session.createClient toLocaleString settings false tokenChoice insecureChoice s)
    = s /\
    Session.createClient toLocaleString settings false tokenChoice insecureChoice s
    = Session.createClient toLocaleString settings false None None s.
Proof.
  intros toLocaleString settings tokenChoice insecureChoice s.
  unfold Session.createClient.
  rewrite (getApiToken_silent settings tokenChoice s),
    (getApiToken_silent settings None s).
  cbn [fst andb].
  destruct (negb (Js.truthy (Js.trim (Session.host settings ?? ""))));
    [split; reflexivity|].
  destruct (negb (Session.given (fst (Session.getApiToken settings false None s))));
    split; reflexivity.
Qed.

Lemma getApiToken_stored (settings : Session.Settings) (interactive : bool)
    (choice : option string) (s : Session.State) (token : string) :
  Session.secret s = Some token -> Js.truthy token = true ->
  Session.getApiToken settings interactive choice s = (Some token, s).
Proof.
  intros Hsecret Htoken. unfold Session.getApiToken.
  rewrite Hsecret. cbn [Session.given]. rewrite Htoken. reflexivity.
Qed.

Lemma createClient_suppressed (toLocaleString : Z -> string) (settings : Session.Settings)
    (tokenChoice insecureChoice : option string) (s : Session.State) (token : string) :
  Session.secret s = Some token -> Js.truthy token = true ->
  Js.truthy (Js.trim (Session.host settings ?? "")) = true ->
  Session.allowInsecure settings = Some true ->
  Session.suppressInsecureWarning s = Some true ->
  Session.createClient toLocaleString settings true tokenChoice insecureChoice s
  = (Some (ProxmoxClient.new
             {| ProxmoxClientConfig.host := Session.host settings ?? "";
                ProxmoxClientConfig.apiToken := token;
                ProxmoxClientConfig.allowInsecure := Some true |}), s).
Proof.
  intros Hsecret Htoken Hhost Hinsecure Hsuppress. unfold Session.createClient.
  rewrite (getApiToken_stored settings true tokenChoice s token Hsecret Htoken).
  rewrite Hhost, Hinsecure, Hsuppress. cbn [negb Session.given orElse andb].
  rewrite Htoken. reflexivity.
Qed.

(** X21.  The warning about insecure TLS: with host and token there, the
    setting on and the warning not suppressed, an interactive [createClient]
    gives a client only for the answer Continue.  The answer Don't show again
    records the suppression and still gives no client, the status going back
    to unknown; the next interactive [createClient] then gives the insecure
    client without a prompt, until [resetInsecureWarning] brings the warning
    back. *)
Theorem X21_insecure_warning_answers :
  forall (toLocaleString : Z -> string) (settings : Session.Settings)
         (tokenChoice insecureChoice : option string) (s : Session.State)
         (token : string),
    Session.secret s = Some token -> token <> "" ->
    Js.trim (Session.host settings ?? "") <> "" ->
    Session.allowInsecure settings = Some true ->
    Session.suppressInsecureWarning s ?? false = false ->
    let run :=
      Session.createClient toLocaleString settings true tokenChoice insecureChoice s in
    (fst run <> None <-> insecureChoice = Some "Continue") /\
    (insecureChoice = Some "Continue" ->
     Session.suppressInsecureWarning (snd run) = Session.suppressInsecureWarning s) /\
    (insecureChoice = Some "Don't show again" ->
     fst run = None /\
     Session.suppressInsecureWarning (snd run) = Some true /\
     Session.statusState (snd run) = Session.unknown /\
     (forall tokenChoice' insecureChoice',
        exists client,
          Session.createClient toLocaleString settings true tokenChoice' insecureChoice'
            (snd run) = (Some client, snd run) /\
          ProxmoxClient.allowInsecure client = true) /\
     Session.suppressInsecureWarning (Session.resetInsecureWarning (snd run)) = Some false).
Proof.
  intros toLocaleString settings tokenChoice insecureChoice s token
    Hsecret Htoken Hhost Hinsecure Hsuppress run.
  apply truthy_iff in Htoken, Hhost.
  assert (run
          = let s2 :=
              Session.show
                (Session.WarningMessage
                   "Allow insecure TLS is enabled for Proxmox. This skips certificate validation."
                   ["Continue"; "Don't show again"]) s in
            let s3 :=
              if Session.answered insecureChoice "Don't show again"
              then Session.updateSuppress true s2 else s2 in
            if negb (Session.answered insecureChoice "Continue")
            then (None,
                  Session.updateStatusBar toLocaleString
                    (Session.setStatus Session.unknown (Session.lastRefresh s3)
                       (Session.lastError s3) s3))
            else (Some (ProxmoxClient.new
                          {| ProxmoxClientConfig.host := Session.host settings ?? "";
                             ProxmoxClientConfig.apiToken := token;
                             ProxmoxClientConfig.allowInsecure := Some true |}), s3))
    as Hrun.
  { subst run. unfold Session.createClient.
    rewrite (getApiToken_stored settings true tokenChoice s token Hsecret Htoken).
    rewrite Hhost, Hinsecure. cbn [negb Session.given orElse andb].
    rewrite Htoken. cbn [negb].
    change (Session.suppressInsecureWarning s ?? false) with
      (Session.suppressInsecureWarning s ?? false).
    rewrite Hsuppress. reflexivity. }
  rewrite Hrun. cbv zeta. clear Hrun run.
  split; [|split].
  - destruct insecureChoice as [answer|]; cbn [Session.answered].
    + destruct (String.eqb_spec answer "Continue") as [->|Hother]; cbn [negb fst].
      * split; [reflexivity|discriminate].
      * split; [intros H; contradiction H; reflexivity|].
        intros H. injection H as ->. contradiction Hother. reflexivity.
    + cbn [negb fst]. split; [intros H; contradiction H; reflexivity|discriminate].
  - intros ->. reflexivity.
  - intros ->.
    change (Session.answered (Some "Don't show again") "Don't show again") with true.
    change (Session.answered (Some "Don't show again") "Continue") with false.
    cbn [negb fst snd].
    split; [reflexivity|]. split; [reflexivity|]. split; [reflexivity|].
    split; [|reflexivity].
    intros tokenChoice' insecureChoice'. eexists. split.
    + apply (createClient_suppressed toLocaleString settings tokenChoice'
               insecureChoice' _ token); try assumption; reflexivity || exact Hsecret.
    + reflexivity.
Qed.

Lemma X21_witness :
  fst (Session.createClient (fun _ => "")
         {| Session.host := Some "https://h:8006"; Session.apiToken := None;
            Session.allowInsecure := Some true |} true None (Some "Don't show again")
         (Session.setApiToken (Some "u@pve!t=secret") Session.start))
  = None.
Proof.
  destruct (X21_insecure_warning_answers (fun _ => "")
              {| Session.host := Some "https://h:8006"; Session.apiToken := None;
                 Session.allowInsecure := Some true |} None (Some "Don't show again")
              (Session.setApiToken (Some "u@pve!t=secret") Session.start)
              "u@pve!t=secret" eq_refl) as (_ & _ & Hdont);
    [discriminate|vm_compute; discriminate|reflexivity|reflexivity|].
  destruct (Hdont eq_refl) as [Hnone _]. exact Hnone.
Defined.

(** The status bar as [activate] first draws it. *)
Example start_status_bar :
  Session.updateStatusBar (fun _ => "") Session.start = Session.start.
Proof. reflexivity. Qed.

(** A failure, then a success: the tooltip names the error, then no more. *)
Example status_bar_after_failure_and_success :
  let failed := Session.markDisconnected (fun _ => "1/5/2024, 9:07:00 AM") 0
                  "connect ECONNREFUSED" Session.start in
  let recovered := Session.markConnected (fun _ => "1/5/2024, 9:12:00 AM") 300000 failed in
  Session.statusText failed = "$(circle-slash) Proxmox" /\
  Session.statusTooltip failed
  = "Proxmox: Disconnected" ++ Session.newline ++ "Last refresh: 1/5/2024, 9:07:00 AM"
    ++ Session.newline ++ "Last error: connect ECONNREFUSED" /\
  Session.statusText recovered = "$(plug) Proxmox" /\
  Session.statusTooltip recovered
  = "Proxmox: Connected" ++ Session.newline ++ "Last refresh: 1/5/2024, 9:12:00 AM".
Proof. vm_compute. repeat split; reflexivity. Qed.

(** A secret of white space only, which no command stores, passes the checks
    of [createClient] and gives a client with an empty token; starting a guest
    with it sends a request. *)
Example blank_secret_reaches_the_transport :
  let s := Session.storeSecret (Some " ") Session.start in
  let settings := {| Session.host := Some "https://h:8006"; Session.apiToken := None;
                     Session.allowInsecure := None |} in
  exists client,
    fst (Session.createClient (fun _ => "") settings true None None s) = Some client /\
    ProxmoxClient.apiToken client = "" /\
    List.length (issued (perform Double.platform client (startGuest "pve1" VmType.qemu 100)) [])
    = 1%nat.
Proof. eexists. vm_compute. repeat split; reflexivity. Qed.

(** * Properties of the explorer tree *)

Lemma orPlaceholder_not_empty {A} (text : string)
    (f : A -> Explorer.ProxmoxExplorerItem) (l : list A) :
  Explorer.orPlaceholder text f l <> [].
Proof. destruct l; discriminate. Qed.

(** An awaited computation followed by a step that cannot fail and gives a
    list that is not empty. *)
Lemma await_then_not_empty {A B} (p : Promise A) (f : A -> list B) (log : list Invocation) :
  (forall a, f a <> []) ->
  forall items, fst (await p (fun a => resolve (f a)) log) = inr items -> items <> [].
Proof.
  intros Hf items. unfold await, resolve.
  destruct (p log) as [[e|a] log']; cbn; [discriminate|].
  intros H. injection H as <-. apply Hf.
Qed.

(** X22.  [getChildren] is never rejected: what goes wrong while the children
    are loaded, in [getClient] or in the operation of the client, becomes the
    one item [Failed to load Proxmox data] with the message as description;
    it makes no request of its own; and the list it gives is empty only for an
    element that is neither a node with a name nor a guest. *)
Theorem X22_getChildren_always_shows_something :
  forall (display : Explorer.Display) (rt : Runtime)
         (getClient : Promise (option ProxmoxClient.t))
         (element : option Explorer.ProxmoxExplorerItem) (log : list Invocation),
    let loaded := Explorer.loadChildren display rt getClient element log in
    exists items,
      Explorer.getChildren display rt getClient element log = (inr items, snd loaded) /\
      (forall error, fst loaded = inl error ->
         items = [Explorer.item "Failed to load Proxmox data" Explorer.NotCollapsible
                    Explorer.Kind.error None
                    (Some (Explorer.messageOf display error)) (Some "error")]) /\
      (forall children, fst loaded = inr children -> items = children) /\
      (items = [] ->
       exists e, element = Some e /\
                 Explorer.nodeToExpand e = None /\ Explorer.vmToExpand e = None).
Proof.
  intros display rt getClient element log loaded.
  unfold Explorer.getChildren, catch. fold loaded.
  destruct loaded as [[error|children] log'] eqn:Hloaded; cbn [fst snd resolve].
  - eexists. split; [reflexivity|]. split; [|split].
    + intros error' H. injection H as <-. reflexivity.
    + discriminate.
    + discriminate.
  - exists children. split; [reflexivity|]. split; [discriminate|]. split.
    + intros children' H. injection H as <-. reflexivity.
    + intros ->. subst loaded. unfold Explorer.loadChildren in Hloaded.
      apply (f_equal fst) in Hloaded. cbn [fst] in Hloaded.
      unfold await at 1 in Hloaded.
      destruct (getClient log) as [[e|[client|]] log0]; cbn in Hloaded;
        try discriminate Hloaded.
      destruct element as [e|].
      * exists e. split; [reflexivity|].
        destruct (Explorer.nodeToExpand e) as [name|].
        { exfalso.
          apply (await_then_not_empty _
                   (Explorer.orPlaceholder "No VMs found" (Explorer.vmItem display)) _
                   (orPlaceholder_not_empty _ _) [] Hloaded eq_refl). }
        split; [reflexivity|].
        destruct (Explorer.vmToExpand e) as [guest|]; [|reflexivity].
        exfalso.
        apply (await_then_not_empty _
                 (Explorer.orPlaceholder "No snapshots"
                    (Explorer.snapshotItem display guest)) _
                 (orPlaceholder_not_empty _ _) [] Hloaded eq_refl).
      * exfalso.
        apply (await_then_not_empty _
                 (Explorer.orPlaceholder "No nodes found" Explorer.nodeItem) _
                 (orPlaceholder_not_empty _ _) [] Hloaded eq_refl).
Qed.

(** X23.  A server error reaches the tree as it is: when the client is there
    and the node collection is answered with a status outside 200..299, the
    root of the tree is the one item [Failed to load Proxmox data], a leaf of
    kind error, whose description holds the status code and the body of the
    response. *)
Theorem X23_server_error_is_shown_in_the_tree :
  forall (display : Explorer.Display) (rt : Runtime)
         (getClient : Promise (option ProxmoxClient.t)) (client : ProxmoxClient.t)
         (log log0 : list Invocation) (url : URL) (code : Z) (chunks : list string),
    getClient log = (inr (Some client), log0) ->
    ProxmoxClient.notConfigured client = false ->
    endpoint rt client "api2/json/nodes" = Some url ->
    respond rt log0 (ProxmoxClient.invocationOf client url GET None)
    = Response (Some code) chunks ->
    code < 200 \/ 300 <= code ->
    exists text,
      fst (Explorer.getChildren display rt getClient None log)
      = inr [Explorer.item "Failed to load Proxmox data" Explorer.NotCollapsible
               Explorer.Kind.error None (Some text) (Some "error")] /\
      Js.contains text (Js.Number_toString code) /\
      Js.contains text (String.concat "" chunks).
Proof.
  intros display rt getClient client log log0 url code chunks
    Hclient Hc Hurl Hresp Hcode.
  assert (ProxmoxClient.notOk (Some code) = true) as HnotOk.
  { unfold ProxmoxClient.notOk. apply orb_true_iff.
    destruct Hcode; [left; apply orb_true_iff; right|right]; lia. }
  exists (ProxmoxClient.apiErrorMessage (Some code) (String.concat "" chunks)).
  split.
  - unfold Explorer.getChildren, catch, Explorer.loadChildren.
    unfold await at 1. rewrite Hclient.
    unfold ProxmoxClient.listNodes. rewrite Hc.
    unfold endpoint in Hurl. unfold ProxmoxClient.construct, await.
    destruct (URL_new rt _ None) as [baseUrl|]; [|discriminate].
    cbn. rewrite Hurl. cbn.
    unfold ProxmoxClient.requestJson. rewrite Hresp, HnotOk. reflexivity.
  - unfold ProxmoxClient.apiErrorMessage. cbn [option_map orElse].
    split; [apply contains_middle|].
    rewrite <- !append_assoc. apply contains_end.
Qed.

(** On the double, with a client whose host answers nothing that is known:
    the connection is refused, which is no status; with the node collection of
    a host that answers 500, the item shows it. *)
Lemma X23_witness :
  exists text,
    fst (Explorer.getChildren
           {| Explorer.bullet := "*"; Explorer.toLocaleString := fun _ => "";
              Explorer.platformMessage := fun _ => "" |}
           (Double.runtime []
              [("https://h:8006/api2/json/nodes",
                Response (Some 500) [Double.quoted "permission denied"])] false)
           (resolve (Some Double.pve)) None [])
    = inr [Explorer.item "Failed to load Proxmox data" Explorer.NotCollapsible
             Explorer.Kind.error None (Some text) (Some "error")] /\
    Js.contains text "500".
Proof.
  destruct (X23_server_error_is_shown_in_the_tree
              {| Explorer.bullet := "*"; Explorer.toLocaleString := fun _ => "";
                 Explorer.platformMessage := fun _ => "" |}
              (Double.runtime []
                 [("https://h:8006/api2/json/nodes",
                   Response (Some 500) [Double.quoted "permission denied"])] false)
              (resolve (Some Double.pve)) Double.pve [] []
              {| protocol := "https:"; href := "https://h:8006/api2/json/nodes" |}
              500 [Double.quoted "permission denied"]
              eq_refl eq_refl eq_refl eq_refl) as (text & Hrun & Hcode & _).
  - right. lia.
  - exists text. split; [exact Hrun|exact Hcode].
Defined.

Lemma mergeVms_node (node : string) (guest : ProxmoxVm.t)
    (qemuResponse lxcResponse : Wire.Envelope (list Wire.VmEntry)) :
  In guest (ProxmoxClient.mergeVms node qemuResponse lxcResponse) ->
  ProxmoxVm.node guest = node.
Proof.
  intros H. apply In_mergeVms in H.
  destruct H as [(entry & _ & ->)|(entry & _ & ->)]; reflexivity.
Qed.

(** X24.  Expanding a node of the tree lists the guests of that node: when
    the client is there and both collections are fetched, the children of a
    node item are one item for each guest [listVirtualMachines] returns, in
    the order of the ids, or the one leaf [No VMs found]; each guest item
    carries its guest, whose node is the node expanded, and expanding it
    asks for the snapshots of that guest and of no other. *)
Theorem X24_node_item_expands_to_its_guests :
  forall (display : Explorer.Display) (rt : Runtime)
         (getClient : Promise (option ProxmoxClient.t)) (client : ProxmoxClient.t)
         (element : Explorer.ProxmoxExplorerItem) (name : string)
         (log log0 log1 log2 : list Invocation)
         (qemuResponse lxcResponse : Wire.Envelope (list Wire.VmEntry)),
    getClient log = (inr (Some client), log0) ->
    ProxmoxClient.notConfigured client = false ->
    Explorer.nodeToExpand element = Some name ->
    fetches rt client (as_vms rt) (guestsPath name VmType.qemu) log0 qemuResponse log1 ->
    fetches rt client (as_vms rt) (guestsPath name VmType.lxc) log1 lxcResponse log2 ->
    exists vms,
      ProxmoxClient.listVirtualMachines rt client name log0 = (inr vms, log2) /\
      StronglySorted (fun a b => ProxmoxVm.id a <= ProxmoxVm.id b) vms /\
      Explorer.getChildren display rt getClient (Some element) log
      = (inr (match vms with
              | [] => [Explorer.placeholder "No VMs found"]
              | _ => map (Explorer.vmItem display) vms
              end), log2) /\
      (forall guest, In guest vms ->
         ProxmoxVm.node guest = name /\
         Explorer.kind (Explorer.vmItem display guest) = Explorer.Kind.vm /\
         Explorer.nodeToExpand (Explorer.vmItem display guest) = None /\
         Explorer.vmToExpand (Explorer.vmItem display guest) = Some guest) /\
      Explorer.nodeToExpand (Explorer.placeholder "No VMs found") = None /\
      Explorer.vmToExpand (Explorer.placeholder "No VMs found") = None.
Proof.
  intros display rt getClient client element name log log0 log1 log2 q lx
    Hclient Hc Hname Hq Hl.
  pose proof (listVirtualMachines_returns rt client name log0 log1 log2 q lx Hc Hq Hl)
    as Hrun.
  exists (ProxmoxClient.mergeVms name q lx).
  split; [exact Hrun|]. split; [apply (Array_sort_sorted ProxmoxVm.id)|].
  split; [|split; [|split; reflexivity]].
  - unfold Explorer.getChildren, catch, Explorer.loadChildren.
    unfold await at 1. rewrite Hclient, Hname.
    unfold await. rewrite Hrun. reflexivity.
  - intros guest Hin. split; [eapply mergeVms_node; exact Hin|].
    repeat split; reflexivity.
Qed.

(** On the double, the node [pve1] expands to its container 50 and its
    machine 100. *)
Lemma X24_witness :
  map Explorer.label
    (match fst (Explorer.getChildren
                  {| Explorer.bullet := "*"; Explorer.toLocaleString := fun _ => "";
                     Explorer.platformMessage := fun _ => "" |}
                  Double.platform (resolve (Some Double.pve))
                  (Some (Explorer.nodeItem
                           {| ProxmoxNode.name := "pve1";
                              ProxmoxNode.status := NodeStatus.online |})) []) with
     | inr items => items
     | inl _ => []
     end)
  = ["VM 50 (50)"; "web (100)"].
Proof.
  destruct (X24_node_item_expands_to_its_guests
              {| Explorer.bullet := "*"; Explorer.toLocaleString := fun _ => "";
                 Explorer.platformMessage := fun _ => "" |}
              Double.platform (resolve (Some Double.pve)) Double.pve
              (Explorer.nodeItem
                 {| ProxmoxNode.name := "pve1"; ProxmoxNode.status := NodeStatus.online |})
              "pve1" [] [] _ _ _ _ eq_refl eq_refl eq_refl
              (ex_intro _ _ (conj eq_refl eq_refl))
              (ex_intro _ _ (conj eq_refl eq_refl)))
    as (vms & Hrun & _ & Hchildren & _).
  rewrite Hchildren. vm_compute in Hrun. injection Hrun as <-. reflexivity.
Defined.
